(** * Price tracker: a shallow embedding of [tracker.py]

    The development follows the layout of the program:
    - [PyFloat]: Python's [float] (IEEE 754 binary64) and the arithmetic
      and comparison operators the tracker uses on prices;
    - [Text]: Python's [str] as a list of code points, with [replace],
      [strip], the search for the digit pattern of the extractor and
      [float(...)] on its matches;
    - [Extract]: [_extract_price_from_text], [_scrape_amazon] and
      [_scrape_generic];
    - [Tracker]: the [PriceTracker] class as a state-and-exception monad
      over the store, the outside world and a log of effects;
    - [Spec]: the wording of the specification, to compare with the
      program;
    - [Examples]: concrete pages, stores and surroundings.

    The modules after these hold the proofs: [TextFacts] (extraction and
    the order of the rules), [TrendFacts], [StoreFacts] and
    [TrackerFacts] ([add_product], the empty [check_all]), [FloatFacts]
    and [InvariantFacts] (the sign of stored prices), [AlertFacts],
    [CheckFacts] and [ZeroPriceFacts] (the percentages that divide by a
    stored price), and [Runs] (the theorems at concrete inputs). *)

From Stdlib Require Import ZArith NArith List Bool Lia String Ascii.
From Stdlib Require Import Floats.SpecFloat.
Import ListNotations.

Set Implicit Arguments.

(** ** Python exceptions and results *)

Inductive exn : Type :=
| ZeroDivisionError
| KeyError
| ValueError
| IndexError
| OverflowError.

Inductive result (A : Type) : Type :=
| Ok (a : A)
| Raise (e : exn).

Arguments Ok {A} a.
Arguments Raise {A} e.

(** ** Python floats *)

Module PyFloat.

(** A Python [float] is an IEEE 754 binary64 number: 53 bits of
    precision, exponents below 1024. *)
Definition prec : Z := 53.
Definition emax : Z := 1024.

Definition float : Type := spec_float.

Definition pzero : float := S754_zero false.
Definition pinf : float := S754_infinity false.

(** An integer, converted as Python converts an [int] operand. *)
Definition of_Z (z : Z) : float := binary_normalize prec emax z 0 false.

(** [of_decimal n k] is the float nearest to [n / 10^k] (ties to even),
    which is what [float] returns on the digits of [n] with the point
    [k] places from the right.  A quotient too large for a binary64
    rounds to infinity: [float] does not raise on overflow. *)
Definition of_decimal (n : Z) (k : nat) : float :=
  match n with
  | Zpos p =>
      SFdiv prec emax (S754_finite false p 0)
                      (S754_finite false (Z.to_pos (10 ^ Z.of_nat k)) 0)
  | _ => pzero
  end.

(** [a - b] and [a * b]: the IEEE operations, which never raise. *)
Definition sub (a b : float) : float := SFsub prec emax a b.
Definition mul (a b : float) : float := SFmul prec emax a b.

(** Comparisons: any comparison with a NaN is false. *)
Definition eqb (a b : float) : bool := SFeqb a b.
Definition ltb (a b : float) : bool := SFltb a b.
Definition gtb (a b : float) : bool := SFltb b a.
Definition geb (a b : float) : bool := SFleb b a.
Definition neb (a b : float) : bool := negb (SFeqb a b).

(** [a / b]: Python raises [ZeroDivisionError] when the divisor compares
    equal to zero (either sign), and divides as IEEE otherwise. *)
Definition div (a b : float) : result float :=
  if eqb b pzero then Raise ZeroDivisionError
  else Ok (SFdiv prec emax a b).

(** A price that is a number and not negative: a zero, a positive
    finite number or plus infinity. *)
Definition nonneg (x : float) : bool :=
  match x with
  | S754_zero _ => true
  | S754_finite s _ _ => negb s
  | S754_infinity s => negb s
  | S754_nan => false
  end.

Definition is_finite (x : float) : bool :=
  match x with
  | S754_zero _ | S754_finite _ _ _ => true
  | _ => false
  end.

End PyFloat.

(** ** Python strings *)

Module Text.

(** A [str] is a sequence of Unicode code points. *)
Definition char : Type := N.
Definition pystr : Type := list char.

Definition of_ascii (c : ascii) : char := N_of_ascii c.

(** The code points of a string of ASCII characters. *)
Fixpoint lit (s : string) : pystr :=
  match s with
  | EmptyString => []
  | String c s' => of_ascii c :: lit s'
  end.

Definition dollar : char := 36%N.     (* U+0024, the dollar sign *)
Definition pound : char := 163%N.     (* U+00A3, the pound sign *)
Definition euro : char := 8364%N.     (* U+20AC, the euro sign *)
Definition comma : char := 44%N.      (* U+002C *)
Definition dot : char := 46%N.        (* U+002E *)

(** [\d] in a [str] pattern, and the digits [float] accepts: the code
    points of category Nd.  They come in runs of ten, zero to nine; the
    table lists the zero of each run (Unicode 14). *)
Definition nd_zeros : list N :=
  [ 0x30; 0x660; 0x6f0; 0x7c0; 0x966; 0x9e6; 0xa66; 0xae6; 0xb66; 0xbe6;
    0xc66; 0xce6; 0xd66; 0xde6; 0xe50; 0xed0; 0xf20; 0x1040; 0x1090;
    0x17e0; 0x1810; 0x1946; 0x19d0; 0x1a80; 0x1a90; 0x1b50; 0x1bb0;
    0x1c40; 0x1c50; 0xa620; 0xa8d0; 0xa900; 0xa9d0; 0xa9f0; 0xaa50;
    0xabf0; 0xff10; 0x104a0; 0x10d30; 0x11066; 0x110f0; 0x11136;
    0x111d0; 0x112f0; 0x11450; 0x114d0; 0x11650; 0x116c0; 0x11730;
    0x118e0; 0x11950; 0x11c50; 0x11d50; 0x11da0; 0x16a60; 0x16ac0;
    0x16b50; 0x1d7ce; 0x1d7d8; 0x1d7e2; 0x1d7ec; 0x1d7f6; 0x1e140;
    0x1e2f0; 0x1e950; 0x1fbf0 ]%N.

Definition decimal_value (c : char) : option N :=
  match find (fun z => (z <=? c) && (c <? z + 10))%N nd_zeros with
  | Some z => Some (c - z)%N
  | None => None
  end.

Definition is_digit (c : char) : bool :=
  match decimal_value c with Some _ => true | None => false end.

(** The code points [str.strip()] removes ([str.isspace]). *)
Definition whitespace : list N :=
  [ 0x9; 0xa; 0xb; 0xc; 0xd; 0x1c; 0x1d; 0x1e; 0x1f; 0x20; 0x85; 0xa0;
    0x1680; 0x2000; 0x2001; 0x2002; 0x2003; 0x2004; 0x2005; 0x2006;
    0x2007; 0x2008; 0x2009; 0x200a; 0x2028; 0x2029; 0x202f; 0x205f;
    0x3000 ]%N.

Definition is_space (c : char) : bool := existsb (N.eqb c) whitespace.

(** [s.replace(c, '')] for a one-character [c]. *)
Definition remove_char (c : char) (s : pystr) : pystr :=
  filter (fun x => negb (N.eqb x c)) s.

Fixpoint lstrip (s : pystr) : pystr :=
  match s with
  | c :: s' => if is_space c then lstrip s' else s
  | [] => []
  end.

Definition rstrip (s : pystr) : pystr := rev (lstrip (rev s)).

(** [s.strip()] *)
Definition strip (s : pystr) : pystr := rstrip (lstrip s).

(** The longest prefix of digits, and the rest. *)
Fixpoint span_digits (s : pystr) : pystr * pystr :=
  match s with
  | c :: s' =>
      if is_digit c
      then let (ds, r) := span_digits s' in (c :: ds, r)
      else ([], s)
  | [] => ([], [])
  end.

(** [\.?]: one point if there is one (greedy). *)
Definition opt_dot (s : pystr) : pystr * pystr :=
  match s with
  | c :: s' => if N.eqb c dot then ([c], s') else ([], s)
  | [] => ([], [])
  end.

(** [\d+\.?\d*] anchored at the head of [s]: each quantifier is greedy
    and the first attempt succeeds whenever [s] starts with a digit, so
    there is no backtracking. *)
Definition match_here (s : pystr) : option pystr :=
  let (ds, r) := span_digits s in
  match ds with
  | [] => None
  | _ :: _ =>
      let (pt, r') := opt_dot r in
      let (fs, _) := span_digits r' in
      Some (ds ++ pt ++ fs)
  end.

(** [re.search] for the pattern [\d+\.?\d* ] (its only group), on [s]:
    group 1 of the leftmost match;
    the start positions are tried from left to right. *)
Fixpoint re_search (s : pystr) : option pystr :=
  match match_here s with
  | Some m => Some m
  | None =>
      match s with
      | _ :: s' => re_search s'
      | [] => None
      end
  end.

(** The number a run of digits writes, most significant digit first. *)
Definition digits_value (ds : pystr) : Z :=
  fold_left
    (fun acc c =>
       match decimal_value c with
       | Some d => 10 * acc + Z.of_N d
       | None => acc
       end)%Z
    ds 0%Z.

(** [float(s)] on the texts the pattern can match: digits, then
    optionally a point and more digits.  Python's [float] accepts more
    (signs, exponents, [inf], [nan], blanks around the number): on any
    other text this model answers [ValueError]. *)
Definition py_float (s : pystr) : result PyFloat.float :=
  let (ip, r) := span_digits s in
  let (pt, r') := opt_dot r in
  let (fp, rest) := span_digits r' in
  match rest, ip ++ fp with
  | [], _ :: _ =>
      Ok (PyFloat.of_decimal (digits_value (ip ++ fp)) (List.length fp))
  | _, _ => Raise ValueError
  end.

End Text.

(** ** Price extraction *)

Module Extract.
Import Text.

(** [_extract_price_from_text] *)
Definition _extract_price_from_text (text : pystr) : option PyFloat.float :=
  let text := remove_char euro (remove_char pound (remove_char dollar text)) in
  let text := strip (remove_char comma text) in
  match re_search text with
  | Some m =>
      match py_float m with
      | Ok f => Some f
      | Raise _ => None
      end
  | None => None
  end.

(** The four [replace] calls of the extractor, one after the other. *)
Definition clean (s : pystr) : pystr :=
  remove_char comma
    (remove_char euro (remove_char pound (remove_char dollar s))).

Definition kept (x : char) : bool :=
  negb (N.eqb x dollar) && negb (N.eqb x pound) && negb (N.eqb x euro)
  && negb (N.eqb x comma).

(** What the scrapers ask of a parsed page: for a CSS selector, the
    [get_text()] of each element [soup.select] returns, in document
    order. *)
Inductive selector : Type :=
| TagClass (tag cls : string)        (* tag.cls *)
| TagId (tag id : string)            (* tag#id *)
| ClassContains (part : string)      (* [class*=part] *)
| IdContains (part : string).        (* [id*=part] *)

Definition Soup : Type := selector -> list pystr.

Definition amazon_selectors : list selector :=
  [ TagClass "span" "a-price-whole";
    TagClass "span" "a-offscreen";
    TagId "span" "priceblock_ourprice";
    TagId "span" "priceblock_dealprice";
    TagClass "span" "a-color-price" ].

Definition generic_selectors : list selector :=
  [ ClassContains "price";
    IdContains "price";
    ClassContains "Price";
    TagClass "span" "price";
    TagClass "div" "price";
    TagClass "p" "price" ].

(** The inner loop: the first element whose stripped text holds a
    price. *)
Fixpoint first_price (texts : list pystr) : option PyFloat.float :=
  match texts with
  | [] => None
  | t :: rest =>
      match _extract_price_from_text (strip t) with
      | Some price => Some price
      | None => first_price rest
      end
  end.

(** The outer loop, over the selectors in their order. *)
Fixpoint scrape_with (selectors : list selector) (soup : Soup)
  : option PyFloat.float :=
  match selectors with
  | [] => None
  | sel :: rest =>
      match first_price (soup sel) with
      | Some price => Some price
      | None => scrape_with rest soup
      end
  end.

Definition _scrape_amazon (soup : Soup) : option PyFloat.float :=
  scrape_with amazon_selectors soup.

Definition _scrape_generic (soup : Soup) : option PyFloat.float :=
  scrape_with generic_selectors soup.

End Extract.

(** ** The tracker *)

Module Tracker.
Import Text Extract.

Definition float : Type := PyFloat.float.

(** One entry of a product's ["prices"] list. *)
Record observation : Type := { date : pystr; price : float }.

(** One value of the [products] dictionary. *)
Record product : Type :=
  { name : pystr; url : pystr; prices : list observation }.

(** [self.products]: a [dict], which keeps its keys in insertion order
    and holds each key once. *)
Definition store : Type := list (pystr * product).

Fixpoint str_eqb (a b : pystr) : bool :=
  match a, b with
  | [], [] => true
  | x :: a', y :: b' => N.eqb x y && str_eqb a' b'
  | _, _ => false
  end.

(** [products[key]] *)
Fixpoint lookup (key : pystr) (st : store) : option product :=
  match st with
  | [] => None
  | (k, v) :: rest => if str_eqb key k then Some v else lookup key rest
  end.

(** [key in products] *)
Definition mem (key : pystr) (st : store) : bool :=
  match lookup key st with Some _ => true | None => false end.

(** [products[key] = v]: the value of a present key is replaced where
    it stands, a new key goes last. *)
Fixpoint insert (key : pystr) (v : product) (st : store) : store :=
  match st with
  | [] => [(key, v)]
  | (k, w) :: rest =>
      if str_eqb key k then (k, v) :: rest else (k, w) :: insert key v rest
  end.

Definition keys (st : store) : list pystr := map fst st.

(** [xs[-k]] for [1 <= k <= len(xs)] *)
Definition nth_last {A : Type} (k : nat) (xs : list A) : option A :=
  nth_error xs (List.length xs - k).

(** [needle in hay] on strings *)
Fixpoint starts_with (needle hay : pystr) : bool :=
  match needle, hay with
  | [], _ => true
  | x :: n', y :: h' => N.eqb x y && starts_with n' h'
  | _ :: _, [] => false
  end.

Fixpoint contains (needle hay : pystr) : bool :=
  starts_with needle hay
  || match hay with
     | [] => false
     | _ :: h' => contains needle h'
     end.

(** What the program prints, by print statement (without the layout). *)
Inductive message : Type :=
| MsgDuplicate (name : pystr)
| MsgAdding (name : pystr)
| MsgNoInitialPrice
| MsgAdded (name : pystr) (price : option float)
| MsgScrapeError
| MsgNothingTracked
| MsgCheckingAll (count : nat)
| MsgChecking (name : pystr)
| MsgCurrent (price : float)
| MsgCurrentUp (price change change_pct : float)
| MsgCurrentDown (price change change_pct : float)
| MsgCurrentSame (price : float)
| MsgFailed
| MsgUpdated (updated total : nat)
| MsgCheckingDrops (threshold : float)
| MsgAlert (name : pystr) (previous current drop : float)
| MsgNoDrops
| MsgStatsHeader (name url : pystr)
| MsgNoPriceData
| MsgPriceRange (current lowest highest : float)
| MsgOverall (total_change total_change_pct : float)
| MsgSpread (spread spread_pct : float)
| MsgStatistics (points : nat) (volatility_pct : float) (trend : string).

(** The effects of a run, in the order they happen. *)
Inductive event : Type :=
| Print (m : message)
| Get (url : pystr)            (* one [requests.get] *)
| Clock                        (* one [datetime.now()] *)
| Save (st : store).           (* one [_save_data]: the whole store *)

(** The requests and the saves of a log, in order. *)
Definition requests (l : list event) : list pystr :=
  flat_map (fun e => match e with Get u => [u] | _ => [] end) l.

Definition saves (l : list event) : list store :=
  flat_map (fun e => match e with Save st => [st] | _ => [] end) l.

(** [_calculate_trend] *)
Definition _calculate_trend (prices : list observation) : string :=
  if Nat.ltb (List.length prices) 2 then "Insufficient data"
  else
    let window := Nat.min 3 (List.length prices) in
    let recent_prices :=
      map price (skipn (List.length prices - window) prices) in
    let at_ i := nth i recent_prices PyFloat.pzero in
    let pairs := seq 1 (List.length recent_prices - 1) in
    let increases :=
      List.length
        (filter (fun i => PyFloat.gtb (at_ i) (at_ (i - 1))) pairs) in
    let decreases :=
      List.length
        (filter (fun i => PyFloat.ltb (at_ i) (at_ (i - 1))) pairs) in
    if Nat.ltb decreases increases then "Rising"
    else if Nat.ltb increases decreases then "Falling"
    else "Stable".

(** [min(prices)] and [max(prices)]: the first of the least (greatest)
    elements, found with [<] (with [>]). *)
Definition py_min (x : float) (xs : list float) : float :=
  fold_left (fun cur item => if PyFloat.ltb item cur then item else cur) xs x.

Definition py_max (x : float) (xs : list float) : float :=
  fold_left (fun cur item => if PyFloat.gtb item cur then item else cur) xs x.

(** One element of the [alerts] list of [check_alerts]. *)
Record alert : Type :=
  { alert_name : pystr; previous : float; current : float; drop : float }.

(** [((previous_price - latest_price) / previous_price) * 100] *)
Definition drop_pct (previous_price latest_price : float) : result float :=
  match PyFloat.div (PyFloat.sub previous_price latest_price) previous_price with
  | Ok q => Ok (PyFloat.mul q (PyFloat.of_Z 100))
  | Raise e => Raise e
  end.

(** The loop of [check_alerts] over [self.products.items()], with the
    alerts gathered so far. *)
Fixpoint alerts_loop (drop_threshold : float) (items : store)
                     (alerts : list alert) : result (list alert) :=
  match items with
  | [] => Ok alerts
  | (key, product) :: rest =>
      if Nat.ltb (List.length (prices product)) 2 then
        alerts_loop drop_threshold rest alerts
      else
        match nth_last 1 (prices product), nth_last 2 (prices product) with
        | Some latest, Some prev =>
            let latest_price := price latest in
            let previous_price := price prev in
            match drop_pct previous_price latest_price with
            | Raise e => Raise e
            | Ok d =>
                if PyFloat.geb d drop_threshold then
                  alerts_loop drop_threshold rest
                    (alerts ++ [{| alert_name := key;
                                   previous := previous_price;
                                   current := latest_price;
                                   drop := d |}])
                else alerts_loop drop_threshold rest alerts
            end
        | _, _ => Raise IndexError
        end
  end.

Section Env.

(** The collaborators: the network and the clock.  [http_get url]
    stands for [requests.get], [raise_for_status] and the parse of
    the page, with [None] for any exception they raise; [now] is
    [datetime.now().isoformat()]; [lower] is [str.lower]. *)
Variable World : Type.
Variable http_get : pystr -> World -> option Soup * World.
Variable now : World -> pystr * World.
Variable lower : pystr -> pystr.

(** Lines 391-397 of [_show_product_stats], run when there is more than
    one price: the population variance and its square root as a
    percentage of the mean.  The squares are taken with [**], which
    raises [OverflowError] where IEEE arithmetic would give infinity.
    The mean itself (line 379) cannot raise; it feeds this block and the
    printed average only. *)
Variable volatility : list float -> result float.

(** A [PriceTracker] in its surroundings. *)
Record tracker : Type :=
  { products : store; world : World; log : list event }.

(** Computations: they read and write the tracker, and return or
    raise.  The state at a [raise] is kept: what was appended in
    memory before the exception stays appended. *)
Definition M (A : Type) : Type := tracker -> result A * tracker.

Definition ret {A : Type} (a : A) : M A := fun t => (Ok a, t).

Definition bind {A B : Type} (c : M A) (k : A -> M B) : M B :=
  fun t =>
    match c t with
    | (Ok a, t') => k a t'
    | (Raise e, t') => (Raise e, t')
    end.

Definition lift {A : Type} (r : result A) : M A := fun t => (r, t).

Definition emit (e : event) : M unit :=
  fun t =>
    (Ok tt, {| products := products t; world := world t;
               log := log t ++ [e] |}).

Definition print (m : message) : M unit := emit (Print m).

Definition get_products : M store := fun t => (Ok (products t), t).

Definition set_products (st : store) : M unit :=
  fun t => (Ok tt, {| products := st; world := world t; log := log t |}).

(** [self.products[name]] as an expression *)
Definition get_product (key : pystr) : M product :=
  fun t =>
    match lookup key (products t) with
    | Some p => (Ok p, t)
    | None => (Raise KeyError, t)
    end.

Notation "x <- c1 ;; c2" := (bind c1 (fun x => c2))
  (at level 61, c1 at next level, right associativity).
Notation "c1 ;; c2" := (bind c1 (fun _ => c2))
  (at level 61, right associativity).

(** [_save_data]: the whole dictionary is written out. *)
Definition _save_data : M unit :=
  st <- get_products ;; emit (Save st).

(** [_add_price_entry] *)
Definition _add_price_entry (key : pystr) (p : float) : M unit :=
  fun t =>
    let (timestamp, w) := now (world t) in
    let t1 := {| products := products t; world := w;
                 log := log t ++ [Clock] |} in
    match lookup key (products t1) with
    | Some pr =>
        let pr' := {| name := name pr; url := url pr;
                      prices := prices pr ++
                                [{| date := timestamp; price := p |}] |} in
        (Ok tt, {| products := insert key pr' (products t1);
                   world := world t1; log := log t1 |})
    | None => (Raise KeyError, t1)
    end.

(** [_scrape_price]: one request; every exception of the request, of
    the parse and of the scrapers ends in [None]. *)
Definition _scrape_price (u : pystr) : M (option float) :=
  fun t =>
    let (page, w) := http_get u (world t) in
    let t1 := {| products := products t; world := w;
                 log := log t ++ [Get u] |} in
    match page with
    | Some soup =>
        if contains (lit "amazon") (lower u)
        then (Ok (_scrape_amazon soup), t1)
        else (Ok (_scrape_generic soup), t1)
    | None => let (_, t2) := print MsgScrapeError t1 in (Ok None, t2)
    end.

(** What one request for [u] in the world [w] yields. *)
Definition scraped (u : pystr) (w : World) : option float :=
  match fst (http_get u w) with
  | Some soup =>
      if contains (lit "amazon") (lower u) then _scrape_amazon soup
      else _scrape_generic soup
  | None => None
  end.

Definition scrape_log (u : pystr) (w : World) : list event :=
  Get u :: match fst (http_get u w) with
           | Some _ => []
           | None => [Print MsgScrapeError]
           end.

(** [add_product] *)
Definition add_product (u key : pystr) : M bool :=
  st <- get_products ;;
  if mem key st then
    print (MsgDuplicate key) ;; ret false
  else
    print (MsgAdding key) ;;
    p <- _scrape_price u ;;
    match p with
    | None => print MsgNoInitialPrice
    | Some _ => ret tt
    end ;;
    st <- get_products ;;
    set_products (insert key {| name := key; url := u; prices := [] |} st) ;;
    match p with
    | Some v => _add_price_entry key v ;; print (MsgAdded key (Some v))
    | None => print (MsgAdded key None)
    end ;;
    _save_data ;;
    ret true.

(** Lines 211-224 of [check_all]: the report of the new price [v] of a
    product, against the observation before it if there is one. *)
Definition report_price (v : float) (product : product) : M unit :=
  if Nat.ltb 1 (List.length (prices product)) then
    old_price <- lift (match nth_last 2 (prices product) with
                       | Some o => Ok (price o)
                       | None => Raise IndexError
                       end) ;;
    let change := PyFloat.sub v old_price in
    q <- lift (PyFloat.div change old_price) ;;
    let change_pct := PyFloat.mul q (PyFloat.of_Z 100) in
    if PyFloat.gtb change PyFloat.pzero then
      print (MsgCurrentUp v change change_pct)
    else if PyFloat.ltb change PyFloat.pzero then
      print (MsgCurrentDown v (SFabs change) change_pct)
    else print (MsgCurrentSame v)
  else print (MsgCurrent v).

(** The loop of [check_all], for the keys still to visit.  [product]
    names the dictionary's own value, so what the body appends under
    [key] shows in [product["prices"]]. *)
Fixpoint check_loop (todo : list pystr) (updated : nat) : M nat :=
  match todo with
  | [] => ret updated
  | key :: rest =>
      print (MsgChecking key) ;;
      product <- get_product key ;;
      p <- _scrape_price (url product) ;;
      match p with
      | Some v =>
          _add_price_entry key v ;;
          product <- get_product key ;;
          report_price v product ;;
          check_loop rest (S updated)
      | None =>
          print MsgFailed ;;
          check_loop rest updated
      end
  end.

(** [check_all] *)
Definition check_all : M nat :=
  st <- get_products ;;
  match st with
  | [] => print MsgNothingTracked ;; ret 0
  | _ :: _ =>
      print (MsgCheckingAll (List.length st)) ;;
      updated <- check_loop (keys st) 0 ;;
      _save_data ;;
      st' <- get_products ;;
      print (MsgUpdated updated (List.length st')) ;;
      ret updated
  end.

(** [check_alerts] *)
Definition check_alerts (drop_threshold : float) : M unit :=
  st <- get_products ;;
  match st with
  | [] => print MsgNothingTracked
  | _ :: _ =>
      print (MsgCheckingDrops drop_threshold) ;;
      alerts <- lift (alerts_loop drop_threshold st []) ;;
      match alerts with
      | [] => print MsgNoDrops
      | _ :: _ =>
          fold_right
            (fun a k =>
               print (MsgAlert (alert_name a) (previous a) (current a)
                               (drop a)) ;; k)
            (ret tt) alerts
      end
  end.

(** [_show_product_stats].  The dates of the report (of the lowest and
    highest price, of the first and last check) are formatting of
    stored timestamps and are left out of the messages. *)
Definition _show_product_stats (key : pystr) (p : product) : M unit :=
  print (MsgStatsHeader key (url p)) ;;
  match map price (prices p) with
  | [] => print MsgNoPriceData
  | first_price :: others =>
      let ps := first_price :: others in
      let latest_price := last ps first_price in
      let min_price := py_min first_price others in
      let max_price := py_max first_price others in
      let total_change := PyFloat.sub latest_price first_price in
      total_change_pct <-
        (if PyFloat.neb first_price PyFloat.pzero then
           q <- lift (PyFloat.div total_change first_price) ;;
           ret (PyFloat.mul q (PyFloat.of_Z 100))
         else ret (PyFloat.of_Z 0)) ;;
      volatility_pct <-
        (if Nat.ltb 1 (List.length ps) then lift (volatility ps)
         else ret (PyFloat.of_Z 0)) ;;
      print (MsgPriceRange latest_price min_price max_price) ;;
      print (MsgOverall total_change total_change_pct) ;;
      let spread := PyFloat.sub max_price min_price in
      q <- lift (PyFloat.div spread min_price) ;;
      print (MsgSpread spread (PyFloat.mul q (PyFloat.of_Z 100))) ;;
      print (MsgStatistics (List.length ps) volatility_pct
                           (_calculate_trend (prices p)))
  end.

End Env.

(** What [show_history] prints, by print statement (without the
    layout). *)
Inductive change_str : Type :=
| Initial
| Up (change change_pct : float)
| Down (change change_pct : float)
| NoChange.

Inductive history_line : Type :=
| HistNotFound (name : pystr)
| HistTitle (name : pystr)
| HistUrl (url : pystr)
| HistRule
| HistEmpty
| HistColumns
| HistDashes
| HistRow (date_str : pystr) (price : float) (change : change_str)
| HistTrend (trend : string)
| HistOverall (total_change total_change_pct : float).

Section History.

(** [datetime.fromisoformat(s).strftime("%Y-%m-%d %H:%M:%S")]: the
    date in the layout of the table, or the exception that
    [fromisoformat] raises on a string it cannot read. *)
Variable format_date : pystr -> result pystr.

(** Lines 290-307 of [show_history]: the row of the entry at index [i]
    of [prices]. *)
Definition history_row (prices : list observation) (i : nat)
           (entry : observation) : result history_line :=
  match format_date (date entry) with
  | Raise e => Raise e
  | Ok date_str =>
      let price := price entry in
      if Nat.ltb 0 i then
        match nth_error prices (i - 1) with
        | None => Raise IndexError
        | Some prev =>
            let prev_price := Tracker.price prev in
            let change := PyFloat.sub price prev_price in
            match PyFloat.div change prev_price with
            | Raise e => Raise e
            | Ok q =>
                let change_pct := PyFloat.mul q (PyFloat.of_Z 100) in
                Ok (HistRow date_str price
                      (if PyFloat.gtb change PyFloat.pzero then
                         Up change change_pct
                       else if PyFloat.ltb change PyFloat.pzero then
                         Down (SFabs change) change_pct
                       else NoChange))
            end
        end
      else Ok (HistRow date_str price Initial)
  end.

(** The loop of [show_history] over [enumerate(product["prices"])],
    from the index [i]: the rows it prints, and how it ends. *)
Fixpoint history_loop (prices : list observation) (i : nat)
         (entries : list observation) : list history_line * result unit :=
  match entries with
  | [] => ([], Ok tt)
  | entry :: rest =>
      match history_row prices i entry with
      | Raise e => ([], Raise e)
      | Ok row =>
          let (rows, r) := history_loop prices (S i) rest in
          (row :: rows, r)
      end
  end.

(** [show_history]: the lines it prints, and how it ends.  It reads the
    store and changes nothing. *)
Definition show_history (st : store) (key : pystr)
  : list history_line * result unit :=
  if negb (mem key st) then ([HistNotFound key], Ok tt)
  else
    match lookup key st with
    | None => ([], Raise KeyError)
    | Some product =>
        let heading := [HistTitle key; HistUrl (url product); HistRule] in
        match prices product with
        | [] => (heading ++ [HistEmpty], Ok tt)
        | first :: _ =>
            let (rows, r) :=
              history_loop (prices product) 0 (prices product) in
            match r with
            | Raise e => (heading ++ [HistColumns; HistDashes] ++ rows, Raise e)
            | Ok _ =>
                let trend := _calculate_trend (prices product) in
                let lines :=
                  heading ++ [HistColumns; HistDashes] ++ rows
                  ++ [HistRule; HistTrend trend] in
                if Nat.leb 2 (List.length (prices product)) then
                  match nth_last 1 (prices product) with
                  | None => (lines, Raise IndexError)
                  | Some latest =>
                      let first_price := price first in
                      let latest_price := price latest in
                      let total_change :=
                        PyFloat.sub latest_price first_price in
                      match PyFloat.div total_change first_price with
                      | Raise e => (lines, Raise e)
                      | Ok q =>
                          (lines ++
                           [HistOverall total_change
                              (PyFloat.mul q (PyFloat.of_Z 100))],
                           Ok tt)
                      end
                  end
                else (lines, Ok tt)
            end
        end
    end.

End History.

End Tracker.


(** ** The specification's wording

    Definitions that follow the specification's sentences, to be compared
    with the program's own. *)

Module Spec.
Import Text Tracker.

(** A decimal numeral as a price text writes it: an optional currency
    symbol, an integer part of digits and thousands separators, and an
    optional fraction (a point and digits). *)
Record numeral : Type :=
  { symbol : option char; int_part : pystr; frac_part : option pystr }.

Definition is_currency (c : char) : bool :=
  N.eqb c dollar || N.eqb c pound || N.eqb c euro.

Definition well_formed (n : numeral) : bool :=
  match symbol n with Some c => is_currency c | None => true end
  && forallb (fun c => is_digit c || N.eqb c comma) (int_part n)
  && existsb is_digit (int_part n)
  && match frac_part n with Some fd => forallb is_digit fd | None => true end.

(** The text of a numeral. *)
Definition numeral_text (n : numeral) : pystr :=
  match symbol n with Some c => [c] | None => [] end
  ++ int_part n
  ++ match frac_part n with Some fd => dot :: fd | None => [] end.

(** The value of a numeral with its separators removed: its digits, the
    point before the last [length fd] of them, as a float. *)
Definition numeral_value (n : numeral) : PyFloat.float :=
  let ds := filter is_digit (int_part n) in
  let fd := match frac_part n with Some fd => fd | None => [] end in
  PyFloat.of_decimal (digits_value (ds ++ fd)) (List.length fd).

Definition no_digits (text : pystr) : bool :=
  forallb (fun c => negb (is_digit c)) text.

(** The adjacent pairs [(a, b)] of a list that satisfy [r a b]. *)
Fixpoint count_adjacent (r : float -> float -> bool) (xs : list float) : nat :=
  match xs with
  | [] => 0
  | a :: rest =>
      match rest with
      | [] => 0
      | b :: _ => (if r a b then 1 else 0) + count_adjacent r rest
      end
  end.

(** The last [n] elements (all of them if there are fewer). *)
Definition last_n {A : Type} (n : nat) (xs : list A) : list A :=
  skipn (List.length xs - n) xs.

(** [trend(observations)] as section 4.2 words it. *)
Definition trend (observations : list observation) : string :=
  if Nat.ltb (List.length observations) 2 then "Insufficient data"
  else
    let window :=
      map price (last_n (Nat.min 3 (List.length observations)) observations) in
    let increases := count_adjacent PyFloat.ltb window in
    let decreases := count_adjacent PyFloat.gtb window in
    if Nat.ltb decreases increases then "Rising"
    else if Nat.ltb increases decreases then "Falling"
    else "Stable".

(** The invariant on stored prices that the code keeps: every price is
    a number and is not negative (zero, positive, or plus infinity). *)
Definition entries_ok (os : list observation) : Prop :=
  Forall (fun o => PyFloat.nonneg (price o) = true) os.

Definition store_ok (st : store) : Prop :=
  Forall (fun kv => entries_ok (prices (snd kv))) st.

(** [keeps c R]: from a store that satisfies the invariant, [c] ends,
    normally or with an exception, in a store that satisfies it, and a
    value it returns satisfies [R]. *)
Definition keeps {World A : Type} (c : M World A) (R : A -> Prop) : Prop :=
  forall t : tracker World,
    store_ok (products t) ->
    store_ok (products (snd (c t)))
    /\ (forall a, fst (c t) = Ok a -> R a).

(** The invariant as section 3 states it: every price is finite and not
    negative. *)
Definition store_finite (st : store) : Prop :=
  Forall
    (fun kv =>
       Forall (fun o => PyFloat.is_finite (price o) = true
                        /\ PyFloat.nonneg (price o) = true)
              (prices (snd kv)))
    st.

(** [alerts(threshold)] as section 4.2 words it, for one product: with
    two observations or more, the drop of the latest against the one
    before it, reported when it reaches the threshold. *)
Definition drop_alert (threshold : float) (kv : pystr * product)
  : list alert :=
  match rev (prices (snd kv)) with
  | latest :: before :: _ =>
      match drop_pct (price before) (price latest) with
      | Ok d =>
          if PyFloat.geb d threshold
          then [{| alert_name := fst kv; previous := price before;
                   current := price latest; drop := d |}]
          else []
      | Raise _ => []
      end
  | _ => []
  end.

(** The second-latest price of a product, if it has one, is not zero. *)
Definition previous_nonzero (kv : pystr * product) : Prop :=
  match rev (prices (snd kv)) with
  | _ :: before :: _ => PyFloat.eqb (price before) PyFloat.pzero = false
  | _ => True
  end.

(** What the extraction gives for each product of the store in turn: a
    timestamped price, or nothing.  The world passes from one product
    to the next. *)
Fixpoint outcomes {World : Type}
         (http_get : pystr -> World -> option Extract.Soup * World)
         (now : World -> pystr * World) (lower : pystr -> pystr)
         (items : store) (w : World) : list (option observation) :=
  match items with
  | [] => []
  | (_, pr) :: rest =>
      let w1 := snd (http_get (url pr) w) in
      match scraped http_get lower (url pr) w with
      | Some v =>
          Some {| date := fst (now w1); price := v |}
          :: outcomes http_get now lower rest (snd (now w1))
      | None => None :: outcomes http_get now lower rest w1
      end
  end.

(** A product after its outcome: one observation more, or as it was. *)
Definition appended (kv : pystr * product) (o : option observation)
  : pystr * product :=
  match o with
  | Some ob =>
      (fst kv,
       {| name := name (snd kv); url := url (snd kv);
          prices := prices (snd kv) ++ [ob] |})
  | None => kv
  end.

Fixpoint all_appended (items : store) (outs : list (option observation))
  : store :=
  match items, outs with
  | kv :: items', o :: outs' => appended kv o :: all_appended items' outs'
  | _, _ => items
  end.

Definition successes (outs : list (option observation)) : nat :=
  List.length (filter (fun o => match o with Some _ => true | None => false end)
                      outs).

(** No product whose extraction succeeds was last seen at the price
    zero. *)
Definition latest_nonzero (kv : pystr * product) : Prop :=
  match rev (prices (snd kv)) with
  | latest :: _ => PyFloat.eqb (price latest) PyFloat.pzero = false
  | [] => True
  end.

Fixpoint reportable (items : store) (outs : list (option observation))
  : Prop :=
  match items, outs with
  | kv :: items', o :: outs' =>
      (match o with Some _ => latest_nonzero kv | None => True end)
      /\ reportable items' outs'
  | _, _ => True
  end.

(** The observations of a store, all products together. *)
Definition total_observations (st : store) : nat :=
  list_sum (map (fun kv => List.length (prices (snd kv))) st).

(** A character that ends a numeral inside a text: not a digit, not the
    point, and not one of the characters the extractor removes. *)
Definition terminator (c : char) : bool :=
  negb (is_digit c) && negb (N.eqb c dot) && Extract.kept c.

(** What may follow a numeral in a text: nothing, or a text that starts
    with a terminator. *)
Definition ends_numeral (post : pystr) : bool :=
  match post with
  | [] => true
  | c :: _ => terminator c
  end.

(** What the pattern matches: digits, or digits, a point and digits. *)
Definition match_shape (m : pystr) : Prop :=
  exists ds fd : pystr,
    ds <> [] /\ forallb is_digit ds = true /\ forallb is_digit fd = true
    /\ (m = ds \/ m = ds ++ dot :: fd).

(** What may stand right after the match: nothing, or a character that
    is neither a digit nor the point. *)
Definition stops (rest : pystr) : Prop :=
  match rest with
  | [] => True
  | c :: _ => is_digit c = false /\ N.eqb c dot = false
  end.

(** A store that has grown out of another: every product of the first is
    still there, under its name and with its URL, and its history of
    then is the beginning of its history of now. *)
Definition grows (st st' : store) : Prop :=
  forall (key : pystr) (pr : product),
    lookup key st = Some pr ->
    exists pr' : product,
      lookup key st' = Some pr'
      /\ name pr' = name pr /\ url pr' = url pr
      /\ exists more, prices pr' = prices pr ++ more.

(** A step of a run that keeps the names, only lets histories grow and
    saves nothing. *)
Definition evolves {World : Type} (t t' : tracker World) : Prop :=
  keys (products t') = keys (products t)
  /\ grows (products t) (products t')
  /\ exists trace, log t' = log t ++ trace /\ saves trace = [].

(** A step that only prints: the store and the world stay as they are. *)
Definition reports {World : Type} (t t' : tracker World) : Prop :=
  products t' = products t
  /\ world t' = world t
  /\ exists msgs, log t' = log t ++ map Print msgs.

(** The dates of a history can all be read by the formatter of
    [show_history]. *)
Definition dates_ok (format_date : pystr -> result pystr)
           (os : list observation) : Prop :=
  Forall (fun o => exists s : pystr, format_date (date o) = Ok s) os.

End Spec.

(** ** Concrete pages, stores and surroundings

    The inputs at which the theorems below are instantiated. *)

Module Examples.
Import Text Extract Tracker.

Definition selector_eqb (a b : selector) : bool :=
  match a, b with
  | TagClass t c, TagClass t' c' => String.eqb t t' && String.eqb c c'
  | TagId t i, TagId t' i' => String.eqb t t' && String.eqb i i'
  | ClassContains x, ClassContains x' => String.eqb x x'
  | IdContains x, IdContains x' => String.eqb x x'
  | _, _ => false
  end.

(** A page given by the fragments each selector finds in it. *)
Definition page_of (table : list (selector * list pystr)) : Soup :=
  fun sel =>
    match find (fun e => selector_eqb (fst e) sel) table with
    | Some e => snd e
    | None => []
    end.

(** A marketplace page: the whole-price span holds no number, the
    off-screen span a label and then the price, the coloured span
    another amount. *)
Definition amazon_page : Soup :=
  page_of
    [ (TagClass "span" "a-price-whole", [lit "n/a"]);
      (TagClass "span" "a-offscreen", [lit "Price:"; lit " $1,299.99 "]);
      (TagClass "span" "a-color-price", [lit "$5.00"]) ].

(** A shop page whose price element reads five dollars. *)
Definition five_dollar_page : Soup :=
  page_of [ (ClassContains "price", [lit "$5.00"]) ].

(** A page whose price element holds 400 nines. *)
Definition huge_price_page : Soup :=
  page_of [ (ClassContains "price", [repeat 57%N 400]) ].

(** Surroundings in which every request answers with the same page and
    the clock reads the same instant; the world counts the calls. *)
Definition World : Type := nat.

Definition serve (page : option Soup) : pystr -> World -> option Soup * World :=
  fun _ w => (page, S w).

Definition now : World -> pystr * World :=
  fun w => (lit "2024-01-01T00:00:00", S w).

(** [str.lower] on ASCII letters. *)
Definition lower (s : pystr) : pystr :=
  map (fun c => if (65 <=? c)%N && (c <=? 90)%N then (c + 32)%N else c) s.

(** A volatility that is never reached with one price. *)
Definition volatility (ps : list float) : result float :=
  Ok (PyFloat.of_Z 0).

Definition obs (p : float) : observation :=
  {| date := lit "2023-12-31T00:00:00"; price := p |}.

Definition item (key : string) (ps : list float) : pystr * product :=
  (lit key, {| name := lit key; url := lit "https://shop.example/item";
               prices := map obs ps |}).

Definition start (st : store) : tracker World :=
  {| products := st; world := 0; log := [] |}.

(** A product given away for nothing at the last check. *)
Definition free_item : store := [ item "gift" [PyFloat.pzero] ].

(** A product that was free and now costs five. *)
Definition was_free : store :=
  [ item "gift" [PyFloat.pzero; PyFloat.of_Z 5];
    item "lamp" [PyFloat.of_Z 100; PyFloat.of_Z 85] ].

Definition two_lamps : store :=
  [ item "lamp" [PyFloat.of_Z 100; PyFloat.of_Z 85];
    item "desk" [PyFloat.of_Z 100; PyFloat.of_Z 95];
    item "new" [PyFloat.of_Z 7] ].

(** The observations of a list of whole prices, all at one date. *)
Definition observed (date : pystr) (ps : list Z) : list observation :=
  map (fun p => {| date := date; price := PyFloat.of_Z p |}) ps.

(** A date formatter for timestamps of the layout that [isoformat]
    writes without a fraction of a second (19 characters): the letter
    between the date and the time becomes a space; any other string is
    refused. *)
Definition format_date (s : pystr) : result pystr :=
  if Nat.eqb (List.length s) 19
  then Ok (map (fun c => if N.eqb c 84 then 32%N else c) s)
  else Raise ValueError.

(** A shop page whose price element reads nothing at all to pay. *)
Definition free_page : Soup :=
  page_of [ (ClassContains "price", [lit "$0.00"]) ].

End Examples.

Unset Implicit Arguments.

(** ** Facts about texts and extraction *)

Module TextFacts.
Import Text Extract Spec.

Lemma is_space_whitespace (c : char) :
  is_space c = true -> In c whitespace.
Proof.
  unfold is_space. intros H. apply existsb_exists in H.
  destruct H as [x [Hin Heq]]. apply N.eqb_eq in Heq. now subst.
Qed.

(** No digit is a blank. *)
Lemma digit_not_space (c : char) : is_digit c = true -> is_space c = false.
Proof.
  intros Hd. destruct (is_space c) eqn:Hs; [|reflexivity].
  apply is_space_whitespace in Hs. unfold whitespace in Hs. simpl in Hs.
  repeat (destruct Hs as [Hs|Hs]; [subst c; vm_compute in Hd; discriminate|]).
  contradiction.
Qed.

Lemma digit_not_char (c x : char) :
  is_digit x = false -> is_digit c = true -> N.eqb c x = false.
Proof.
  intros Hx Hc. destruct (N.eqb c x) eqn:E; [|reflexivity].
  apply N.eqb_eq in E. subst. congruence.
Qed.

Lemma span_digits_all (ds rest : pystr) :
  forallb is_digit ds = true ->
  match rest with [] => true | c :: _ => negb (is_digit c) end = true ->
  span_digits (ds ++ rest) = (ds, rest).
Proof.
  intros Hds Hrest. induction ds as [|d ds IH]; simpl.
  - destruct rest as [|c rest]; [reflexivity|].
    simpl. apply negb_true_iff in Hrest. now rewrite Hrest.
  - simpl in Hds. apply andb_true_iff in Hds. destruct Hds as [Hd Hds].
    rewrite Hd, (IH Hds). reflexivity.
Qed.

Lemma span_digits_none (s : pystr) :
  no_digits s = true -> span_digits s = ([], s).
Proof.
  destruct s as [|c s]; [reflexivity|]. unfold no_digits. simpl.
  intros H. apply andb_true_iff in H. destruct H as [H _].
  apply negb_true_iff in H. now rewrite H.
Qed.

Lemma re_search_no_digits (s : pystr) :
  no_digits s = true -> re_search s = None.
Proof.
  induction s as [|c s IH]; intros H.
  - reflexivity.
  - simpl re_search. unfold match_here. rewrite (span_digits_none _ H).
    apply IH. unfold no_digits in *. simpl in H.
    apply andb_true_iff in H. tauto.
Qed.

Lemma no_digits_filter (f : char -> bool) (s : pystr) :
  no_digits s = true -> no_digits (filter f s) = true.
Proof.
  unfold no_digits. rewrite !forallb_forall. intros H x Hx.
  apply filter_In in Hx. apply H. tauto.
Qed.

Lemma lstrip_incl (s : pystr) : incl (lstrip s) s.
Proof.
  induction s as [|c s IH]; simpl.
  - apply incl_refl.
  - destruct (is_space c).
    + now apply incl_tl.
    + apply incl_refl.
Qed.

Lemma strip_incl (s : pystr) : incl (strip s) s.
Proof.
  unfold strip, rstrip. intros x Hx.
  apply in_rev in Hx. apply lstrip_incl in Hx. apply in_rev in Hx.
  now apply lstrip_incl in Hx.
Qed.

Lemma no_digits_strip (s : pystr) :
  no_digits s = true -> no_digits (strip s) = true.
Proof.
  unfold no_digits. rewrite !forallb_forall. intros H x Hx.
  apply H. now apply strip_incl.
Qed.

(** A text with no digit holds no price. *)
Lemma extract_no_digits (text : pystr) :
  no_digits text = true -> _extract_price_from_text text = None.
Proof.
  intros H. unfold _extract_price_from_text.
  rewrite re_search_no_digits; [reflexivity|].
  apply no_digits_strip. unfold remove_char.
  now repeat apply no_digits_filter.
Qed.

Lemma clean_cons (x : char) (s : pystr) :
  clean (x :: s) = if kept x then x :: clean s else clean s.
Proof.
  unfold clean, kept, remove_char. simpl.
  destruct (N.eqb x dollar); simpl; [reflexivity|].
  destruct (N.eqb x pound); simpl; [reflexivity|].
  destruct (N.eqb x euro); simpl; [reflexivity|].
  destruct (N.eqb x comma); reflexivity.
Qed.

Lemma clean_app (a b : pystr) : clean (a ++ b) = clean a ++ clean b.
Proof.
  unfold clean, remove_char. now rewrite !filter_app.
Qed.

Lemma kept_digit (d : char) : is_digit d = true -> kept d = true.
Proof.
  intros H. unfold kept.
  rewrite (digit_not_char d dollar), (digit_not_char d pound),
    (digit_not_char d euro), (digit_not_char d comma);
    solve [reflexivity | assumption].
Qed.

Lemma clean_digits (ds : pystr) :
  forallb is_digit ds = true -> clean ds = ds.
Proof.
  induction ds as [|d ds IH]; [reflexivity|]. simpl. intros H.
  apply andb_true_iff in H. destruct H as [Hd Hds].
  rewrite clean_cons, (kept_digit _ Hd), (IH Hds). reflexivity.
Qed.

Lemma clean_int_part (ip : pystr) :
  forallb (fun c => is_digit c || N.eqb c comma) ip = true ->
  clean ip = filter is_digit ip.
Proof.
  induction ip as [|c ip IH]; [reflexivity|]. simpl. intros H.
  apply andb_true_iff in H. destruct H as [Hc Hip].
  rewrite clean_cons, (IH Hip).
  destruct (is_digit c) eqn:Hd.
  - now rewrite (kept_digit _ Hd).
  - simpl in Hc. apply N.eqb_eq in Hc. subst c. reflexivity.
Qed.

Lemma clean_symbol (c : char) : is_currency c = true -> clean [c] = [].
Proof.
  unfold is_currency. intros H.
  apply orb_true_iff in H. destruct H as [H|H].
  - apply orb_true_iff in H.
    destruct H as [H|H]; apply N.eqb_eq in H; subst c; reflexivity.
  - apply N.eqb_eq in H; subst c; reflexivity.
Qed.

Lemma forallb_filter_digits (s : pystr) :
  forallb is_digit (filter is_digit s) = true.
Proof.
  apply forallb_forall. intros x Hx. apply filter_In in Hx. tauto.
Qed.

Lemma lstrip_id (s : pystr) :
  (forall x, In x s -> is_space x = false) -> lstrip s = s.
Proof.
  destruct s as [|c s]; [reflexivity|]. intros H. simpl.
  now rewrite (H c (or_introl eq_refl)).
Qed.

Lemma strip_id (s : pystr) :
  (forall x, In x s -> is_space x = false) -> strip s = s.
Proof.
  intros H. unfold strip, rstrip. rewrite (lstrip_id _ H).
  rewrite lstrip_id; [apply rev_involutive|].
  intros x Hx. apply H. now apply in_rev.
Qed.

Lemma re_search_unfold (s : pystr) :
  re_search s =
  match match_here s with
  | Some m => Some m
  | None => match s with _ :: s' => re_search s' | [] => None end
  end.
Proof. destruct s; reflexivity. Qed.

(** The digits [ds], not empty, followed by the fraction [fr]: what the
    pattern finds and what [float] makes of it. *)
Lemma search_digits_only (ds : pystr) :
  ds <> [] -> forallb is_digit ds = true ->
  re_search ds = Some ds /\
  py_float ds = Ok (PyFloat.of_decimal (digits_value ds) 0).
Proof.
  intros Hne Hds.
  assert (Hspan : span_digits ds = (ds, [])).
  { rewrite <- (app_nil_r ds) at 1. now apply span_digits_all. }
  split.
  - rewrite re_search_unfold. unfold match_here. rewrite Hspan.
    destruct ds as [|d ds']; [contradiction|]. simpl.
    now rewrite app_nil_r.
  - unfold py_float. rewrite Hspan. simpl. rewrite app_nil_r.
    destruct ds; [contradiction|reflexivity].
Qed.

Lemma opt_dot_point (fd : pystr) : opt_dot (dot :: fd) = ([dot], fd).
Proof. reflexivity. Qed.

Lemma search_digits_point (ds fd : pystr) :
  ds <> [] -> forallb is_digit ds = true -> forallb is_digit fd = true ->
  re_search (ds ++ dot :: fd) = Some (ds ++ dot :: fd) /\
  py_float (ds ++ dot :: fd) =
  Ok (PyFloat.of_decimal (digits_value (ds ++ fd)) (List.length fd)).
Proof.
  intros Hne Hds Hfd.
  assert (Hspan : span_digits (ds ++ dot :: fd) = (ds, dot :: fd)).
  { now apply span_digits_all. }
  assert (Hfrac : span_digits fd = (fd, [])).
  { rewrite <- (app_nil_r fd) at 1. now apply span_digits_all. }
  split.
  - rewrite re_search_unfold. unfold match_here. rewrite Hspan.
    destruct ds as [|d ds']; [contradiction|].
    rewrite opt_dot_point, Hfrac. reflexivity.
  - unfold py_float. rewrite Hspan, opt_dot_point, Hfrac.
    destruct ds as [|d ds']; [contradiction|reflexivity].
Qed.

Lemma existsb_filter_nonempty (s : pystr) :
  existsb is_digit s = true -> filter is_digit s <> [].
Proof.
  intros H. apply existsb_exists in H. destruct H as [x [Hin Hx]].
  intros E. assert (Hf : In x (filter is_digit s)) by (apply filter_In; tauto).
  rewrite E in Hf. contradiction.
Qed.

Lemma extract_clean (text : pystr) :
  _extract_price_from_text text =
  match re_search (strip (clean text)) with
  | Some m => match py_float m with Ok f => Some f | Raise _ => None end
  | None => None
  end.
Proof. reflexivity. Qed.

(** The text of a well-formed numeral holds the numeral's value. *)
Lemma extract_numeral (n : numeral) :
  well_formed n = true ->
  _extract_price_from_text (numeral_text n) = Some (numeral_value n).
Proof.
  destruct n as [sym ip fr]. unfold well_formed, numeral_text, numeral_value.
  cbn [symbol int_part frac_part]. intros H.
  apply andb_true_iff in H. destruct H as [H Hfr].
  apply andb_true_iff in H. destruct H as [H Hex].
  apply andb_true_iff in H. destruct H as [Hsym Hip].
  set (ds := filter is_digit ip).
  assert (Hds : forallb is_digit ds = true) by apply forallb_filter_digits.
  assert (Hne : ds <> []) by now apply existsb_filter_nonempty.
  assert (Hsymc : clean (match sym return list char with
                         | Some c => [c] | None => [] end) = []).
  { destruct sym as [c|]; [now apply clean_symbol|reflexivity]. }
  rewrite extract_clean, !clean_app, Hsymc, (clean_int_part _ Hip).
  fold ds. rewrite app_nil_l.
  destruct fr as [fd|].
  - rewrite clean_cons. change (kept dot) with true. cbv iota.
    rewrite (clean_digits _ Hfr).
    rewrite strip_id.
    + destruct (search_digits_point _ _ Hne Hds Hfr) as [Hs Hf].
      rewrite Hs, Hf. reflexivity.
    + intros x Hx. apply in_app_or in Hx. destruct Hx as [Hx|[Hx|Hx]].
      * apply digit_not_space. rewrite forallb_forall in Hds. now apply Hds.
      * subst x. reflexivity.
      * apply digit_not_space. rewrite forallb_forall in Hfr. now apply Hfr.
  - change (clean []) with (@nil char). rewrite !app_nil_r.
    rewrite strip_id.
    + destruct (search_digits_only _ Hne Hds) as [Hs Hf].
      rewrite Hs, Hf. reflexivity.
    + intros x Hx. apply digit_not_space.
      rewrite forallb_forall in Hds. now apply Hds.
Qed.

(** C1.  On the text of a decimal numeral, with or without a currency
    symbol before it and thousands separators in it, price extraction
    returns the value of the numeral with the separators removed; on a
    text with no digit it returns nothing.  The three texts of the
    specification: the first gives 1234.56 (the binary64 number
    0x1.34a3d70a3d70ap+10), the second 99.0, the third nothing. *)
Theorem extract_price_from_text_numerals :
  (forall n : numeral,
      well_formed n = true ->
      _extract_price_from_text (numeral_text n) = Some (numeral_value n)) /\
  (forall text : pystr,
      no_digits text = true -> _extract_price_from_text text = None) /\
  _extract_price_from_text (lit "$1,234.56") =
    Some (S754_finite false 0x134a3d70a3d70a (-42)) /\
  _extract_price_from_text (euro :: lit "99") = Some (PyFloat.of_Z 99) /\
  _extract_price_from_text (lit "no price here") = None.
Proof.
  split; [exact extract_numeral|].
  split; [exact extract_no_digits|].
  repeat split; vm_compute; reflexivity.
Qed.

Lemma extract_price_from_text_numerals_witness :
  let n := {| symbol := Some dollar;
              int_part := lit "1,234";
              frac_part := Some (lit "56") |} in
  well_formed n = true /\
  _extract_price_from_text (numeral_text n) = Some (numeral_value n).
Proof.
  split.
  - reflexivity.
  - apply (proj1 extract_price_from_text_numerals). reflexivity.
Defined.

(** *** The order of the rules *)

Lemma scrape_with_app (pre post : list selector) (soup : Soup) :
  (forall r, In r pre -> first_price (soup r) = None) ->
  scrape_with (pre ++ post) soup = scrape_with post soup.
Proof.
  induction pre as [|r pre IH]; intros H; [reflexivity|].
  simpl. rewrite (H r (or_introl eq_refl)).
  apply IH. intros r' Hr'. apply H. now right.
Qed.

Lemma scrape_with_first (pre post : list selector) (A : selector)
      (soup : Soup) (v : PyFloat.float) :
  (forall r, In r pre -> first_price (soup r) = None) ->
  first_price (soup A) = Some v ->
  scrape_with (pre ++ A :: post) soup = Some v.
Proof.
  intros Hpre HA. rewrite (scrape_with_app _ _ _ Hpre). simpl.
  now rewrite HA.
Qed.

(** Within one rule: the first fragment that parses gives the price. *)
Lemma first_price_first (before after : list pystr) (t : pystr)
      (v : PyFloat.float) :
  (forall b, In b before -> _extract_price_from_text (strip b) = None) ->
  _extract_price_from_text (strip t) = Some v ->
  first_price (before ++ t :: after) = Some v.
Proof.
  induction before as [|b before IH]; intros Hb Ht; simpl.
  - now rewrite Ht.
  - rewrite (Hb b (or_introl eq_refl)). apply IH; [|assumption].
    intros b' Hb'. apply Hb. now right.
Qed.

(** C5.  The rules are tried in their fixed order and the first value
    that parses is returned (first rule, first fragment, first number):
    when the fragments [before ++ t :: after] of a rule [A] give a number
    [v] at [t] and at no fragment before it, and no rule before [A]
    gives one, the result is [v], whatever the fragments of the rules
    after [A] hold.  This is so for both rule sets. *)
Theorem scrape_rule_precedence :
  forall (soup : Soup) (pre post : list selector) (A : selector)
         (before after : list pystr) (t : pystr) (v : PyFloat.float),
    (forall r, In r pre -> first_price (soup r) = None) ->
    soup A = before ++ t :: after ->
    (forall b, In b before -> _extract_price_from_text (strip b) = None) ->
    _extract_price_from_text (strip t) = Some v ->
    (amazon_selectors = pre ++ A :: post -> _scrape_amazon soup = Some v) /\
    (generic_selectors = pre ++ A :: post -> _scrape_generic soup = Some v).
Proof.
  intros soup pre post A before after t v Hpre HA Hb Ht.
  assert (HfA : first_price (soup A) = Some v).
  { rewrite HA. now apply first_price_first. }
  split; intros E.
  - unfold _scrape_amazon. rewrite E. now apply scrape_with_first.
  - unfold _scrape_generic. rewrite E. now apply scrape_with_first.
Qed.

End TextFacts.

Module ExtractExamples.
Import Text Extract Spec TextFacts Examples.

Lemma scrape_rule_precedence_witness :
  _scrape_amazon amazon_page = Some (S754_finite false 0x144ff5c28f5c29 (-42)).
Proof.
  apply (proj1 (scrape_rule_precedence amazon_page
                  [TagClass "span" "a-price-whole"]
                  [TagId "span" "priceblock_ourprice";
                   TagId "span" "priceblock_dealprice";
                   TagClass "span" "a-color-price"]
                  (TagClass "span" "a-offscreen")
                  [lit "Price:"] [] (lit " $1,299.99 ")
                  (S754_finite false 0x144ff5c28f5c29 (-42))
                  ltac:(intros r [<-|[]]; reflexivity)
                  eq_refl
                  ltac:(intros b [<-|[]]; reflexivity)
                  eq_refl)).
  reflexivity.
Defined.

End ExtractExamples.

(** ** Facts about the tracker *)

Module TrendFacts.
Import Text Tracker Spec Examples.

Lemma length_filter_map {A B : Type} (f : B -> bool) (g : A -> B)
      (l : list A) :
  List.length (filter f (map g l))
  = List.length (filter (fun x => f (g x)) l).
Proof.
  induction l as [|x l IH]; [reflexivity|].
  cbn [map filter]. destruct (f (g x)); cbn [List.length]; now rewrite IH.
Qed.

(** Counting by index, as the program does, is counting adjacent
    pairs. *)
Lemma count_by_index (r : float -> float -> bool) (d : float)
      (xs : list float) :
  List.length
    (filter (fun i => r (nth (i - 1) xs d) (nth i xs d))
            (seq 1 (List.length xs - 1)))
  = count_adjacent r xs.
Proof.
  induction xs as [|a rest IH]; [reflexivity|].
  destruct rest as [|b rest']; [reflexivity|].
  change (List.length (a :: b :: rest') - 1) with (S (List.length rest')).
  cbn [seq filter]. change (nth (1 - 1) (a :: b :: rest') d) with a.
  change (nth 1 (a :: b :: rest') d) with b.
  cbn [count_adjacent].
  assert (Htail :
    List.length
      (filter (fun i => r (nth (i - 1) (a :: b :: rest') d)
                          (nth i (a :: b :: rest') d))
              (seq 2 (List.length rest')))
    = count_adjacent r (b :: rest')).
  { rewrite <- IH.
    change (List.length (b :: rest') - 1) with (List.length rest' - 0).
    rewrite Nat.sub_0_r, <- (seq_shift (List.length rest') 1).
    rewrite length_filter_map. f_equal.
    apply filter_ext_in. intros i Hi. apply in_seq in Hi.
    destruct i as [|j]; [lia|].
    cbn [nth]. now rewrite !Nat.sub_succ, !Nat.sub_0_r. }
  destruct (r a b); cbn [List.length]; rewrite Htail; reflexivity.
Qed.

Lemma calculate_trend_spec (observations : list observation) :
  _calculate_trend observations = trend observations.
Proof.
  unfold _calculate_trend, trend, last_n.
  destruct (Nat.ltb (List.length observations) 2); [reflexivity|].
  cbv zeta.
  set (recent := map price (skipn _ observations)).
  change (fun i => PyFloat.gtb (nth i recent PyFloat.pzero)
                               (nth (i - 1) recent PyFloat.pzero))
    with (fun i => PyFloat.ltb (nth (i - 1) recent PyFloat.pzero)
                               (nth i recent PyFloat.pzero)).
  change (fun i => PyFloat.ltb (nth i recent PyFloat.pzero)
                               (nth (i - 1) recent PyFloat.pzero))
    with (fun i => PyFloat.gtb (nth (i - 1) recent PyFloat.pzero)
                               (nth i recent PyFloat.pzero)).
  now rewrite !count_by_index.
Qed.

(** C2.  [_calculate_trend] is the trend of the specification: with
    fewer than two observations the data is insufficient; otherwise the
    strictly increasing and the strictly decreasing adjacent pairs of
    the last min(3, length) observations are counted, and the trend is
    rising when the increases are more, falling when the decreases are
    more, stable otherwise.  So 10, 9, 8 is falling and 10, 11, 9, 11
    (window 11, 9, 11) is stable. *)
Theorem calculate_trend_correct :
  (forall observations : list observation,
      _calculate_trend observations = trend observations) /\
  (forall observations : list observation,
      List.length observations < 2 ->
      _calculate_trend observations = "Insufficient data"%string) /\
  (forall date : pystr,
      _calculate_trend (observed date [10; 9; 8]%Z) = "Falling"%string) /\
  (forall date : pystr,
      _calculate_trend (observed date [10; 11; 9; 11]%Z) = "Stable"%string).
Proof.
  split; [exact calculate_trend_spec|].
  split.
  - intros observations H. unfold _calculate_trend.
    apply Nat.ltb_lt in H. now rewrite H.
  - split; intros date; reflexivity.
Qed.

Lemma calculate_trend_correct_witness :
  List.length (observed [] [10]%Z) < 2 /\
  _calculate_trend (observed [] [10]%Z) = "Insufficient data"%string.
Proof.
  split.
  - cbn. lia.
  - apply (proj1 (proj2 calculate_trend_correct)). cbn. lia.
Defined.

End TrendFacts.

Module StoreFacts.
Import Text Tracker.

Lemma str_eqb_eq (a b : pystr) : str_eqb a b = true <-> a = b.
Proof.
  revert b. induction a as [|x a IH]; intros [|y b]; simpl;
    try (split; [discriminate|discriminate]); [tauto|].
  rewrite andb_true_iff, N.eqb_eq, IH. split.
  - intros [-> ->]. reflexivity.
  - intros E. injection E as -> ->. tauto.
Qed.

Lemma str_eqb_refl (a : pystr) : str_eqb a a = true.
Proof. now apply str_eqb_eq. Qed.

Lemma lookup_insert (key : pystr) (v : product) (st : store) :
  lookup key (insert key v st) = Some v.
Proof.
  induction st as [|[k w] st IH]; simpl.
  - now rewrite str_eqb_refl.
  - destruct (str_eqb key k) eqn:E; simpl; rewrite E; [reflexivity|exact IH].
Qed.

Lemma insert_insert (key : pystr) (v v' : product) (st : store) :
  insert key v' (insert key v st) = insert key v' st.
Proof.
  induction st as [|[k w] st IH]; simpl.
  - now rewrite str_eqb_refl.
  - destruct (str_eqb key k) eqn:E; simpl; rewrite E; [reflexivity|].
    now rewrite IH.
Qed.

(** A new key goes last. *)
Lemma insert_new (key : pystr) (v : product) (st : store) :
  mem key st = false -> insert key v st = st ++ [(key, v)].
Proof.
  unfold mem. induction st as [|[k w] st IH]; simpl; [reflexivity|].
  destruct (str_eqb key k); [discriminate|].
  intros H. now rewrite (IH H).
Qed.

Lemma keys_insert (key : pystr) (v : product) (st : store) :
  mem key st = true -> keys (insert key v st) = keys st.
Proof.
  unfold mem, keys. induction st as [|[k w] st IH]; simpl; [discriminate|].
  destruct (str_eqb key k) eqn:E; simpl; [reflexivity|].
  intros H. now rewrite (IH H).
Qed.

Lemma nth_last_snoc2 {A : Type} (r : list A) (a b : A) :
  nth_last 1 (r ++ [a; b]) = Some b /\ nth_last 2 (r ++ [a; b]) = Some a.
Proof.
  unfold nth_last. rewrite length_app. cbn [List.length].
  replace (List.length r + 2 - 1) with (List.length r + 1) by lia.
  replace (List.length r + 2 - 2) with (List.length r + 0) by lia.
  split; rewrite nth_error_app2 by lia.
  - replace (List.length r + 1 - List.length r) with 1 by lia. reflexivity.
  - replace (List.length r + 0 - List.length r) with 0 by lia. reflexivity.
Qed.

End StoreFacts.

Module TrackerFacts.
Import Text Extract Tracker Spec StoreFacts.

Section Env.

Variable World : Type.
Variable http_get : pystr -> World -> option Soup * World.
Variable now : World -> pystr * World.
Variable lower : pystr -> pystr.
Variable volatility : list float -> result float.

(** [_scrape_price] never raises, makes one request and leaves the store
    alone. *)
Lemma scrape_price_run (u : pystr) (t : tracker World) :
  _scrape_price http_get lower u t =
  (Ok (scraped http_get lower u (world t)),
   {| products := products t;
      world := snd (http_get u (world t));
      log := log t ++ scrape_log http_get u (world t) |}).
Proof.
  unfold _scrape_price, scraped, scrape_log.
  destruct (http_get u (world t)) as [[soup|] w]; simpl.
  - destruct (contains _ _); reflexivity.
  - now rewrite <- app_assoc.
Qed.

(** C6.  Adding under a name the store already holds reports the
    duplicate and returns [False]; the store, the world (no request, no
    clock reading) and the file (no save in the log) are as before: the
    only effect is the printed report. *)
Theorem add_product_duplicate :
  forall (t : tracker World) (u key : pystr),
    mem key (products t) = true ->
    add_product http_get now lower u key t =
    (Ok false,
     {| products := products t;
        world := world t;
        log := log t ++ [Print (MsgDuplicate key)] |}).
Proof.
  intros t u key H. unfold add_product, bind, get_products.
  rewrite H. reflexivity.
Qed.

(** The run of [add_product] on a new name, in full. *)
Lemma add_product_new_run (t : tracker World) (u key : pystr) :
  mem key (products t) = false ->
  let w1 := snd (http_get u (world t)) in
  let p := scraped http_get lower u (world t) in
  let st' :=
    products t ++
    [(key, {| name := key; url := u;
              prices := match p with
                        | Some v => [{| date := fst (now w1); price := v |}]
                        | None => []
                        end |})] in
  add_product http_get now lower u key t =
  (Ok true,
   {| products := st';
      world := match p with Some _ => snd (now w1) | None => w1 end;
      log := log t ++
             (Print (MsgAdding key) :: scrape_log http_get u (world t)) ++
             match p with
             | Some v => [Clock; Print (MsgAdded key (Some v))]
             | None => [Print MsgNoInitialPrice; Print (MsgAdded key None)]
             end ++ [Save st'] |}).
Proof.
  intros H w1 p st'. unfold add_product, bind, get_products.
  rewrite H. unfold print at 1. unfold emit at 1. cbv beta iota.
  rewrite scrape_price_run. cbn [products world log]. fold w1 p.
  subst st'. destruct p as [v|].
  - unfold ret at 1. unfold set_products, _add_price_entry, _save_data,
      bind, get_products, print, emit, ret.
    cbn [products world log].
    destruct (now w1) as [ts w2]. cbn [fst snd products world log].
    rewrite lookup_insert, insert_insert, (insert_new _ _ _ H).
    cbn [name url prices products world log].
    repeat rewrite <- app_assoc. cbn [app]. reflexivity.
  - unfold set_products, _save_data, bind, get_products, print, emit, ret.
    cbn [products world log].
    rewrite (insert_new _ _ _ H).
    repeat rewrite <- app_assoc. cbn [app]. reflexivity.
Qed.

Lemma requests_app (a b : list event) :
  requests (a ++ b) = requests a ++ requests b.
Proof. apply flat_map_app. Qed.

Lemma saves_app (a b : list event) : saves (a ++ b) = saves a ++ saves b.
Proof. apply flat_map_app. Qed.

Lemma requests_scrape_log (u : pystr) (w : World) :
  requests (scrape_log http_get u w) = [u].
Proof. unfold scrape_log. now destruct (fst (http_get u w)). Qed.

Lemma saves_scrape_log (u : pystr) (w : World) :
  saves (scrape_log http_get u w) = [].
Proof. unfold scrape_log. now destruct (fst (http_get u w)). Qed.

(** C7.  Adding under a new name succeeds whatever the extraction gives:
    [add_product] returns [True]; its effects [trace] hold exactly one
    request, for the given URL; the store gains, in last place, the
    product with that URL and with one observation (the price found, at
    the time of the clock) if a price was found and none otherwise; and
    the trace ends with its only save, of the whole new store. *)
Theorem add_product_new :
  forall (t : tracker World) (u key : pystr),
    mem key (products t) = false ->
    exists (t' : tracker World) (trace : list event),
      add_product http_get now lower u key t = (Ok true, t') /\
      log t' = log t ++ trace /\
      requests trace = [u] /\
      products t' =
        products t ++
        [(key,
          {| name := key; url := u;
             prices :=
               match scraped http_get lower u (world t) with
               | Some v =>
                   [{| date := fst (now (snd (http_get u (world t))));
                       price := v |}]
               | None => []
               end |})] /\
      saves trace = [products t'] /\
      exists before, trace = before ++ [Save (products t')].
Proof.
  intros t u key H. eexists. eexists.
  split; [exact (add_product_new_run t u key H)|].
  cbn [products world log].
  split; [reflexivity|].
  split.
  { change (requests (Print (MsgAdding key) :: ?l)) with (requests l).
    rewrite !requests_app. cbn [requests flat_map app].
    rewrite requests_scrape_log.
    now destruct (scraped http_get lower u (world t)). }
  split; [reflexivity|].
  split.
  { rewrite !saves_app.
    change (saves (Print (MsgAdding key) :: ?l)) with (saves l).
    rewrite saves_scrape_log.
    now destruct (scraped http_get lower u (world t)). }
  eexists. now rewrite app_assoc.
Qed.

(** C10.  On an empty store [check_all] returns 0 after its one report:
    no request is made and nothing is saved.  A run on a store that is
    not empty, when it returns, has saved the whole store just before
    its closing report. *)
Theorem check_all_empty :
  (forall t : tracker World,
      products t = [] ->
      check_all http_get now lower t =
      (Ok 0,
       {| products := []; world := world t;
          log := log t ++ [Print MsgNothingTracked] |})) /\
  (forall (t t' : tracker World) (n : nat),
      products t <> [] ->
      check_all http_get now lower t = (Ok n, t') ->
      exists before,
        log t' =
        before ++ [Save (products t');
                   Print (MsgUpdated n (List.length (products t')))]).
Proof.
  split.
  - intros t H. unfold check_all, bind, get_products. rewrite H.
    cbn. now rewrite H.
  - intros t t' n Hne. unfold check_all, bind, get_products.
    destruct (products t) as [|kv st] eqn:E; [contradiction|].
    unfold print at 1. unfold emit at 1. cbv beta iota.
    destruct (check_loop http_get now lower (keys (kv :: st)) 0 _)
      as [[updated|e] t1]; [|discriminate].
    unfold _save_data, bind, get_products, print, emit, ret.
    cbn [products world log]. intros H. injection H as <- <-.
    cbn [products log]. exists (log t1). now rewrite <- app_assoc.
Qed.

End Env.

End TrackerFacts.

(** ** Facts about floats: the sign of a rounded quotient *)

Module FloatFacts.
Import PyFloat.

Lemma iter_pos_invariant {A : Type} (P : A -> Prop) (f : A -> A) :
  (forall x, P x -> P (f x)) ->
  forall (p : positive) (x : A), P x -> P (iter_pos f p x).
Proof.
  intros Hf. induction p as [p IH|p IH|]; intros x Hx; simpl.
  - apply IH, IH, Hf, Hx.
  - apply IH, IH, Hx.
  - apply Hf, Hx.
Qed.

Lemma shr_1_nonneg (mrs : shr_record) :
  (0 <= shr_m mrs)%Z -> (0 <= shr_m (shr_1 mrs))%Z.
Proof.
  destruct mrs as [m r s]. simpl.
  destruct m as [|[p|p|]|[p|p|]]; simpl; lia.
Qed.

Lemma shr_nonneg (mrs : shr_record) (e n : Z) :
  (0 <= shr_m mrs)%Z -> (0 <= shr_m (fst (shr mrs e n)))%Z.
Proof.
  intros H. destruct n as [|p|p]; simpl; try assumption.
  now apply (iter_pos_invariant (fun x => (0 <= shr_m x)%Z) shr_1 shr_1_nonneg).
Qed.

Lemma shr_record_of_loc_m (m : Z) (l : location) :
  shr_m (shr_record_of_loc m l) = m.
Proof. destruct l as [|[]]; reflexivity. Qed.

Lemma shr_fexp_nonneg (m e : Z) (l : location) :
  (0 <= m)%Z -> (0 <= shr_m (fst (shr_fexp prec emax m e l)))%Z.
Proof.
  intros H. unfold shr_fexp. apply shr_nonneg.
  now rewrite shr_record_of_loc_m.
Qed.

Lemma round_nearest_even_nonneg (m : Z) (l : location) :
  (0 <= m)%Z -> (0 <= round_nearest_even m l)%Z.
Proof.
  intros H. destruct l as [|[]]; simpl; try lia.
  destruct (Z.even m); lia.
Qed.

(** Rounding a magnitude that is not negative, with the sign of a
    positive number, gives zero, a positive number or plus infinity. *)
Lemma binary_round_aux_nonneg (m e : Z) (l : location) :
  (0 <= m)%Z -> nonneg (binary_round_aux prec emax false m e l) = true.
Proof.
  intros H. unfold binary_round_aux.
  pose proof (shr_fexp_nonneg m e l H) as H1.
  destruct (shr_fexp prec emax m e l) as [mrs' e'].
  cbn [fst] in H1.
  pose proof (shr_fexp_nonneg _ e' loc_Exact
                (round_nearest_even_nonneg _ (loc_of_shr_record mrs') H1))
    as H2.
  destruct (shr_fexp prec emax _ e' loc_Exact) as [mrs'' e''].
  cbn [fst] in H2.
  destruct (shr_m mrs'') as [|p|p]; [reflexivity| |lia].
  destruct (Z.leb e'' (emax - prec)); reflexivity.
Qed.

Lemma SFdiv_core_nonneg (m1 m2 : positive) (e1 e2 : Z) :
  (0 <= fst (fst (SFdiv_core_binary prec emax (Zpos m1) e1 (Zpos m2) e2)))%Z.
Proof.
  unfold SFdiv_core_binary.
  set (s := (e1 - e2 - _)%Z).
  set (m' := match s with
             | Z0 => Zpos m1
             | Zpos _ => Z.shiftl (Zpos m1) s
             | Zneg _ => 0%Z
             end).
  assert (Hm' : (0 <= m')%Z).
  { subst m'. destruct s; try lia. apply Z.shiftl_nonneg. lia. }
  pose proof (Z_div_mod m' (Zpos m2) eq_refl) as Hdm.
  pose proof (Z.div_pos m' (Zpos m2) Hm' eq_refl) as Hq.
  unfold Z.div in Hq.
  destruct (Z.div_eucl m' (Zpos m2)) as [q r]. simpl. exact Hq.
Qed.

(** The float of a decimal numeral is never negative and never a NaN. *)
Lemma of_decimal_nonneg (n : Z) (k : nat) : nonneg (of_decimal n k) = true.
Proof.
  unfold of_decimal. destruct n as [|p|p]; try reflexivity.
  unfold SFdiv.
  pose proof (SFdiv_core_nonneg p (Z.to_pos (10 ^ Z.of_nat k)) 0 0) as H.
  destruct (SFdiv_core_binary prec emax (Zpos p) 0 _ 0) as [[mz ez] lz].
  cbn [fst] in H. now apply binary_round_aux_nonneg.
Qed.

End FloatFacts.

(** ** The invariant on stored prices *)

Module InvariantFacts.
Import Text Extract Tracker Spec StoreFacts FloatFacts.

Lemma py_float_nonneg (s : pystr) (f : PyFloat.float) :
  py_float s = Ok f -> PyFloat.nonneg f = true.
Proof.
  unfold py_float.
  destruct (span_digits s) as [ip r]. destruct (opt_dot r) as [pt r'].
  destruct (span_digits r') as [fp rest].
  destruct rest; [|discriminate].
  destruct (ip ++ fp); [discriminate|].
  intros H. injection H as <-. apply of_decimal_nonneg.
Qed.

(** What extraction returns is never negative and never a NaN. *)
Lemma extract_nonneg (text : pystr) (p : PyFloat.float) :
  _extract_price_from_text text = Some p -> PyFloat.nonneg p = true.
Proof.
  unfold _extract_price_from_text.
  destruct (re_search _) as [m|]; [|discriminate].
  destruct (py_float m) as [f|e] eqn:E; [|discriminate].
  intros H. injection H as <-. exact (py_float_nonneg _ _ E).
Qed.

Lemma first_price_nonneg (texts : list pystr) (p : PyFloat.float) :
  first_price texts = Some p -> PyFloat.nonneg p = true.
Proof.
  induction texts as [|t texts IH]; simpl; [discriminate|].
  destruct (_extract_price_from_text (strip t)) as [q|] eqn:E; [|exact IH].
  intros H. injection H as <-. exact (extract_nonneg _ _ E).
Qed.

Lemma scrape_with_nonneg (sels : list selector) (soup : Soup)
      (p : PyFloat.float) :
  scrape_with sels soup = Some p -> PyFloat.nonneg p = true.
Proof.
  induction sels as [|sel sels IH]; simpl; [discriminate|].
  destruct (first_price (soup sel)) as [q|] eqn:E; [|exact IH].
  intros H. injection H as <-. exact (first_price_nonneg _ _ E).
Qed.

Lemma store_ok_lookup (key : pystr) (st : store) (pr : product) :
  store_ok st -> lookup key st = Some pr -> entries_ok (prices pr).
Proof.
  unfold store_ok. induction st as [|[k w] st IH]; simpl; [discriminate|].
  intros Hok. inversion Hok as [|? ? Hw Hst]; subst.
  destruct (str_eqb key k).
  - intros H. injection H as <-. exact Hw.
  - now apply IH.
Qed.

Lemma store_ok_insert (key : pystr) (v : product) (st : store) :
  store_ok st -> entries_ok (prices v) -> store_ok (insert key v st).
Proof.
  unfold store_ok. intros Hst Hv.
  induction st as [|[k w] st IH]; simpl.
  - now constructor.
  - inversion Hst as [|? ? Hw Hrest]; subst.
    destruct (str_eqb key k); constructor; auto.
Qed.

Section Env.

Variable World : Type.
Variable http_get : pystr -> World -> option Soup * World.
Variable now : World -> pystr * World.
Variable lower : pystr -> pystr.
Variable volatility : list float -> result float.

Local Abbreviation keeps := (@Spec.keeps World _) (only parsing).

Lemma keeps_ret {A : Type} (a : A) (R : A -> Prop) :
  R a -> keeps (ret a) R.
Proof.
  intros Ha t Ht. split; [exact Ht|].
  intros a' H. injection H as <-. exact Ha.
Qed.

Lemma keeps_bind {A B : Type} (c : M World A) (k : A -> M World B)
      (R : A -> Prop) (R' : B -> Prop) :
  keeps c R -> (forall a, R a -> keeps (k a) R') -> keeps (bind c k) R'.
Proof.
  intros Hc Hk t Ht. unfold bind.
  destruct (Hc t Ht) as [Hst Hr].
  destruct (c t) as [[a|e] t1]; cbn [fst snd] in *.
  - apply (Hk a (Hr a eq_refl) t1 Hst).
  - split; [exact Hst|discriminate].
Qed.

Lemma keeps_weaken {A : Type} (c : M World A) (R R' : A -> Prop) :
  keeps c R -> (forall a, R a -> R' a) -> keeps c R'.
Proof.
  intros Hc HR t Ht. destruct (Hc t Ht) as [Hst Hr]. split; auto.
Qed.

Lemma keeps_emit (e : event) : keeps (emit e) (fun _ => True).
Proof. intros t Ht. split; [exact Ht|trivial]. Qed.

Lemma keeps_print (m : message) : keeps (print m) (fun _ => True).
Proof. apply keeps_emit. Qed.

Lemma keeps_lift {A : Type} (r : result A) :
  keeps (lift r) (fun _ => True).
Proof. intros t Ht. split; [exact Ht|trivial]. Qed.

Lemma keeps_get_products : keeps (@get_products World) store_ok.
Proof.
  intros t Ht. split; [exact Ht|].
  intros a H. injection H as <-. exact Ht.
Qed.

Lemma keeps_set_products (st : store) :
  store_ok st -> keeps (@set_products World st) (fun _ => True).
Proof. intros Hst t Ht. split; [exact Hst|trivial]. Qed.

Lemma keeps_get_product (key : pystr) :
  keeps (@get_product World key) (fun pr => entries_ok (prices pr)).
Proof.
  intros t Ht. unfold get_product.
  destruct (lookup key (products t)) as [pr|] eqn:E; cbn [fst snd].
  - split; [exact Ht|]. intros a H. injection H as <-.
    exact (store_ok_lookup _ _ _ Ht E).
  - split; [exact Ht|discriminate].
Qed.

Lemma keeps_save : keeps (@_save_data World) (fun _ => True).
Proof.
  unfold _save_data. eapply keeps_bind; [apply keeps_get_products|].
  intros st _. apply keeps_emit.
Qed.

Lemma keeps_scrape_price (u : pystr) :
  keeps (_scrape_price http_get lower u)
        (fun p => forall v, p = Some v -> PyFloat.nonneg v = true).
Proof.
  intros t Ht. rewrite TrackerFacts.scrape_price_run. cbn [fst snd products].
  split; [exact Ht|].
  intros a H. injection H as <-. intros v Hv.
  unfold scraped in Hv.
  destruct (fst (http_get u (world t))) as [soup|]; [|discriminate].
  destruct (contains _ _); exact (scrape_with_nonneg _ _ _ Hv).
Qed.

Lemma keeps_add_price_entry (key : pystr) (p : float) :
  PyFloat.nonneg p = true ->
  keeps (_add_price_entry now key p) (fun _ => True).
Proof.
  intros Hp t Ht. unfold _add_price_entry.
  destruct (now (world t)) as [ts w]. cbn [products world log].
  destruct (lookup key (products t)) as [pr|] eqn:E; cbn [fst snd products].
  - split; [|trivial]. apply store_ok_insert; [exact Ht|].
    cbn [prices]. apply Forall_app. split.
    + exact (store_ok_lookup _ _ _ Ht E).
    + constructor; [exact Hp|constructor].
  - split; [exact Ht|discriminate].
Qed.

Ltac keeps_step :=
  first
    [ apply keeps_print
    | apply keeps_emit
    | apply keeps_save
    | apply keeps_lift
    | apply keeps_get_products
    | apply keeps_get_product
    | apply keeps_scrape_price
    | apply keeps_ret; exact I ].

Lemma keeps_add_product (u key : pystr) :
  keeps (add_product http_get now lower u key) (fun _ => True).
Proof.
  unfold add_product.
  eapply keeps_bind; [apply keeps_get_products|]. intros st Hst.
  destruct (mem key st).
  { eapply keeps_bind; [apply keeps_print|]. intros _ _. keeps_step. }
  eapply keeps_bind; [apply keeps_print|]. intros _ _.
  eapply keeps_bind; [apply keeps_scrape_price|]. intros p Hp.
  eapply keeps_bind.
  { instantiate (1 := fun _ => True). destruct p; keeps_step. }
  intros _ _.
  eapply keeps_bind; [apply keeps_get_products|]. intros st1 Hst1.
  eapply keeps_bind.
  { apply keeps_set_products. apply store_ok_insert; [exact Hst1|].
    constructor. }
  intros _ _.
  eapply keeps_bind.
  { instantiate (1 := fun _ => True). destruct p as [v|].
    - eapply keeps_bind; [apply keeps_add_price_entry; now apply Hp|].
      intros _ _. keeps_step.
    - keeps_step. }
  intros _ _.
  eapply keeps_bind; [apply keeps_save|]. intros _ _. keeps_step.
Qed.

Lemma keeps_report_price (v : float) (pr : product) :
  keeps (@report_price World v pr) (fun _ => True).
Proof.
  unfold report_price.
  destruct (Nat.ltb 1 (List.length (prices pr))); [|keeps_step].
  eapply keeps_bind; [apply keeps_lift|]. intros old _.
  eapply keeps_bind; [apply keeps_lift|]. intros q _.
  destruct (PyFloat.gtb _ _); [keeps_step|].
  destruct (PyFloat.ltb _ _); keeps_step.
Qed.

Lemma keeps_check_loop (todo : list pystr) :
  forall updated : nat,
    keeps (check_loop http_get now lower todo updated) (fun _ => True).
Proof.
  induction todo as [|key rest IH]; intros updated; cbn [check_loop].
  { keeps_step. }
  eapply keeps_bind; [apply keeps_print|]. intros _ _.
  eapply keeps_bind; [apply keeps_get_product|]. intros pr _.
  eapply keeps_bind; [apply keeps_scrape_price|]. intros p Hp.
  destruct p as [v|].
  - eapply keeps_bind; [apply keeps_add_price_entry; now apply Hp|].
    intros _ _.
    eapply keeps_bind; [apply keeps_get_product|]. intros pr' _.
    eapply keeps_bind; [apply keeps_report_price|]. intros _ _. apply IH.
  - eapply keeps_bind; [apply keeps_print|]. intros _ _. apply IH.
Qed.

Lemma keeps_check_all :
  keeps (check_all http_get now lower) (fun _ => True).
Proof.
  unfold check_all.
  eapply keeps_bind; [apply keeps_get_products|]. intros st _.
  destruct st as [|kv st].
  { eapply keeps_bind; [apply keeps_print|]. intros _ _. keeps_step. }
  eapply keeps_bind; [apply keeps_print|]. intros _ _.
  eapply keeps_bind; [apply keeps_check_loop|]. intros updated _.
  eapply keeps_bind; [apply keeps_save|]. intros _ _.
  eapply keeps_bind; [apply keeps_get_products|]. intros st' _.
  eapply keeps_bind; [apply keeps_print|]. intros _ _. keeps_step.
Qed.

Lemma keeps_check_alerts (drop_threshold : float) :
  keeps (@check_alerts World drop_threshold) (fun _ => True).
Proof.
  unfold check_alerts.
  eapply keeps_bind; [apply keeps_get_products|]. intros st _.
  destruct st as [|kv st]; [keeps_step|].
  eapply keeps_bind; [apply keeps_print|]. intros _ _.
  eapply keeps_bind; [apply keeps_lift|]. intros alerts _.
  destruct alerts as [|a alerts]; [keeps_step|].
  generalize (a :: alerts) as l. intros l.
  induction l as [|x l IHl]; cbn [fold_right]; [keeps_step|].
  eapply keeps_bind; [apply keeps_print|]. intros _ _. exact IHl.
Qed.

Lemma keeps_show_product_stats (key : pystr) (p : product) :
  keeps (@_show_product_stats World volatility key p) (fun _ => True).
Proof.
  unfold _show_product_stats.
  eapply keeps_bind; [apply keeps_print|]. intros _ _.
  destruct (map price (prices p)) as [|first_price others]; [keeps_step|].
  cbv zeta.
  eapply keeps_bind.
  { instantiate (1 := fun _ => True).
    destruct (PyFloat.neb _ _); [|keeps_step].
    eapply keeps_bind; [apply keeps_lift|]. intros q _. keeps_step. }
  intros pct _.
  eapply keeps_bind.
  { instantiate (1 := fun _ => True).
    destruct (Nat.ltb _ _); keeps_step. }
  intros vol _.
  eapply keeps_bind; [apply keeps_print|]. intros _ _.
  eapply keeps_bind; [apply keeps_print|]. intros _ _.
  eapply keeps_bind; [apply keeps_lift|]. intros q _.
  eapply keeps_bind; [apply keeps_print|]. intros _ _. keeps_step.
Qed.

(** C9, as the code has it.  Extraction returns nothing or a number that
    is not negative: a zero, a positive finite number, or plus infinity
    (for a numeral beyond the range of a float), never a NaN.
    Observations are appended only with such prices, so every operation
    keeps the invariant that all stored prices are numbers and not
    negative, whether it returns or raises. *)
Theorem stored_prices_nonneg :
  (forall (text : pystr) (p : PyFloat.float),
      _extract_price_from_text text = Some p -> PyFloat.nonneg p = true) /\
  (forall (t : tracker World) (u key : pystr),
      store_ok (products t) ->
      store_ok (products (snd (add_product http_get now lower u key t)))) /\
  (forall t : tracker World,
      store_ok (products t) ->
      store_ok (products (snd (check_all http_get now lower t)))) /\
  (forall (t : tracker World) (drop_threshold : float),
      store_ok (products t) ->
      store_ok (products (snd (check_alerts drop_threshold t)))) /\
  (forall (t : tracker World) (key : pystr) (p : product),
      store_ok (products t) ->
      store_ok (products (snd (_show_product_stats volatility key p t)))).
Proof.
  split; [exact extract_nonneg|].
  split; [intros t u key Ht; now apply keeps_add_product|].
  split; [intros t Ht; now apply keeps_check_all|].
  split; [intros t thr Ht; now apply keeps_check_alerts|].
  intros t key p Ht; now apply keeps_show_product_stats.
Qed.

End Env.

End InvariantFacts.

(** ** The alerts where no previous price is zero *)

Module AlertFacts.
Import Text Tracker Spec StoreFacts.

(** A list by its last two elements. *)
Lemma last_two {A : Type} (l : list A) :
  (List.length l < 2 /\
   match rev l with _ :: _ :: _ => False | _ => True end)
  \/ exists r a b, l = r ++ [a; b] /\ rev l = b :: a :: rev r.
Proof.
  destruct (rev l) as [|b [|a r']] eqn:E.
  - left. apply (f_equal (@List.length A)) in E. rewrite length_rev in E.
    cbn in E. split; [lia|trivial].
  - left. apply (f_equal (@List.length A)) in E. rewrite length_rev in E.
    cbn in E. split; [lia|trivial].
  - right. exists (rev r'), a, b.
    apply (f_equal (@rev A)) in E. rewrite rev_involutive in E.
    cbn in E. rewrite <- app_assoc in E. cbn in E.
    split; [exact E|]. now rewrite rev_involutive.
Qed.

(** Where no second-latest price is zero, the loop of [check_alerts]
    returns, and gathers exactly the products with two observations or
    more whose drop reaches the threshold, in the order of the store. *)
Lemma alerts_loop_correct (threshold : float) (items : store) :
  Forall previous_nonzero items ->
  forall alerts : list alert,
    alerts_loop threshold items alerts =
    Ok (alerts ++ flat_map (drop_alert threshold) items).
Proof.
  induction 1 as [|[key pr] items Hkv Hitems IH]; intros alerts.
  - cbn. now rewrite app_nil_r.
  - cbn [alerts_loop flat_map]. unfold drop_alert at 1.
    unfold previous_nonzero in Hkv. cbn [fst snd] in *.
    destruct (last_two (prices pr)) as [[Hlen Hrev]|[r [a [b [El Erev]]]]].
    + apply Nat.ltb_lt in Hlen. rewrite Hlen.
      destruct (rev (prices pr)) as [|? [|? ?]]; try contradiction;
        cbn [app]; apply IH.
    + rewrite Erev in *. rewrite El.
      destruct (nth_last_snoc2 r a b) as [-> ->].
      assert (Hlen : Nat.ltb (List.length (r ++ [a; b])) 2 = false).
      { apply Nat.ltb_ge. rewrite length_app. cbn. lia. }
      rewrite Hlen. unfold drop_pct, PyFloat.div. rewrite Hkv.
      destruct (PyFloat.geb _ threshold).
      * rewrite IH. now rewrite <- app_assoc.
      * apply IH.
Qed.

End AlertFacts.

(** ** [check_all] where no division by zero occurs *)

Module CheckFacts.
Import Text Extract Tracker Spec StoreFacts.

Lemma str_eqb_neq (a b : pystr) : a <> b -> str_eqb a b = false.
Proof.
  intros H. destruct (str_eqb a b) eqn:E; [|reflexivity].
  apply str_eqb_eq in E. contradiction.
Qed.

Lemma lookup_middle (key : pystr) (pr : product) (done rest : store) :
  ~ In key (keys done) ->
  lookup key (done ++ (key, pr) :: rest) = Some pr.
Proof.
  induction done as [|[k w] done IH]; intros H; simpl.
  - now rewrite str_eqb_refl.
  - rewrite str_eqb_neq.
    + apply IH. intros Hin. apply H. now right.
    + intros E. apply H. left. now subst.
Qed.

Lemma insert_middle (key : pystr) (pr v : product) (done rest : store) :
  ~ In key (keys done) ->
  insert key v (done ++ (key, pr) :: rest) = done ++ (key, v) :: rest.
Proof.
  induction done as [|[k w] done IH]; intros H; simpl.
  - now rewrite str_eqb_refl.
  - rewrite str_eqb_neq.
    + rewrite IH; [reflexivity|]. intros Hin. apply H. now right.
    + intros E. apply H. left. now subst.
Qed.

Section Env.

Variable World : Type.
Variable http_get : pystr -> World -> option Soup * World.
Variable now : World -> pystr * World.
Variable lower : pystr -> pystr.

(** The report of a new price returns when the price before it is not
    zero; it prints one line. *)
Lemma report_price_run (v : float) (pr : product)
      (old_prices : list observation) (ob : observation)
      (t : tracker World) :
  prices pr = old_prices ++ [ob] ->
  match rev old_prices with
  | latest :: _ => PyFloat.eqb (price latest) PyFloat.pzero = false
  | [] => True
  end ->
  exists m : message,
    report_price v pr t =
    (Ok tt,
     {| products := products t; world := world t;
        log := log t ++ [Print m] |}).
Proof.
  intros Hp Hz. unfold report_price. rewrite Hp.
  destruct (rev old_prices) as [|latest r] eqn:E.
  - apply (f_equal (@rev observation)) in E. rewrite rev_involutive in E.
    subst old_prices. cbn. eexists. reflexivity.
  - apply (f_equal (@rev observation)) in E. rewrite rev_involutive in E.
    cbn in E. subst old_prices. rewrite <- app_assoc. cbn [app].
    assert (Hlen : Nat.ltb 1 (List.length (rev r ++ [latest; ob])) = true).
    { apply Nat.ltb_lt. rewrite length_app. cbn. lia. }
    rewrite Hlen. destruct (nth_last_snoc2 (rev r) latest ob) as [_ ->].
    unfold bind, lift, PyFloat.div. rewrite Hz.
    destruct (PyFloat.gtb _ _); [eexists; reflexivity|].
    destruct (PyFloat.ltb _ _); eexists; reflexivity.
Qed.

Lemma get_product_middle (key : pystr) (pr : product) (done rest : store)
      (t : tracker World) :
  products t = done ++ (key, pr) :: rest ->
  ~ In key (keys done) ->
  get_product key t = (Ok pr, t).
Proof.
  intros Hp Hk. unfold get_product. now rewrite Hp, lookup_middle.
Qed.

Lemma add_price_entry_middle (key : pystr) (pr : product) (v : float)
      (done rest : store) (t : tracker World) :
  products t = done ++ (key, pr) :: rest ->
  ~ In key (keys done) ->
  _add_price_entry now key v t =
  (Ok tt,
   {| products :=
        done ++
        (key, {| name := name pr; url := url pr;
                 prices := prices pr ++
                           [{| date := fst (now (world t)); price := v |}] |})
        :: rest;
      world := snd (now (world t));
      log := log t ++ [Clock] |}).
Proof.
  intros Hp Hk. unfold _add_price_entry.
  destruct (now (world t)) as [ts w]. cbn [products world log fst snd].
  now rewrite Hp, lookup_middle, insert_middle.
Qed.

(** The loop, from a store [done ++ todo] whose keys are distinct. *)
Lemma check_loop_run (todo : store) :
  forall (done : store) (t : tracker World) (n : nat),
    products t = done ++ todo ->
    NoDup (keys (done ++ todo)) ->
    reportable todo (outcomes http_get now lower todo (world t)) ->
    exists t' : tracker World,
      check_loop http_get now lower (keys todo) n t =
      (Ok (n + successes (outcomes http_get now lower todo (world t))), t')
      /\ products t' =
         done ++ all_appended todo (outcomes http_get now lower todo (world t)).
Proof.
  induction todo as [|[key pr] rest IH]; intros done t n Hp Hnd Hrep.
  - exists t. cbn. rewrite Nat.add_0_r. now rewrite Hp.
  - assert (Hk : ~ In key (keys done)).
    { unfold keys in *. rewrite map_app in Hnd. cbn in Hnd.
      apply NoDup_remove_2 in Hnd. intros Hin. apply Hnd.
      apply in_or_app. now left. }
    change (keys ((key, pr) :: rest)) with (key :: keys rest).
    cbn [check_loop].
    unfold bind at 1. unfold print at 1, emit at 1. cbv beta iota.
    unfold bind at 1.
    rewrite (get_product_middle key pr done rest); [|exact Hp|exact Hk].
    unfold bind at 1. rewrite TrackerFacts.scrape_price_run.
    cbn [products world log].
    cbn [outcomes] in Hrep |- *.
    destruct (scraped http_get lower (url pr) (world t)) as [v|].
    + cbn [reportable all_appended appended fst snd] in Hrep |- *.
      destruct Hrep as [Hz Hrep].
      unfold bind at 1.
      rewrite (add_price_entry_middle key pr v done rest);
        [|exact Hp|exact Hk].
      cbn [products world log].
      unfold bind at 1.
      erewrite (get_product_middle key _ done rest);
        [|cbn [products]; reflexivity|exact Hk].
      unfold bind at 1.
      edestruct (report_price_run v
                   {| name := name pr; url := url pr;
                      prices := prices pr ++
                        [{| date := fst (now (snd (http_get (url pr) (world t))));
                            price := v |}] |}
                   (prices pr)) as [m Hm]; [reflexivity|exact Hz|].
      rewrite Hm. clear Hm. cbn [products world log].
      set (pr' := {| name := name pr; url := url pr; prices := _ |}).
      match goal with
      | |- exists t', check_loop _ _ _ _ _ ?t0 = _ /\ _ =>
          destruct (IH (done ++ [(key, pr')]) t0 (S n))
            as [t' [Hrun Hst]]
      end.
      * cbn [products]. now rewrite <- app_assoc.
      * unfold keys in *. rewrite <- app_assoc. cbn [app].
        rewrite map_app in *. exact Hnd.
      * exact Hrep.
      * cbn [world] in Hrun, Hst. exists t'. split.
        -- rewrite Hrun. unfold successes. cbn [filter List.length].
           f_equal. f_equal. lia.
        -- rewrite Hst. now rewrite <- app_assoc.
    + cbn [reportable all_appended appended fst snd] in Hrep |- *.
      destruct Hrep as [_ Hrep].
      unfold bind at 1. unfold print at 1, emit at 1. cbv beta iota.
      cbn [products world log].
      match goal with
      | |- exists t', check_loop _ _ _ _ _ ?t0 = _ /\ _ =>
          destruct (IH (done ++ [(key, pr)]) t0 n) as [t' [Hrun Hst]]
      end.
      * cbn [products]. rewrite Hp. now rewrite <- app_assoc.
      * now rewrite <- app_assoc.
      * exact Hrep.
      * cbn [world] in Hrun, Hst. exists t'. split.
        -- rewrite Hrun. reflexivity.
        -- rewrite Hst. now rewrite <- app_assoc.
Qed.

(** Where no succeeding product was last seen at the price zero,
    [check_all] on N products of which M succeed returns M; each
    succeeding product has one observation more, the others are as they
    were; and the whole store is saved before the closing report. *)
Lemma check_all_frame (t : tracker World) :
  products t <> [] ->
  NoDup (keys (products t)) ->
  reportable (products t)
             (outcomes http_get now lower (products t) (world t)) ->
  exists t' : tracker World,
    check_all http_get now lower t =
    (Ok (successes (outcomes http_get now lower (products t) (world t))), t')
    /\ products t' =
       all_appended (products t)
                    (outcomes http_get now lower (products t) (world t))
    /\ exists before,
         log t' =
         before ++ [Save (products t');
                    Print (MsgUpdated
                             (successes (outcomes http_get now lower
                                                  (products t) (world t)))
                             (List.length (products t')))].
Proof.
  intros Hne Hnd Hrep. unfold check_all.
  unfold bind at 1. unfold get_products at 1. cbv beta iota.
  destruct (products t) as [|kv st] eqn:E; [contradiction|].
  unfold bind at 1. unfold print at 1, emit at 1. cbv beta iota.
  destruct (check_loop_run (kv :: st) []
              {| products := products t; world := world t;
                 log := log t ++ [Print (MsgCheckingAll (List.length (kv :: st)))] |}
              0) as [t1 [Hrun Hst]].
  - cbn [products]. now rewrite E.
  - exact Hnd.
  - exact Hrep.
  - cbn [world app] in Hrun, Hst. unfold bind at 1. rewrite Hrun.
    cbn [Nat.add]. unfold _save_data, bind, get_products, print, emit, ret.
    cbn [products world log]. eexists. split; [reflexivity|].
    cbn [products log]. split; [exact Hst|].
    exists (log t1). now rewrite <- app_assoc.
Qed.

End Env.

Lemma outcomes_length {World : Type}
      (http_get : pystr -> World -> option Soup * World)
      (now : World -> pystr * World) (lower : pystr -> pystr)
      (items : store) :
  forall w : World,
    List.length (outcomes http_get now lower items w) = List.length items.
Proof.
  induction items as [|[key pr] items IH]; intros w; cbn [outcomes];
    [reflexivity|].
  destruct (scraped http_get lower (url pr) w); cbn [List.length];
    now rewrite IH.
Qed.

Lemma total_observations_cons (kv : pystr * product) (st : store) :
  total_observations (kv :: st)
  = List.length (prices (snd kv)) + total_observations st.
Proof. reflexivity. Qed.

(** M successes append M observations in all. *)
Lemma all_appended_total (items : store) :
  forall outs : list (option observation),
    List.length outs = List.length items ->
    total_observations (all_appended items outs)
    = total_observations items + successes outs.
Proof.
  induction items as [|kv items IH]; intros [|o outs] Hlen;
    try discriminate; [reflexivity|].
  cbn [all_appended]. injection Hlen as Hlen.
  rewrite !total_observations_cons, (IH outs Hlen).
  unfold successes. cbn [filter].
  destruct o as [ob|]; cbn [appended snd prices List.length];
    [rewrite length_app; cbn [List.length]|]; lia.
Qed.

End CheckFacts.

(** ** Divisions by a stored price of zero *)

Module ZeroPriceFacts.
Import Text Extract Tracker Spec Examples.

Section Env.

Variable World : Type.
Variable volatility : list float -> result float.

(** C4 on the code.  For a product whose only observation has the price
    zero, [_show_product_stats] prints the header, the price range and
    the overall change (whose percentage is guarded), and then raises
    [ZeroDivisionError] at the percentage of the spread: the division by
    the lowest price is not guarded, and no spread is printed. *)
Theorem show_product_stats_zero_min :
  forall (t : tracker World) (key u d : pystr),
    _show_product_stats volatility key
      {| name := key; url := u;
         prices := [{| date := d; price := PyFloat.pzero |}] |} t =
    (Raise ZeroDivisionError,
     {| products := products t;
        world := world t;
        log := log t ++
               [Print (MsgStatsHeader key u);
                Print (MsgPriceRange PyFloat.pzero PyFloat.pzero PyFloat.pzero);
                Print (MsgOverall PyFloat.pzero PyFloat.pzero)] |}).
Proof.
  intros t key u d. unfold _show_product_stats, bind, print, emit, ret, lift.
  cbn. repeat rewrite <- app_assoc. reflexivity.
Qed.

(** C8 on the code.  In a store whose first product went from zero to
    five, [check_alerts] raises [ZeroDivisionError] at that product for
    every threshold, after its opening line: no alert is reported, not
    even for the second product, which went from 100 to 85. *)
Theorem check_alerts_zero_previous :
  forall (w : World) (l : list event) (drop_threshold : float),
    check_alerts drop_threshold
      {| products := was_free; world := w; log := l |} =
    (Raise ZeroDivisionError,
     {| products := was_free; world := w;
        log := l ++ [Print (MsgCheckingDrops drop_threshold)] |}).
Proof. intros w l drop_threshold. reflexivity. Qed.

End Env.

(** The figures of the specification, where no price is zero: 100, 80,
    120 has the spread 40, which is 50 percent of the lowest price. *)
Lemma show_product_stats_spread :
  _show_product_stats volatility (lit "lamp")
    (snd (item "lamp" [PyFloat.of_Z 100; PyFloat.of_Z 80; PyFloat.of_Z 120]))
    (start []) =
  (Ok tt,
   {| products := []; world := 0;
      log := [Print (MsgStatsHeader (lit "lamp") (lit "https://shop.example/item"));
              Print (MsgPriceRange (PyFloat.of_Z 120) (PyFloat.of_Z 80)
                                   (PyFloat.of_Z 120));
              Print (MsgOverall (PyFloat.of_Z 20) (PyFloat.of_Z 20));
              Print (MsgSpread (PyFloat.of_Z 40) (PyFloat.of_Z 50));
              Print (MsgStatistics 3 (PyFloat.of_Z 0) "Stable")] |}).
Proof. vm_compute. reflexivity. Qed.

(** The alerts of the specification, where no price is zero: at the
    threshold 10, 100 then 85 is reported with the drop 15.0, and 100
    then 95 and the product with one observation are not. *)
Lemma alerts_loop_drops :
  alerts_loop (PyFloat.of_Z 10) two_lamps [] =
  Ok [{| alert_name := lit "lamp";
         previous := PyFloat.of_Z 100;
         current := PyFloat.of_Z 85;
         drop := PyFloat.of_Z 15 |}].
Proof. vm_compute. reflexivity. Qed.

(** C3 on the code.  A store with one product, last seen at the price
    zero, and a page that shows five dollars: [check_all] fetches the
    page, appends the observation in memory and then raises
    [ZeroDivisionError] at the percentage of the change.  It returns no
    count and saves nothing. *)
Theorem check_all_zero_price_raises :
  check_all (serve (Some five_dollar_page)) now lower (start free_item) =
  (Raise ZeroDivisionError,
   {| products :=
        [(lit "gift",
          {| name := lit "gift"; url := lit "https://shop.example/item";
             prices := [obs PyFloat.pzero;
                        {| date := lit "2024-01-01T00:00:00";
                           price := PyFloat.of_Z 5 |}] |})];
      world := 2;
      log := [Print (MsgCheckingAll 1); Print (MsgChecking (lit "gift"));
              Get (lit "https://shop.example/item"); Clock] |}).
Proof. vm_compute. reflexivity. Qed.

End ZeroPriceFacts.

(** ** The theorems at concrete inputs *)

Module Runs.
Import Text Extract Tracker Spec Examples.

Lemma add_product_duplicate_witness :
  mem (lit "lamp") (products (start two_lamps)) = true /\
  add_product (serve (Some five_dollar_page)) now lower
              (lit "https://shop.example/other") (lit "lamp")
              (start two_lamps) =
  (Ok false,
   {| products := two_lamps; world := 0;
      log := [Print (MsgDuplicate (lit "lamp"))] |}).
Proof.
  split.
  - reflexivity.
  - apply (TrackerFacts.add_product_duplicate World
             (serve (Some five_dollar_page)) now lower (start two_lamps)).
    reflexivity.
Defined.

Lemma add_product_new_witness :
  mem (lit "pen") (products (start two_lamps)) = false /\
  exists (t' : tracker World) (trace : list event),
    add_product (serve (Some five_dollar_page)) now lower
                (lit "https://shop.example/pen") (lit "pen")
                (start two_lamps) = (Ok true, t') /\
    log t' = trace /\
    requests trace = [lit "https://shop.example/pen"] /\
    products t' =
      two_lamps ++
      [(lit "pen",
        {| name := lit "pen"; url := lit "https://shop.example/pen";
           prices := [{| date := lit "2024-01-01T00:00:00";
                         price := PyFloat.of_Z 5 |}] |})] /\
    saves trace = [products t'] /\
    exists before, trace = before ++ [Save (products t')].
Proof.
  split.
  - reflexivity.
  - exact (TrackerFacts.add_product_new World
             (serve (Some five_dollar_page)) now lower (start two_lamps)
             (lit "https://shop.example/pen") (lit "pen") eq_refl).
Defined.

Lemma check_all_empty_witness :
  products (start []) = [] /\
  check_all (serve (Some five_dollar_page)) now lower (start []) =
  (Ok 0, {| products := []; world := 0; log := [Print MsgNothingTracked] |}).
Proof.
  split.
  - reflexivity.
  - exact (proj1 (TrackerFacts.check_all_empty World
                    (serve (Some five_dollar_page)) now lower)
                 (start []) eq_refl).
Defined.

Lemma two_lamps_ok : store_ok two_lamps.
Proof. repeat constructor. Qed.

Lemma stored_prices_nonneg_witness :
  store_ok (products (start two_lamps)) /\
  store_ok
    (products
       (snd (check_all (serve (Some huge_price_page)) now lower
                       (start two_lamps)))).
Proof.
  split.
  - exact two_lamps_ok.
  - apply (proj1 (proj2 (proj2
             (InvariantFacts.stored_prices_nonneg World
                (serve (Some huge_price_page)) now lower volatility)))).
    exact two_lamps_ok.
Defined.

(** C9 as stated fails: a text of 400 nines holds the price plus
    infinity, which is not finite; adding a product whose page shows
    that text stores it, from an empty store, which satisfies the stated
    invariant, into one that does not. *)
Lemma extraction_can_be_infinite :
  _extract_price_from_text (repeat 57%N 400) = Some PyFloat.pinf /\
  PyFloat.is_finite PyFloat.pinf = false /\
  store_finite (products (start [])) /\
  ~ store_finite
      (products
         (snd (add_product (serve (Some huge_price_page)) now lower
                           (lit "https://shop.example/item") (lit "yacht")
                           (start [])))).
Proof.
  split; [vm_compute; reflexivity|].
  split; [reflexivity|].
  split; [constructor|].
  intros H.
  assert (E : products
                (snd (add_product (serve (Some huge_price_page)) now lower
                        (lit "https://shop.example/item") (lit "yacht")
                        (start []))) =
              [(lit "yacht",
                {| name := lit "yacht";
                   url := lit "https://shop.example/item";
                   prices := [{| date := lit "2024-01-01T00:00:00";
                                 price := PyFloat.pinf |}] |})])
    by (vm_compute; reflexivity).
  rewrite E in H. inversion H as [|? ? Hp _]; subst. cbn in Hp.
  inversion Hp as [|? ? [Hfin _] _]; subst. discriminate.
Qed.

End Runs.

(** ** More on extraction: which texts hold a price, and which number *)

Module ExtractionExtras.
Import Text Extract Spec TextFacts.

Lemma span_digits_spec (s : pystr) :
  forall ds r : pystr,
    span_digits s = (ds, r) ->
    s = ds ++ r
    /\ forallb is_digit ds = true
    /\ match r with c :: _ => is_digit c = false | [] => True end.
Proof.
  induction s as [|c s IH]; intros ds r H; simpl in H.
  - injection H as <- <-. auto.
  - destruct (is_digit c) eqn:Hc.
    + destruct (span_digits s) as [ds' r'].
      injection H as <- <-.
      destruct (IH ds' r' eq_refl) as [-> [Hds Hr]].
      simpl. rewrite Hc. auto.
    + injection H as <- <-. simpl. auto.
Qed.

Lemma match_here_shape (s m : pystr) :
  match_here s = Some m -> match_shape m.
Proof.
  unfold match_here.
  destruct (span_digits s) as [ds r] eqn:E.
  destruct (span_digits_spec s ds r E) as [_ [Hds Hr]].
  destruct ds as [|d ds]; [discriminate|].
  destruct r as [|c r'].
  - simpl. intros H. injection H as <-.
    exists (d :: ds), []. rewrite app_nil_r.
    repeat split; [discriminate|exact Hds|now left].
  - unfold opt_dot. destruct (N.eqb c dot) eqn:Hc.
    + apply N.eqb_eq in Hc. subst c.
      destruct (span_digits r') as [fs r''] eqn:E'.
      destruct (span_digits_spec r' fs r'' E') as [_ [Hfs _]].
      intros H. injection H as <-.
      exists (d :: ds), fs.
      repeat split; [discriminate|exact Hds|exact Hfs|now right].
    + simpl. rewrite Hr. intros H. injection H as <-.
      exists (d :: ds), []. rewrite app_nil_r.
      repeat split; [discriminate|exact Hds|now left].
Qed.

Lemma re_search_shape (s m : pystr) : re_search s = Some m -> match_shape m.
Proof.
  induction s as [|c s IH]; rewrite re_search_unfold.
  - destruct (match_here []) as [m'|] eqn:E; [|discriminate].
    intros H. injection H as <-. exact (match_here_shape _ _ E).
  - destruct (match_here (c :: s)) as [m'|] eqn:E.
    + intros H. injection H as <-. exact (match_here_shape _ _ E).
    + exact IH.
Qed.

(** [float] accepts whatever the pattern matches: the handler of
    [ValueError] in the extractor is never entered. *)
Lemma py_float_shape (m : pystr) :
  match_shape m -> exists f, py_float m = Ok f.
Proof.
  intros [ds [fd [Hne [Hds [Hfd [-> | ->]]]]]].
  - destruct (search_digits_only ds Hne Hds) as [_ H]. eauto.
  - destruct (search_digits_point ds fd Hne Hds Hfd) as [_ H]. eauto.
Qed.

Lemma match_here_digit (c : char) (s : pystr) :
  is_digit c = true -> exists m, match_here (c :: s) = Some m.
Proof.
  intros Hc. unfold match_here. simpl span_digits. rewrite Hc.
  destruct (span_digits s) as [ds r].
  destruct (opt_dot r) as [pt r']. destruct (span_digits r') as [fs r''].
  eauto.
Qed.

Lemma re_search_digit (s : pystr) :
  existsb is_digit s = true -> exists m, re_search s = Some m.
Proof.
  induction s as [|c s IH]; [discriminate|].
  simpl existsb. rewrite re_search_unfold.
  destruct (is_digit c) eqn:Hc.
  - intros _. destruct (match_here_digit c s Hc) as [m ->]. eauto.
  - simpl. intros H. destruct (match_here (c :: s)); eauto.
Qed.

Lemma in_clean (x : char) (s : pystr) :
  In x (clean s) <-> In x s /\ kept x = true.
Proof.
  induction s as [|c s IH].
  - simpl. tauto.
  - rewrite clean_cons. destruct (kept c) eqn:Hc; simpl; rewrite IH.
    + split.
      * intros [->|[H1 H2]]; auto.
      * intros [[->|H] Hk]; auto.
    + split.
      * intros [H1 H2]. auto.
      * intros [[->|H] Hk]; [congruence|auto].
Qed.

Lemma in_lstrip (x : char) (s : pystr) :
  In x s -> is_space x = false -> In x (lstrip s).
Proof.
  induction s as [|c s IH]; simpl; [tauto|].
  intros [->|H] Hx.
  - rewrite Hx. now left.
  - destruct (is_space c); [now apply IH|now right].
Qed.

Lemma in_strip (x : char) (s : pystr) :
  In x s -> is_space x = false -> In x (strip s).
Proof.
  intros H Hx. unfold strip, rstrip. rewrite <- in_rev.
  apply in_lstrip; [|exact Hx]. rewrite <- in_rev.
  now apply in_lstrip.
Qed.

Lemma no_digits_false (s : pystr) :
  no_digits s = false -> exists d, In d s /\ is_digit d = true.
Proof.
  unfold no_digits. induction s as [|c s IH]; simpl; [discriminate|].
  destruct (is_digit c) eqn:Hc; simpl.
  - intros _. exists c. auto.
  - intros H. destruct (IH H) as [d [Hin Hd]]. exists d. auto.
Qed.

Lemma extract_none_no_digits_iff (text : pystr) :
  _extract_price_from_text text = None <-> no_digits text = true.
Proof.
  split; [|apply extract_no_digits].
  intros H. destruct (no_digits text) eqn:E; [reflexivity|exfalso].
  destruct (no_digits_false text E) as [d [Hin Hd]].
  assert (Hs : existsb is_digit (strip (clean text)) = true).
  { apply existsb_exists. exists d. split; [|exact Hd].
    apply in_strip; [|now apply digit_not_space].
    apply in_clean. split; [exact Hin|now apply kept_digit]. }
  destruct (re_search_digit _ Hs) as [m Hm].
  destruct (py_float_shape m (re_search_shape _ _ Hm)) as [f Hf].
  rewrite extract_clean, Hm, Hf in H. discriminate.
Qed.

(** X1.  A text holds a price exactly when it holds a digit: extraction
    returns nothing if and only if no character of the text is a
    decimal digit; a text such as "0 reviews" holds the price 0.0. *)
Theorem extract_none_iff_no_digits :
  forall text : pystr,
    _extract_price_from_text text = None <-> no_digits text = true.
Proof. exact extract_none_no_digits_iff. Qed.

Lemma clean_numeral_text (n : numeral) :
  well_formed n = true ->
  clean (numeral_text n) =
  filter is_digit (int_part n)
  ++ match frac_part n with Some fd => dot :: fd | None => [] end.
Proof.
  destruct n as [sym ip fr]. unfold well_formed, numeral_text.
  cbn [symbol int_part frac_part]. intros H.
  apply andb_true_iff in H. destruct H as [H Hfr].
  apply andb_true_iff in H. destruct H as [H Hex].
  apply andb_true_iff in H. destruct H as [Hsym Hip].
  assert (Hsymc : clean (match sym return list char with
                         | Some c => [c] | None => [] end) = []).
  { destruct sym as [c|]; [now apply clean_symbol|reflexivity]. }
  rewrite !clean_app, Hsymc, (clean_int_part _ Hip), app_nil_l.
  destruct fr as [fd|]; [|reflexivity].
  rewrite clean_cons. change (kept dot) with true. cbv iota.
  now rewrite (clean_digits _ Hfr).
Qed.

Lemma lstrip_app_nonspace (a b : pystr) (c : char) (b' : pystr) :
  b = c :: b' -> is_space c = false -> lstrip (a ++ b) = lstrip a ++ b.
Proof.
  intros -> Hc. induction a as [|x a IH]; simpl.
  - now rewrite Hc.
  - destruct (is_space x); [exact IH|reflexivity].
Qed.

Lemma rstrip_app_nonspace (a' b : pystr) (c : char) :
  is_space c = false -> rstrip ((a' ++ [c]) ++ b) = (a' ++ [c]) ++ rstrip b.
Proof.
  intros Hc. unfold rstrip. rewrite rev_app_distr.
  rewrite (lstrip_app_nonspace (rev b) (rev (a' ++ [c])) c (rev a'));
    [|now rewrite rev_app_distr|exact Hc].
  now rewrite rev_app_distr, rev_involutive.
Qed.

Lemma lstrip_suffix (s : pystr) : exists pre, s = pre ++ lstrip s.
Proof.
  induction s as [|c s [pre IH]]; simpl.
  - now exists [].
  - destruct (is_space c).
    + exists (c :: pre). simpl. now rewrite <- IH.
    + now exists [].
Qed.

(** Stripping on the right leaves a prefix. *)
Lemma rstrip_prefix (s : pystr) : exists suf, s = rstrip s ++ suf.
Proof.
  unfold rstrip. destruct (lstrip_suffix (rev s)) as [pre H].
  exists (rev pre). rewrite <- rev_app_distr, <- H. now rewrite rev_involutive.
Qed.

Lemma rstrip_head (c : char) (q : pystr) :
  rstrip (c :: q) = [] \/ exists r, rstrip (c :: q) = c :: r.
Proof.
  destruct (rstrip_prefix (c :: q)) as [suf H].
  destruct (rstrip (c :: q)) as [|x r]; [now left|right].
  simpl in H. injection H as <- _. now exists r.
Qed.

Lemma re_search_skip (pre s : pystr) :
  no_digits pre = true -> re_search (pre ++ s) = re_search s.
Proof.
  unfold no_digits. induction pre as [|p pre IH]; [reflexivity|].
  simpl forallb. intros H. apply andb_true_iff in H. destruct H as [Hp H].
  apply negb_true_iff in Hp.
  simpl app. rewrite re_search_unfold. unfold match_here.
  simpl span_digits. rewrite Hp. now apply IH.
Qed.

Lemma stops_not_digit (rest : pystr) :
  stops rest ->
  match rest with [] => true | c :: _ => negb (is_digit c) end = true.
Proof. destruct rest; [reflexivity|]. intros [H _]. now rewrite H. Qed.

Lemma span_digits_stops (rest : pystr) :
  stops rest -> span_digits rest = ([], rest).
Proof.
  destruct rest as [|c rest]; [reflexivity|]. intros [H _].
  simpl. now rewrite H.
Qed.

Lemma opt_dot_stops (rest : pystr) : stops rest -> opt_dot rest = ([], rest).
Proof.
  destruct rest as [|c rest]; [reflexivity|]. intros [_ H].
  unfold opt_dot. now rewrite H.
Qed.

Lemma search_digits_rest (ds rest : pystr) :
  ds <> [] -> forallb is_digit ds = true -> stops rest ->
  re_search (ds ++ rest) = Some ds.
Proof.
  intros Hne Hds Hrest. rewrite re_search_unfold. unfold match_here.
  rewrite (span_digits_all ds rest Hds (stops_not_digit rest Hrest)).
  destruct ds as [|d ds']; [contradiction|].
  rewrite (opt_dot_stops rest Hrest), (span_digits_stops rest Hrest).
  now rewrite !app_nil_r.
Qed.

Lemma search_digits_point_rest (ds fd rest : pystr) :
  ds <> [] -> forallb is_digit ds = true -> forallb is_digit fd = true ->
  stops rest ->
  re_search (ds ++ (dot :: fd) ++ rest) = Some (ds ++ dot :: fd).
Proof.
  intros Hne Hds Hfd Hrest. rewrite re_search_unfold. unfold match_here.
  rewrite (span_digits_all ds ((dot :: fd) ++ rest) Hds eq_refl).
  destruct ds as [|d ds']; [contradiction|].
  change ((dot :: fd) ++ rest) with (dot :: (fd ++ rest)).
  rewrite opt_dot_point.
  rewrite (span_digits_all fd rest Hfd (stops_not_digit rest Hrest)).
  reflexivity.
Qed.

Lemma no_digits_incl (a b : pystr) :
  incl a b -> no_digits b = true -> no_digits a = true.
Proof.
  unfold no_digits. rewrite !forallb_forall. intros H Hb x Hx. auto.
Qed.

(** Blanks are stripped around a text, not inside it. *)
Lemma strip_middle (P N Q : pystr) :
  N <> [] ->
  (forall x, In x N -> is_space x = false) ->
  strip (P ++ N ++ Q) = lstrip P ++ N ++ rstrip Q.
Proof.
  intros Hne HN. unfold strip.
  destruct (exists_last Hne) as [l' [a E]].
  assert (Ha : is_space a = false).
  { apply HN. rewrite E. apply in_or_app. right. now left. }
  destruct N as [|d N']; [contradiction|].
  rewrite (lstrip_app_nonspace P ((d :: N') ++ Q) d (N' ++ Q) eq_refl).
  2:{ apply HN. now left. }
  rewrite app_assoc, E, app_assoc.
  rewrite rstrip_app_nonspace by exact Ha.
  now rewrite <- !app_assoc.
Qed.

(** X2.  The price of a text is its first number.  A numeral (with or
    without a currency symbol and thousands separators) that comes
    after a text with no digit, and that is followed by nothing or by a
    character that is neither a digit, nor the point, nor a character
    the extractor removes, is extracted with its own value: what
    follows it is ignored, other numbers included. *)
Theorem extract_first_number :
  forall (pre post : pystr) (n : numeral),
    no_digits pre = true ->
    well_formed n = true ->
    ends_numeral post = true ->
    _extract_price_from_text (pre ++ numeral_text n ++ post)
    = Some (numeral_value n).
Proof.
  intros pre post n Hpre Hn Hpost.
  rewrite extract_clean, !clean_app, (clean_numeral_text n Hn).
  unfold numeral_value.
  assert (Hwf := Hn). unfold well_formed in Hwf.
  apply andb_true_iff in Hwf. destruct Hwf as [Hwf Hfr].
  apply andb_true_iff in Hwf. destruct Hwf as [Hwf Hex].
  set (ds := filter is_digit (int_part n)).
  assert (Hds : forallb is_digit ds = true) by apply forallb_filter_digits.
  assert (Hne : ds <> []) by now apply existsb_filter_nonempty.
  set (fr := match frac_part n with Some fd => dot :: fd | None => [] end).
  (* the numeral, cleaned: no blank in it, a digit first *)
  assert (HN : forall x, In x (ds ++ fr) -> is_space x = false).
  { intros x Hx. apply in_app_or in Hx. destruct Hx as [Hx|Hx].
    - apply digit_not_space. rewrite forallb_forall in Hds. now apply Hds.
    - subst fr. destruct (frac_part n) as [fd|]; [|contradiction].
      destruct Hx as [<-|Hx]; [reflexivity|].
      apply digit_not_space. rewrite forallb_forall in Hfr. now apply Hfr. }
  assert (HNne : ds ++ fr <> []).
  { destruct ds; [contradiction|discriminate]. }
  (* what follows it, cleaned and stripped, still stops the match *)
  assert (HQ : stops (rstrip (clean post))).
  { destruct post as [|c post']; [exact I|].
    simpl in Hpost. unfold terminator in Hpost.
    apply andb_true_iff in Hpost. destruct Hpost as [Hpost Hk].
    apply andb_true_iff in Hpost. destruct Hpost as [Hd Hdot].
    apply negb_true_iff in Hd. apply negb_true_iff in Hdot.
    rewrite clean_cons, Hk.
    destruct (rstrip_head c (clean post')) as [->|[r ->]]; [exact I|].
    split; assumption. }
  (* the strip *)
  assert (Hstrip := strip_middle (clean pre) (ds ++ fr) (clean post) HNne HN).
  rewrite <- app_assoc in Hstrip. rewrite <- !app_assoc.
  rewrite <- app_assoc in Hstrip.
  subst fr. rewrite Hstrip.
  rewrite re_search_skip.
  2:{ apply (no_digits_incl _ (clean pre)); [apply lstrip_incl|].
      unfold clean, remove_char. now repeat apply no_digits_filter. }
  destruct (frac_part n) as [fd|].
  - rewrite (search_digits_point_rest ds fd _ Hne Hds Hfr HQ).
    destruct (search_digits_point ds fd Hne Hds Hfr) as [_ ->].
    reflexivity.
  - rewrite app_nil_l, (search_digits_rest ds _ Hne Hds HQ).
    destruct (search_digits_only ds Hne Hds) as [_ ->].
    now rewrite app_nil_r.
Qed.

Lemma extract_first_number_witness :
  let n := {| symbol := Some dollar;
              int_part := lit "1,299";
              frac_part := Some (lit "99") |} in
  no_digits (lit "Price: ") = true /\
  well_formed n = true /\
  ends_numeral (lit " each, was $1,499.00") = true /\
  _extract_price_from_text
    (lit "Price: " ++ numeral_text n ++ lit " each, was $1,499.00")
  = Some (numeral_value n).
Proof.
  split; [reflexivity|].
  split; [reflexivity|].
  split; [reflexivity|].
  apply extract_first_number; reflexivity.
Defined.

Lemma no_digits_strip_iff (t : pystr) :
  no_digits (strip t) = true <-> no_digits t = true.
Proof.
  split; [|apply no_digits_strip].
  intros H. destruct (no_digits t) eqn:E; [reflexivity|exfalso].
  destruct (no_digits_false t E) as [d [Hin Hd]].
  unfold no_digits in H. rewrite forallb_forall in H.
  specialize (H d (in_strip d t Hin (digit_not_space d Hd))).
  rewrite Hd in H. discriminate.
Qed.

Lemma first_price_none_iff (texts : list pystr) :
  first_price texts = None
  <-> forall t, In t texts -> no_digits t = true.
Proof.
  induction texts as [|t texts IH]; simpl.
  - split; [intros _ t []|reflexivity].
  - destruct (_extract_price_from_text (strip t)) as [p|] eqn:E.
    + split; [discriminate|]. intros H. exfalso.
      assert (Hn : _extract_price_from_text (strip t) = None).
      { apply (proj2 (extract_none_no_digits_iff _)).
        apply (proj2 (no_digits_strip_iff _)). apply H. now left. }
      congruence.
    + apply (proj1 (extract_none_no_digits_iff _)) in E.
      apply (proj1 (no_digits_strip_iff _)) in E.
      rewrite IH. split.
      * intros H t' [<-|Ht']; [exact E|now apply H].
      * intros H t' Ht'. apply H. now right.
Qed.

Lemma scrape_with_none_iff (sels : list selector) (soup : Soup) :
  scrape_with sels soup = None
  <-> forall sel t, In sel sels -> In t (soup sel) -> no_digits t = true.
Proof.
  induction sels as [|sel sels IH]; simpl.
  - split; [intros _ sel t []|reflexivity].
  - destruct (first_price (soup sel)) as [p|] eqn:E.
    + split; [discriminate|]. intros H. exfalso.
      assert (Hn : first_price (soup sel) = None).
      { apply first_price_none_iff. intros t Ht. apply (H sel t); auto. }
      congruence.
    + rewrite IH. split.
      * intros H sel' t [<-|Hs] Ht; [|eauto].
        now apply (proj1 (first_price_none_iff _) E).
      * intros H sel' t Hs Ht. apply (H sel' t); auto.
Qed.

(** X3.  A scraper finds no price exactly when no element its rules
    select has a digit in its text; this holds for both rule sets.  A
    page on which any selected element shows a digit always yields a
    price. *)
Theorem scrape_none_iff_no_digits :
  forall soup : Soup,
    (_scrape_amazon soup = None
     <-> forall sel t, In sel amazon_selectors -> In t (soup sel) ->
                       no_digits t = true)
    /\ (_scrape_generic soup = None
        <-> forall sel t, In sel generic_selectors -> In t (soup sel) ->
                          no_digits t = true).
Proof.
  intros soup. split; apply scrape_with_none_iff.
Qed.

End ExtractionExtras.

(** ** More on the trend *)

Module TrendExtras.
Import Text Tracker Spec TrendFacts Examples.

Lemma SFcompare_Lt_Gt (a b : float) :
  SFcompare a b = Some Lt -> SFcompare b a = Some Gt.
Proof.
  destruct a as [sa|sa| |sa ma ea], b as [sb|sb| |sb mb eb];
    try (simpl; discriminate);
    try (destruct sa; simpl; (discriminate || reflexivity));
    try (destruct sb; simpl; (discriminate || reflexivity));
    try (destruct sa, sb; simpl; (discriminate || reflexivity)).
  assert (HZ := Z.compare_antisym ea eb).
  assert (HP := Pos.compare_cont_antisym ma mb Eq). simpl in HP.
  destruct sa, sb; simpl; try (discriminate || reflexivity);
    rewrite HZ, <- HP;
    destruct (Z.compare ea eb); simpl; try (discriminate || reflexivity);
    destruct (Pos.compare_cont Eq ma mb); simpl;
    (discriminate || reflexivity).
Qed.

(** No pair of prices both rises and falls. *)
Lemma ltb_gtb_exclusive (a b : float) :
  PyFloat.ltb a b = true -> PyFloat.gtb a b = false.
Proof.
  unfold PyFloat.ltb, PyFloat.gtb, SFltb.
  destruct (SFcompare a b) as [[]|] eqn:E; try discriminate.
  intros _. now rewrite (SFcompare_Lt_Gt a b E).
Qed.

Lemma count_adjacent_cons (r : float -> float -> bool) (a b : float)
      (rest : list float) :
  count_adjacent r (a :: b :: rest)
  = (if r a b then 1 else 0) + count_adjacent r (b :: rest).
Proof. reflexivity. Qed.

Lemma count_adjacent_exclusive (xs : list float) :
  count_adjacent PyFloat.ltb xs + count_adjacent PyFloat.gtb xs
  <= List.length xs - 1.
Proof.
  induction xs as [|a rest IH]; [simpl; lia|].
  destruct rest as [|b rest']; [simpl; lia|].
  rewrite !count_adjacent_cons.
  change (List.length (a :: b :: rest') - 1) with (S (List.length rest')).
  change (List.length (b :: rest') - 1) with (List.length rest' - 0) in IH.
  pose proof (ltb_gtb_exclusive a b) as Hx.
  destruct (PyFloat.ltb a b); [rewrite (Hx eq_refl)|];
    destruct (PyFloat.gtb a b); lia.
Qed.

Lemma last_n_window {A : Type} (xs : list A) :
  last_n (Nat.min 3 (List.length xs)) xs = last_n 3 xs.
Proof. unfold last_n. f_equal. lia. Qed.

Lemma last_n_length {A : Type} (xs : list A) :
  List.length (last_n 3 xs) <= 3.
Proof. unfold last_n. rewrite length_skipn. lia. Qed.

Lemma last_n_app {A : Type} (older recent : list A) :
  List.length recent = 3 -> last_n 3 (older ++ recent) = recent.
Proof.
  intros H. unfold last_n. rewrite length_app, H.
  replace (List.length older + 3 - 3) with (List.length older + 0) by lia.
  now rewrite skipn_app, Nat.add_0_r, skipn_all, Nat.sub_diag.
Qed.

(** X4.  The trend looks at the last three observations only: whatever
    came before them does not change it. *)
Theorem trend_last_three :
  forall older recent : list observation,
    List.length recent = 3 ->
    _calculate_trend (older ++ recent) = _calculate_trend recent.
Proof.
  intros older recent H. rewrite !calculate_trend_spec. unfold trend.
  rewrite !last_n_window, (last_n_app older recent H).
  assert (E : last_n 3 recent = recent).
  { unfold last_n. now rewrite H. }
  rewrite E, length_app, H.
  replace (Nat.ltb (List.length older + 3) 2) with false
    by (symmetry; apply Nat.ltb_ge; lia).
  reflexivity.
Qed.

Lemma trend_last_three_witness :
  List.length (observed [] [9; 11]%Z ++ observed [] [12]%Z) = 3 /\
  _calculate_trend
    (observed [] [100; 1]%Z ++ (observed [] [9; 11]%Z ++ observed [] [12]%Z))
  = _calculate_trend (observed [] [9; 11]%Z ++ observed [] [12]%Z).
Proof.
  split; [reflexivity|].
  apply trend_last_three. reflexivity.
Defined.

(** X5.  With a window of three at most, the trend is rising exactly
    when the price went up at least once and never down between the
    last three observations, and falling exactly when it went down at
    least once and never up; one rise and one fall is stable. *)
Theorem trend_rising_falling :
  forall observations : list observation,
    let window := map price (last_n 3 observations) in
    (_calculate_trend observations = "Rising"%string
     <-> 2 <= List.length observations
         /\ count_adjacent PyFloat.gtb window = 0
         /\ 1 <= count_adjacent PyFloat.ltb window)
    /\ (_calculate_trend observations = "Falling"%string
        <-> 2 <= List.length observations
            /\ count_adjacent PyFloat.ltb window = 0
            /\ 1 <= count_adjacent PyFloat.gtb window).
Proof.
  intros observations window.
  rewrite calculate_trend_spec. unfold trend.
  rewrite last_n_window. fold window.
  pose proof (count_adjacent_exclusive window) as Hex.
  assert (Hlen : List.length window <= 3).
  { subst window. rewrite length_map. apply last_n_length. }
  destruct (Nat.ltb (List.length observations) 2) eqn:E.
  - apply Nat.ltb_lt in E.
    split; (split; [discriminate|intros [H _]; lia]).
  - apply Nat.ltb_ge in E.
    set (inc := count_adjacent PyFloat.ltb window) in *.
    set (dec := count_adjacent PyFloat.gtb window) in *.
    destruct (Nat.ltb dec inc) eqn:E1; [apply Nat.ltb_lt in E1|
                                        apply Nat.ltb_ge in E1].
    + split; split; try discriminate; try (intros; lia).
      intros _. reflexivity.
    + destruct (Nat.ltb inc dec) eqn:E2; [apply Nat.ltb_lt in E2|
                                          apply Nat.ltb_ge in E2].
      * split; split; try discriminate; try (intros; lia).
        intros _. reflexivity.
      * split; split; try discriminate; intros; lia.
Qed.

End TrendExtras.

(** ** What the operations do to the store, the file and the network *)

Module EffectFacts.
Import Text Extract Tracker Spec StoreFacts CheckFacts.

Lemma grows_refl (st : store) : grows st st.
Proof.
  intros key pr H. exists pr. repeat split; try assumption.
  exists []. now rewrite app_nil_r.
Qed.

Lemma grows_trans (a b c : store) : grows a b -> grows b c -> grows a c.
Proof.
  intros Hab Hbc key pr H.
  destruct (Hab key pr H) as [pr1 [H1 [Hn1 [Hu1 [m1 Hp1]]]]].
  destruct (Hbc key pr1 H1) as [pr2 [H2 [Hn2 [Hu2 [m2 Hp2]]]]].
  exists pr2. repeat split; try congruence.
  exists (m1 ++ m2). now rewrite Hp2, Hp1, app_assoc.
Qed.

Lemma lookup_insert_other (key key' : pystr) (v : product) (st : store) :
  str_eqb key' key = false ->
  lookup key' (insert key v st) = lookup key' st.
Proof.
  intros Hne. induction st as [|[k w] st IH]; simpl.
  - now rewrite Hne.
  - destruct (str_eqb key k) eqn:E; simpl.
    + apply str_eqb_eq in E. subst k. now rewrite Hne.
    + now rewrite IH.
Qed.

(** Appending to the history of a product makes the store grow. *)
Lemma grows_insert (key : pystr) (pr : product) (more : list observation)
      (st : store) :
  lookup key st = Some pr ->
  grows st (insert key {| name := name pr; url := url pr;
                          prices := prices pr ++ more |} st).
Proof.
  intros H key' pr0 H0.
  destruct (str_eqb key' key) eqn:E.
  - apply str_eqb_eq in E. subst key'.
    rewrite H in H0. injection H0 as <-.
    eexists. split; [apply lookup_insert|].
    cbn [name url prices]. repeat split. now exists more.
  - rewrite (lookup_insert_other key key' _ st E).
    exists pr0. repeat split; try assumption.
    exists []. now rewrite app_nil_r.
Qed.

Lemma lookup_mem (key : pystr) (pr : product) (st : store) :
  lookup key st = Some pr -> mem key st = true.
Proof. unfold mem. now intros ->. Qed.

Lemma saves_prints (msgs : list message) : saves (map Print msgs) = [].
Proof. induction msgs as [|m msgs IH]; [reflexivity|exact IH]. Qed.

Lemma requests_prints (msgs : list message) : requests (map Print msgs) = [].
Proof. induction msgs as [|m msgs IH]; [reflexivity|exact IH]. Qed.

Section Env.

Variable World : Type.
Variable http_get : pystr -> World -> option Soup * World.
Variable now : World -> pystr * World.
Variable lower : pystr -> pystr.
Variable volatility : list float -> result float.

Lemma evolves_refl (t : tracker World) : evolves t t.
Proof.
  split; [reflexivity|]. split; [apply grows_refl|].
  exists []. now rewrite app_nil_r.
Qed.

Lemma evolves_trans (a b c : tracker World) :
  evolves a b -> evolves b c -> evolves a c.
Proof.
  intros [Hk1 [Hg1 [tr1 [Hl1 Hs1]]]] [Hk2 [Hg2 [tr2 [Hl2 Hs2]]]].
  split; [congruence|]. split; [exact (grows_trans _ _ _ Hg1 Hg2)|].
  exists (tr1 ++ tr2). split.
  - now rewrite Hl2, Hl1, app_assoc.
  - now rewrite TrackerFacts.saves_app, Hs1, Hs2.
Qed.

(** A change of the world and of the log alone, with no save in it. *)
Lemma evolves_effects (t : tracker World) (w : World) (trace : list event) :
  saves trace = [] ->
  evolves t {| products := products t; world := w; log := log t ++ trace |}.
Proof.
  intros H. split; [reflexivity|]. split; [apply grows_refl|].
  now exists trace.
Qed.

Lemma reports_evolves (t t' : tracker World) : reports t t' -> evolves t t'.
Proof.
  intros [Hp [Hw [msgs Hl]]]. split; [now rewrite Hp|].
  split; [rewrite Hp; apply grows_refl|].
  exists (map Print msgs). split; [exact Hl|apply saves_prints].
Qed.

Lemma reports_refl (t : tracker World) : reports t t.
Proof.
  repeat split. exists []. simpl. now rewrite app_nil_r.
Qed.

Lemma reports_trans (a b c : tracker World) :
  reports a b -> reports b c -> reports a c.
Proof.
  intros [Hp1 [Hw1 [m1 Hl1]]] [Hp2 [Hw2 [m2 Hl2]]].
  split; [congruence|]. split; [congruence|].
  exists (m1 ++ m2). now rewrite Hl2, Hl1, map_app, app_assoc.
Qed.

Lemma reports_print (m : message) (t : tracker World) :
  reports t (snd (print m t)).
Proof. repeat split. now exists [m]. Qed.

Lemma reports_lift {A : Type} (r : result A) (t : tracker World) :
  reports t (snd (lift r t)).
Proof. apply reports_refl. Qed.

Lemma reports_bind {A B : Type} (c : M World A) (k : A -> M World B) :
  (forall t, reports t (snd (c t))) ->
  (forall a t, reports t (snd (k a t))) ->
  forall t, reports t (snd (bind c k t)).
Proof.
  intros Hc Hk t. unfold bind. specialize (Hc t).
  destruct (c t) as [[a|e] t1]; cbn [snd] in *.
  - exact (reports_trans _ _ _ Hc (Hk a t1)).
  - exact Hc.
Qed.

Lemma evolves_bind {A B : Type} (c : M World A) (k : A -> M World B) :
  (forall t, evolves t (snd (c t))) ->
  (forall a t, evolves t (snd (k a t))) ->
  forall t, evolves t (snd (bind c k t)).
Proof.
  intros Hc Hk t. unfold bind. specialize (Hc t).
  destruct (c t) as [[a|e] t1]; cbn [snd] in *.
  - exact (evolves_trans _ _ _ Hc (Hk a t1)).
  - exact Hc.
Qed.

Lemma evolves_print (m : message) (t : tracker World) :
  evolves t (snd (print m t)).
Proof. apply reports_evolves, reports_print. Qed.

Lemma evolves_get_product (key : pystr) (t : tracker World) :
  evolves t (snd (get_product key t)).
Proof.
  unfold get_product. destruct (lookup key (products t)); apply evolves_refl.
Qed.

Lemma evolves_scrape_price (u : pystr) (t : tracker World) :
  evolves t (snd (_scrape_price http_get lower u t)).
Proof.
  rewrite TrackerFacts.scrape_price_run. cbn [snd].
  apply evolves_effects, TrackerFacts.saves_scrape_log.
Qed.

Lemma evolves_add_price_entry (key : pystr) (p : float) (t : tracker World) :
  evolves t (snd (_add_price_entry now key p t)).
Proof.
  unfold _add_price_entry. destruct (now (world t)) as [ts w].
  cbn [products world log].
  destruct (lookup key (products t)) as [pr|] eqn:E; cbn [snd].
  - split; [|split].
    + cbn [products]. apply keys_insert. exact (lookup_mem _ _ _ E).
    + cbn [products]. now apply grows_insert.
    + now exists [Clock].
  - now apply evolves_effects.
Qed.

Lemma reports_report_price (v : float) (pr : product) (t : tracker World) :
  reports t (snd (report_price v pr t)).
Proof.
  unfold report_price.
  destruct (Nat.ltb 1 (List.length (prices pr))); [|apply reports_print].
  apply reports_bind; [intros; apply reports_lift|]. intros old t1.
  apply reports_bind; [intros; apply reports_lift|]. intros q t2.
  destruct (PyFloat.gtb _ _); [apply reports_print|].
  destruct (PyFloat.ltb _ _); apply reports_print.
Qed.

(** The loop of [check_all], however it ends: the names stay, the
    histories only grow, nothing is saved. *)
Lemma evolves_check_loop (todo : list pystr) :
  forall (updated : nat) (t : tracker World),
    evolves t (snd (check_loop http_get now lower todo updated t)).
Proof.
  induction todo as [|key rest IH]; intros updated; cbn [check_loop].
  { intros t. apply evolves_refl. }
  apply evolves_bind; [apply evolves_print|]. intros _.
  apply evolves_bind; [apply evolves_get_product|]. intros pr.
  apply evolves_bind; [apply evolves_scrape_price|]. intros [v|].
  - apply evolves_bind; [apply evolves_add_price_entry|]. intros _.
    apply evolves_bind; [apply evolves_get_product|]. intros pr'.
    apply evolves_bind; [|intros _; apply IH].
    intros t. apply reports_evolves, reports_report_price.
  - apply evolves_bind; [apply evolves_print|]. intros _. apply IH.
Qed.

(** The run of [check_all] on a store with products: the opening line,
    the loop, and after a loop that returns the save and the closing
    report. *)
Lemma check_all_shape (t : tracker World) (kv : pystr * product)
      (st : store) :
  products t = kv :: st ->
  check_all http_get now lower t =
  match check_loop http_get now lower (keys (kv :: st)) 0
          {| products := products t; world := world t;
             log := log t ++
                    [Print (MsgCheckingAll (List.length (kv :: st)))] |}
  with
  | (Ok updated, t1) =>
      (Ok updated,
       {| products := products t1; world := world t1;
          log := log t1 ++
                 [Save (products t1);
                  Print (MsgUpdated updated (List.length (products t1)))] |})
  | (Raise e, t1) => (Raise e, t1)
  end.
Proof.
  intros E. destruct t as [ps w l]. cbn [products world log] in *.
  subst ps. unfold check_all. unfold bind at 1. unfold get_products at 1.
  cbv beta iota. cbn [products].
  unfold bind at 1. unfold print at 1, emit at 1. cbv beta iota.
  cbn [products world log]. unfold bind at 1.
  destruct (check_loop _ _ _ _ _ _) as [[updated|e] t1]; [|reflexivity].
  unfold _save_data, bind, get_products, print, emit, ret.
  cbn [products world log]. now rewrite <- app_assoc.
Qed.

(** X6.  However [check_all] ends, with a count or with an exception,
    the store it leaves has the names of the store it found, in the same
    order, and every product in it has the name and the URL it had and
    a history that begins with the history it had: nothing is removed,
    renamed or rewritten, observations are only appended. *)
Theorem check_all_history_grows (t : tracker World) :
  keys (products (snd (check_all http_get now lower t))) = keys (products t)
  /\ grows (products t) (products (snd (check_all http_get now lower t))).
Proof.
  destruct (products t) as [|kv st] eqn:E.
  - unfold check_all, bind, get_products. rewrite E. cbn.
    rewrite E. split; [reflexivity|apply grows_refl].
  - rewrite (check_all_shape t kv st E).
    pose proof (evolves_check_loop (keys (kv :: st)) 0
                  {| products := products t; world := world t;
                     log := log t ++
                       [Print (MsgCheckingAll (List.length (kv :: st)))] |})
      as [Hk [Hg _]].
    destruct (check_loop _ _ _ _ _ _) as [[updated|e] t1];
      cbn [snd products] in *; rewrite <- E; split; assumption.
Qed.

(** X7.  [check_all] writes the data file at most once, after the last
    product: a run that ends in an exception has saved nothing (what it
    appended in memory is not on disk), a run on an empty store has
    saved nothing, and a run that returns on a store with products has
    saved once, the store it leaves. *)
Theorem check_all_saves_at_end (t : tracker World) :
  exists trace : list event,
    log (snd (check_all http_get now lower t)) = log t ++ trace
    /\ saves trace =
       match fst (check_all http_get now lower t), products t with
       | Ok _, _ :: _ => [products (snd (check_all http_get now lower t))]
       | _, _ => []
       end.
Proof.
  destruct (products t) as [|kv st] eqn:E.
  - unfold check_all, bind, get_products. rewrite E. cbn.
    exists [Print MsgNothingTracked]. split; reflexivity.
  - rewrite (check_all_shape t kv st E).
    pose proof (evolves_check_loop (keys (kv :: st)) 0
                  {| products := products t; world := world t;
                     log := log t ++
                       [Print (MsgCheckingAll (List.length (kv :: st)))] |})
      as [_ [_ [trace [Hl Hs]]]].
    destruct (check_loop _ _ _ _ _ _) as [[updated|e] t1];
      cbn [fst snd products log] in *.
    + exists ((Print (MsgCheckingAll (List.length (kv :: st))) :: trace)
              ++ [Save (products t1);
                  Print (MsgUpdated updated (List.length (products t1)))]).
      split.
      * rewrite Hl. repeat rewrite <- app_assoc. reflexivity.
      * rewrite TrackerFacts.saves_app. cbn [saves flat_map app].
        fold (saves trace). rewrite Hs. reflexivity.
    + exists (Print (MsgCheckingAll (List.length (kv :: st))) :: trace).
      split.
      * rewrite Hl. rewrite <- app_assoc. reflexivity.
      * cbn [saves flat_map app]. fold (saves trace). exact Hs.
Qed.

Lemma reports_alerts (alerts : list alert) (t : tracker World) :
  reports t
    (snd (fold_right
            (fun a k =>
               bind (print (MsgAlert (alert_name a) (previous a) (current a)
                                     (drop a)))
                    (fun _ => k))
            (ret tt) alerts t)).
Proof.
  revert t. induction alerts as [|a alerts IH]; intros t; cbn [fold_right].
  - apply reports_refl.
  - apply reports_bind; [intros; apply reports_print|]. intros _. exact IH.
Qed.

Lemma reports_check_alerts (drop_threshold : float) (t : tracker World) :
  reports t (snd (check_alerts drop_threshold t)).
Proof.
  unfold check_alerts.
  apply reports_bind; [intros; apply reports_refl|]. intros [|kv st].
  { intros; apply reports_print. }
  apply reports_bind; [intros; apply reports_print|]. intros _.
  apply reports_bind; [intros; apply reports_lift|]. intros [|a alerts].
  { intros; apply reports_print. }
  intros t1. apply reports_alerts.
Qed.

Lemma reports_show_product_stats (key : pystr) (p : product)
      (t : tracker World) :
  reports t (snd (_show_product_stats volatility key p t)).
Proof.
  unfold _show_product_stats. revert t.
  apply reports_bind; [intros; apply reports_print|]. intros _.
  destruct (map price (prices p)) as [|first_price others].
  { intros; apply reports_print. }
  apply reports_bind.
  { destruct (PyFloat.neb _ _); [|intros; apply reports_refl].
    apply reports_bind; [intros; apply reports_lift|].
    intros; apply reports_refl. }
  intros total_change_pct.
  apply reports_bind.
  { destruct (Nat.ltb _ _); [intros; apply reports_lift|].
    intros; apply reports_refl. }
  intros volatility_pct.
  apply reports_bind; [intros; apply reports_print|]. intros _.
  apply reports_bind; [intros; apply reports_print|]. intros _.
  apply reports_bind; [intros; apply reports_lift|]. intros q.
  apply reports_bind; [intros; apply reports_print|]. intros _.
  intros; apply reports_print.
Qed.

(** X8.  [check_alerts] and [_show_product_stats] only read and print,
    also when they end in an exception: the store and the world are as
    they were found (no request, no clock reading), and what is added
    to the log are printed lines, so nothing is saved. *)
Theorem alerts_and_stats_read_only (drop_threshold : float) (key : pystr)
        (p : product) (t : tracker World) :
  reports t (snd (check_alerts drop_threshold t))
  /\ reports t (snd (_show_product_stats volatility key p t)).
Proof.
  split; [apply reports_check_alerts|apply reports_show_product_stats].
Qed.

(** X9.  [_add_price_entry] reads the clock first.  Under a name the
    store does not hold it then raises [KeyError] and the store is as it
    was; under a name the store holds it returns, the product of that
    name has one observation more at the end of its history (the price
    given, at the time read), the names are the same and every other
    product is as it was. *)
Theorem add_price_entry_appends (key : pystr) (p : float)
        (t : tracker World) :
  world (snd (_add_price_entry now key p t)) = snd (now (world t))
  /\ log (snd (_add_price_entry now key p t)) = log t ++ [Clock]
  /\ match lookup key (products t) with
     | None =>
         fst (_add_price_entry now key p t) = Raise KeyError
         /\ products (snd (_add_price_entry now key p t)) = products t
     | Some pr =>
         fst (_add_price_entry now key p t) = Ok tt
         /\ lookup key (products (snd (_add_price_entry now key p t)))
            = Some {| name := name pr; url := url pr;
                      prices := prices pr ++
                                [{| date := fst (now (world t));
                                    price := p |}] |}
         /\ keys (products (snd (_add_price_entry now key p t)))
            = keys (products t)
         /\ forall other : pystr,
              other <> key ->
              lookup other (products (snd (_add_price_entry now key p t)))
              = lookup other (products t)
     end.
Proof.
  unfold _add_price_entry. destruct (now (world t)) as [ts w].
  cbn [products world log fst snd].
  destruct (lookup key (products t)) as [pr|] eqn:E;
    cbn [fst snd products world log].
  - split; [reflexivity|]. split; [reflexivity|]. split; [reflexivity|].
    split; [apply lookup_insert|].
    split; [apply keys_insert; exact (lookup_mem _ _ _ E)|].
    intros other Hne. apply lookup_insert_other.
    now apply str_eqb_neq.
  - repeat split.
Qed.

Lemma lookup_app_new (key : pystr) (v : product) (st : store) :
  lookup key (st ++ [(key, v)]) = Some v \/ mem key st = true.
Proof.
  unfold mem. induction st as [|[k w] st IH]; simpl.
  - left. now rewrite str_eqb_refl.
  - destruct (str_eqb key k); [now right|exact IH].
Qed.

Lemma lookup_app_old (key : pystr) (pr : product) (st more : store) :
  lookup key st = Some pr -> lookup key (st ++ more) = Some pr.
Proof.
  induction st as [|[k w] st IH]; simpl; [discriminate|].
  destruct (str_eqb key k); [trivial|exact IH].
Qed.

Lemma add_product_refused (u key : pystr) (t : tracker World) :
  mem key (products t) = true ->
  add_product http_get now lower u key t =
  (Ok false,
   {| products := products t; world := world t;
      log := log t ++ [Print (MsgDuplicate key)] |}).
Proof.
  intros H. unfold add_product, bind, get_products. rewrite H. reflexivity.
Qed.

(** X10.  [add_product] leaves the products it finds as they are: a
    product that is in the store before the call is in the store after
    it, with the same URL and the same history, whether the call adds
    or refuses. *)
Theorem add_product_keeps_products (u key other : pystr) (pr : product)
        (t : tracker World) :
  lookup other (products t) = Some pr ->
  lookup other (products (snd (add_product http_get now lower u key t)))
  = Some pr.
Proof.
  intros H. destruct (mem key (products t)) eqn:E.
  - rewrite (add_product_refused u key t E). exact H.
  - pose proof (TrackerFacts.add_product_new_run
                  World http_get now lower t u key E) as Hrun.
    cbv zeta in Hrun. rewrite Hrun. cbn [snd products].
    now apply lookup_app_old.
Qed.

(** X11.  After [add_product] under a name, whatever it found, the name
    is taken: a second [add_product] under that name, with any URL, is
    refused.  It returns [False], makes no request, saves nothing and
    leaves the store and the world of the first call; it prints the
    duplicate report. *)
Theorem add_product_twice (u u' key : pystr) (t : tracker World) :
  add_product http_get now lower u' key
    (snd (add_product http_get now lower u key t))
  = (Ok false,
     {| products := products (snd (add_product http_get now lower u key t));
        world := world (snd (add_product http_get now lower u key t));
        log := log (snd (add_product http_get now lower u key t))
               ++ [Print (MsgDuplicate key)] |}).
Proof.
  apply add_product_refused.
  destruct (mem key (products t)) eqn:E.
  - rewrite (add_product_refused u key t E). exact E.
  - pose proof (TrackerFacts.add_product_new_run
                  World http_get now lower t u key E) as Hrun.
    cbv zeta in Hrun. rewrite Hrun. cbn [snd products].
    match goal with
    | |- mem key (_ ++ [(key, ?v)]) = true =>
        destruct (lookup_app_new key v (products t)) as [H|H]
    end.
    + unfold mem. now rewrite H.
    + congruence.
Qed.

(** The loop of [check_alerts] raises at the first product whose
    second-latest price is zero. *)
Lemma alerts_loop_raises (threshold : float) (items : store) :
  ~ Forall previous_nonzero items ->
  forall alerts : list alert,
    alerts_loop threshold items alerts = Raise ZeroDivisionError.
Proof.
  induction items as [|[key pr] items IH]; intros H alerts.
  - exfalso. apply H. constructor.
  - cbn [alerts_loop].
    destruct (AlertFacts.last_two (prices pr))
      as [[Hlen Hrev]|[r [a [b [El Erev]]]]].
    + apply Nat.ltb_lt in Hlen. rewrite Hlen. apply IH.
      intros HF. apply H. constructor; [|exact HF].
      unfold previous_nonzero. cbn [snd].
      destruct (rev (prices pr)) as [|? [|? ?]]; trivial; contradiction.
    + rewrite El. destruct (nth_last_snoc2 r a b) as [-> ->].
      assert (Hlen : Nat.ltb (List.length (r ++ [a; b])) 2 = false).
      { apply Nat.ltb_ge. rewrite length_app. cbn. lia. }
      rewrite Hlen. unfold drop_pct, PyFloat.div.
      destruct (PyFloat.eqb (price a) PyFloat.pzero) eqn:Ez; [reflexivity|].
      assert (Hrest : ~ Forall previous_nonzero items).
      { intros HF. apply H. constructor; [|exact HF].
        unfold previous_nonzero. cbn [snd]. rewrite Erev. exact Ez. }
      destruct (PyFloat.geb _ threshold); now apply IH.
Qed.

(** The lines of the alerts that [check_alerts] prints. *)
Lemma alerts_printed (alerts : list alert) (t : tracker World) :
  fold_right
    (fun a k =>
       bind (print (MsgAlert (alert_name a) (previous a) (current a)
                             (drop a)))
            (fun _ => k))
    (ret tt) alerts t
  = (Ok tt,
     {| products := products t; world := world t;
        log := log t ++
               map (fun a => Print (MsgAlert (alert_name a) (previous a)
                                             (current a) (drop a)))
                   alerts |}).
Proof.
  revert t. induction alerts as [|a alerts IH]; intros t; cbn [fold_right].
  - unfold ret. cbn [map]. rewrite app_nil_r. now destruct t.
  - unfold bind at 1. unfold print at 1, emit at 1. cbv beta iota.
    rewrite IH. cbn [products world log map].
    now rewrite <- app_assoc.
Qed.

Lemma check_alerts_returns (drop_threshold : float) (t : tracker World) :
  products t <> [] ->
  Forall previous_nonzero (products t) ->
  check_alerts drop_threshold t =
  (Ok tt,
   {| products := products t; world := world t;
      log := log t ++
             Print (MsgCheckingDrops drop_threshold)
             :: match flat_map (drop_alert drop_threshold) (products t) with
                | [] => [Print MsgNoDrops]
                | a :: alerts =>
                    map (fun a => Print (MsgAlert (alert_name a) (previous a)
                                                  (current a) (drop a)))
                        (a :: alerts)
                end |}).
Proof.
  intros Hne HF. unfold check_alerts.
  unfold bind at 1. unfold get_products at 1. cbv beta iota.
  destruct (products t) as [|kv st] eqn:E; [contradiction|].
  unfold bind at 1. unfold print at 1, emit at 1. cbv beta iota.
  unfold bind at 1. unfold lift at 1.
  rewrite (AlertFacts.alerts_loop_correct drop_threshold (kv :: st) HF []).
  cbn [app].
  destruct (flat_map (drop_alert drop_threshold) (kv :: st)) as [|a alerts].
  - unfold print, emit. cbn [products world log]. rewrite E.
    now rewrite <- app_assoc.
  - rewrite alerts_printed. cbn [products world log]. rewrite E.
    now rewrite <- app_assoc.
Qed.

(** X12.  On a store with products none of which has a second-latest
    price of zero, [check_alerts] returns; it prints its opening line
    and then one alert for each product with two observations or more
    whose drop from the second-latest to the latest price reaches the
    threshold, in the order of the store, or the line that says there is
    none. *)
Theorem check_alerts_reports_drops (drop_threshold : float)
        (t : tracker World) :
  products t <> [] ->
  Forall previous_nonzero (products t) ->
  check_alerts drop_threshold t =
  (Ok tt,
   {| products := products t; world := world t;
      log := log t ++
             Print (MsgCheckingDrops drop_threshold)
             :: match flat_map (drop_alert drop_threshold) (products t) with
                | [] => [Print MsgNoDrops]
                | a :: alerts =>
                    map (fun a => Print (MsgAlert (alert_name a) (previous a)
                                                  (current a) (drop a)))
                        (a :: alerts)
                end |}).
Proof. exact (check_alerts_returns drop_threshold t). Qed.

(** X13.  [check_alerts] ends in [ZeroDivisionError] exactly when some
    product of the store has two observations or more and a
    second-latest price of zero, wherever it stands in the store and
    whatever the threshold; otherwise it returns.  It ends in no other
    exception. *)
Theorem check_alerts_raises_iff (drop_threshold : float)
        (t : tracker World) :
  (fst (check_alerts drop_threshold t) = Ok tt
   <-> Forall previous_nonzero (products t))
  /\ (fst (check_alerts drop_threshold t) = Raise ZeroDivisionError
      <-> ~ Forall previous_nonzero (products t)).
Proof.
  assert (Hyes : Forall previous_nonzero (products t) ->
                 fst (check_alerts drop_threshold t) = Ok tt).
  { intros HF. destruct (products t) as [|kv st] eqn:E.
    - unfold check_alerts, bind, get_products. now rewrite E.
    - rewrite check_alerts_returns; [reflexivity| |now rewrite E].
      now rewrite E. }
  assert (Hno : ~ Forall previous_nonzero (products t) ->
                fst (check_alerts drop_threshold t) = Raise ZeroDivisionError).
  { intros HF. unfold check_alerts, bind, get_products.
    destruct (products t) as [|kv st] eqn:E.
    - exfalso. apply HF. constructor.
    - unfold print at 1, emit at 1. cbv beta iota. unfold lift.
      now rewrite (alerts_loop_raises drop_threshold (kv :: st) HF []). }
  split; split; try assumption.
  - intros Hok.
    assert (Hdec : forall kv : pystr * product,
               {previous_nonzero kv} + {~ previous_nonzero kv}).
    { intros kv. unfold previous_nonzero.
      destruct (rev (prices (snd kv))) as [|? [|b ?]]; auto.
      destruct (PyFloat.eqb (price b) PyFloat.pzero); [right|left];
        congruence. }
    destruct (Forall_dec previous_nonzero Hdec (products t)) as [HF|HF];
      [exact HF|].
    rewrite (Hno HF) in Hok. discriminate.
  - intros Hraise HF. rewrite (Hyes HF) in Hraise. discriminate.
Qed.

(** One turn of the loop of [check_all], at a product whose name does
    not occur before it in the store. *)
Lemma check_loop_step (key : pystr) (pr : product) (done rest : store)
      (n : nat) (t : tracker World) :
  products t = done ++ (key, pr) :: rest ->
  ~ In key (keys done) ->
  check_loop http_get now lower (key :: keys rest) n t =
  let w1 := snd (http_get (url pr) (world t)) in
  let l1 := log t ++ Print (MsgChecking key)
                     :: scrape_log http_get (url pr) (world t) in
  match scraped http_get lower (url pr) (world t) with
  | Some v =>
      let pr' := {| name := name pr; url := url pr;
                    prices := prices pr ++
                              [{| date := fst (now w1); price := v |}] |} in
      bind (report_price v pr')
           (fun _ => check_loop http_get now lower (keys rest) (S n))
           {| products := done ++ (key, pr') :: rest;
              world := snd (now w1);
              log := l1 ++ [Clock] |}
  | None =>
      check_loop http_get now lower (keys rest) n
        {| products := products t; world := w1;
           log := l1 ++ [Print MsgFailed] |}
  end.
Proof.
  intros Hp Hk. cbn [check_loop].
  unfold bind at 1. unfold print at 1, emit at 1. cbv beta iota.
  unfold bind at 1.
  rewrite (get_product_middle World key pr done rest); [|exact Hp|exact Hk].
  unfold bind at 1. rewrite TrackerFacts.scrape_price_run.
  cbn [products world log]. cbv zeta.
  destruct (scraped http_get lower (url pr) (world t)) as [v|].
  - unfold bind at 1.
    rewrite (add_price_entry_middle World now key pr v done rest);
      [|exact Hp|exact Hk].
    cbn [products world log].
    unfold bind at 1.
    erewrite (get_product_middle World key _ done rest);
      [|cbn [products]; reflexivity|exact Hk].
    repeat rewrite <- app_assoc. reflexivity.
  - unfold bind at 1. unfold print at 1, emit at 1. cbv beta iota.
    cbn [products world log]. repeat rewrite <- app_assoc. reflexivity.
Qed.

(** The report of a new price raises when the price before it is
    zero. *)
Lemma report_price_zero (v : float) (pr : product)
      (old_prices : list observation) (ob latest : observation)
      (r : list observation) (t : tracker World) :
  prices pr = old_prices ++ [ob] ->
  rev old_prices = latest :: r ->
  PyFloat.eqb (price latest) PyFloat.pzero = true ->
  report_price v pr t = (Raise ZeroDivisionError, t).
Proof.
  intros Hp E Hz. unfold report_price. rewrite Hp.
  apply (f_equal (@rev observation)) in E. rewrite rev_involutive in E.
  cbn in E. subst old_prices. rewrite <- app_assoc. cbn [app].
  assert (Hlen : Nat.ltb 1 (List.length (rev r ++ [latest; ob])) = true).
  { apply Nat.ltb_lt. rewrite length_app. cbn. lia. }
  rewrite Hlen. destruct (nth_last_snoc2 (rev r) latest ob) as [_ ->].
  unfold bind, lift, PyFloat.div. now rewrite Hz.
Qed.

Lemma not_in_done (key : pystr) (pr : product) (done rest : store) :
  NoDup (keys (done ++ (key, pr) :: rest)) -> ~ In key (keys done).
Proof.
  intros Hnd. unfold keys in *. rewrite map_app in Hnd. cbn in Hnd.
  apply NoDup_remove_2 in Hnd. intros Hin. apply Hnd.
  apply in_or_app. now left.
Qed.

(** The loop raises where a product whose extraction succeeds was last
    seen at the price zero. *)
Lemma check_loop_raises (todo : store) :
  forall (done : store) (t : tracker World) (n : nat),
    products t = done ++ todo ->
    NoDup (keys (done ++ todo)) ->
    ~ reportable todo (outcomes http_get now lower todo (world t)) ->
    fst (check_loop http_get now lower (keys todo) n t)
    = Raise ZeroDivisionError.
Proof.
  induction todo as [|[key pr] rest IH]; intros done t n Hp Hnd Hrep.
  { exfalso. apply Hrep. exact I. }
  pose proof (not_in_done key pr done rest Hnd) as Hk.
  change (keys ((key, pr) :: rest)) with (key :: keys rest).
  rewrite (check_loop_step key pr done rest n t Hp Hk). cbv zeta.
  cbn [outcomes reportable] in Hrep.
  destruct (scraped http_get lower (url pr) (world t)) as [v|].
  - unfold latest_nonzero in Hrep. cbn [snd] in Hrep.
    destruct (rev (prices pr)) as [|latest r] eqn:E.
    + unfold bind at 1.
      edestruct (report_price_run World v
                   {| name := name pr; url := url pr;
                      prices := prices pr ++
                        [{| date := fst (now (snd (http_get (url pr) (world t))));
                            price := v |}] |}
                   (prices pr)) as [m Hm];
        [reflexivity|rewrite E; exact I|].
      rewrite Hm. clear Hm. cbn [products world log].
      eapply (IH (done ++ [(key, _)])).
      * cbn [products]. rewrite <- app_assoc. reflexivity.
      * rewrite <- app_assoc. cbn [app]. unfold keys in *.
        rewrite map_app in *. exact Hnd.
      * cbn [world]. intros H. apply Hrep. split; [exact I|exact H].
    + destruct (PyFloat.eqb (price latest) PyFloat.pzero) eqn:Ez.
      * unfold bind at 1.
        erewrite (report_price_zero v _ (prices pr) _ latest r);
          [reflexivity|reflexivity|exact E|exact Ez].
      * unfold bind at 1.
        edestruct (report_price_run World v
                   {| name := name pr; url := url pr;
                      prices := prices pr ++
                        [{| date := fst (now (snd (http_get (url pr) (world t))));
                            price := v |}] |}
                   (prices pr)) as [m Hm];
          [reflexivity|rewrite E; exact Ez|].
        rewrite Hm. clear Hm. cbn [products world log].
        eapply (IH (done ++ [(key, _)])).
        -- cbn [products]. rewrite <- app_assoc. reflexivity.
        -- rewrite <- app_assoc. cbn [app]. unfold keys in *.
           rewrite map_app in *. exact Hnd.
        -- cbn [world]. intros H. apply Hrep. split; [reflexivity|exact H].
  - apply (IH (done ++ [(key, pr)])).
    + cbn [products]. rewrite Hp. now rewrite <- app_assoc.
    + now rewrite <- app_assoc.
    + cbn [world]. intros H. apply Hrep. split; [exact I|exact H].
Qed.

Lemma reportable_dec (items : store) :
  forall outs : list (option observation),
    reportable items outs \/ ~ reportable items outs.
Proof.
  induction items as [|kv items IH]; intros [|o outs]; cbn [reportable];
    try (left; exact I).
  destruct (IH outs) as [H|H]; [|right; tauto].
  destruct o as [ob|]; [|left; tauto].
  unfold latest_nonzero. destruct (rev (prices (snd kv))) as [|latest r];
    [left; tauto|].
  destruct (PyFloat.eqb (price latest) PyFloat.pzero);
    [right; intros [Hz _]; discriminate|left; tauto].
Qed.

Lemma check_all_returns (t : tracker World) :
  NoDup (keys (products t)) ->
  reportable (products t)
             (outcomes http_get now lower (products t) (world t)) ->
  fst (check_all http_get now lower t) =
  Ok (successes (outcomes http_get now lower (products t) (world t)))
  /\ products (snd (check_all http_get now lower t)) =
     all_appended (products t)
                  (outcomes http_get now lower (products t) (world t)).
Proof.
  intros Hnd Hrep. destruct (products t) as [|kv st] eqn:E.
  - unfold check_all, bind, get_products. rewrite E. cbn. now rewrite E.
  - destruct (check_all_frame World http_get now lower t)
      as [t' [Hrun [Hst _]]];
      [now rewrite E|now rewrite E|now rewrite E|].
    rewrite E in Hrun, Hst. rewrite Hrun. cbn [fst snd]. now split.
Qed.

Lemma check_all_raises (t : tracker World) :
  NoDup (keys (products t)) ->
  ~ reportable (products t)
               (outcomes http_get now lower (products t) (world t)) ->
  fst (check_all http_get now lower t) = Raise ZeroDivisionError.
Proof.
  intros Hnd Hrep. destruct (products t) as [|kv st] eqn:E.
  { exfalso. apply Hrep. exact I. }
  rewrite (check_all_shape t kv st E).
  pose proof (check_loop_raises (kv :: st) []
                {| products := products t; world := world t;
                   log := log t ++
                     [Print (MsgCheckingAll (List.length (kv :: st)))] |}
                0) as Hraise.
  cbn [products world app] in Hraise.
  specialize (Hraise E Hnd Hrep).
  destruct (check_loop _ _ _ _ _ _) as [[updated|e] t1];
    cbn [fst] in *; [discriminate|exact Hraise].
Qed.

(** X14.  On a store whose names are distinct, [check_all] returns
    exactly when no product whose extraction succeeds in this run was
    last seen at the price zero, and ends in [ZeroDivisionError]
    otherwise; it ends in no other exception. *)
Theorem check_all_returns_iff (t : tracker World) :
  NoDup (keys (products t)) ->
  ((exists n : nat, fst (check_all http_get now lower t) = Ok n)
   <-> reportable (products t)
                  (outcomes http_get now lower (products t) (world t)))
  /\ (fst (check_all http_get now lower t) = Raise ZeroDivisionError
      <-> ~ reportable (products t)
                       (outcomes http_get now lower (products t)
                                 (world t))).
Proof.
  intros Hnd. split; split.
  - intros [n Hok].
    destruct (reportable_dec (products t)
                (outcomes http_get now lower (products t) (world t)))
      as [H|H]; [exact H|].
    rewrite (check_all_raises t Hnd H) in Hok. discriminate.
  - intros H. eexists. exact (proj1 (check_all_returns t Hnd H)).
  - intros Hraise H.
    rewrite (proj1 (check_all_returns t Hnd H)) in Hraise. discriminate.
  - exact (check_all_raises t Hnd).
Qed.

Lemma successes_le (outs : list (option observation)) :
  successes outs <= List.length outs.
Proof. unfold successes. apply filter_length_le. Qed.

(** X15.  On a store whose names are distinct and where no product
    whose extraction succeeds was last seen at the price zero,
    [check_all] returns the number M of products whose extraction
    succeeds, which is at most the number of products; each of those
    products has one observation more and the others are as they were,
    so the store holds M observations more than before. *)
Theorem check_all_appends_successes (t : tracker World) :
  NoDup (keys (products t)) ->
  reportable (products t)
             (outcomes http_get now lower (products t) (world t)) ->
  fst (check_all http_get now lower t) =
  Ok (successes (outcomes http_get now lower (products t) (world t)))
  /\ products (snd (check_all http_get now lower t)) =
     all_appended (products t)
                  (outcomes http_get now lower (products t) (world t))
  /\ successes (outcomes http_get now lower (products t) (world t))
     <= List.length (products t)
  /\ total_observations (products (snd (check_all http_get now lower t)))
     = total_observations (products t)
       + successes (outcomes http_get now lower (products t) (world t)).
Proof.
  intros Hnd Hrep. destruct (check_all_returns t Hnd Hrep) as [Hok Hst].
  split; [exact Hok|]. split; [exact Hst|]. split.
  - rewrite <- (outcomes_length http_get now lower (products t) (world t)).
    apply successes_le.
  - rewrite Hst. apply all_appended_total. apply outcomes_length.
Qed.

(** The requests of the loop: the URLs of the products it visits, in
    their order. *)
Lemma check_loop_requests (todo : store) :
  forall (done : store) (t : tracker World) (n : nat),
    products t = done ++ todo ->
    NoDup (keys (done ++ todo)) ->
    exists (trace : list event) (later : list pystr),
      log (snd (check_loop http_get now lower (keys todo) n t))
      = log t ++ trace
      /\ map (fun kv => url (snd kv)) todo = requests trace ++ later
      /\ (later = []
          \/ exists e : exn,
               fst (check_loop http_get now lower (keys todo) n t)
               = Raise e).
Proof.
  induction todo as [|[key pr] rest IH]; intros done t n Hp Hnd.
  { exists [], []. cbn. rewrite app_nil_r. auto. }
  pose proof (not_in_done key pr done rest Hnd) as Hk.
  change (keys ((key, pr) :: rest)) with (key :: keys rest).
  rewrite (check_loop_step key pr done rest n t Hp Hk). cbv zeta.
  destruct (scraped http_get lower (url pr) (world t)) as [v|].
  - unfold bind.
    match goal with
    | |- context [report_price v ?p ?t0] =>
        pose proof (reports_report_price v p t0) as [Hst [Hw [msgs Hl]]];
        destruct (report_price v p t0) as [[[]|e] t4]
    end; cbn [snd fst products world log] in *.
    + destruct (IH (done ++ [(key, {| name := name pr; url := url pr;
                      prices := prices pr ++
                        [{| date := fst (now (snd (http_get (url pr) (world t))));
                            price := v |}] |})]) t4 (S n))
        as [trace [later [Hlog [Hreq Hend]]]].
      * rewrite Hst. now rewrite <- app_assoc.
      * rewrite <- app_assoc. cbn [app]. unfold keys in *.
        rewrite map_app in *. exact Hnd.
      * exists ((Print (MsgChecking key)
                 :: scrape_log http_get (url pr) (world t))
                ++ [Clock] ++ map Print msgs ++ trace), later.
        split; [|split].
        -- rewrite Hlog, Hl. repeat rewrite <- app_assoc. reflexivity.
        -- cbn [map snd]. rewrite Hreq.
           rewrite !TrackerFacts.requests_app.
           cbn [requests flat_map app]. fold (requests (scrape_log http_get (url pr) (world t))).
           rewrite TrackerFacts.requests_scrape_log, requests_prints.
           reflexivity.
        -- exact Hend.
    + exists ((Print (MsgChecking key)
               :: scrape_log http_get (url pr) (world t))
              ++ [Clock] ++ map Print msgs),
             (map (fun kv => url (snd kv)) rest).
      split; [|split].
      * rewrite Hl. repeat rewrite <- app_assoc. reflexivity.
      * cbn [map snd]. rewrite !TrackerFacts.requests_app.
        cbn [requests flat_map app]. fold (requests (scrape_log http_get (url pr) (world t))).
        rewrite TrackerFacts.requests_scrape_log, requests_prints.
        reflexivity.
      * right. now exists e.
  - destruct (IH (done ++ [(key, pr)])
                {| products := products t;
                   world := snd (http_get (url pr) (world t));
                   log := (log t ++ Print (MsgChecking key)
                                 :: scrape_log http_get (url pr) (world t))
                          ++ [Print MsgFailed] |} n)
      as [trace [later [Hlog [Hreq Hend]]]].
    + cbn [products]. rewrite Hp. now rewrite <- app_assoc.
    + now rewrite <- app_assoc.
    + cbn [log] in Hlog.
      exists ((Print (MsgChecking key)
               :: scrape_log http_get (url pr) (world t))
              ++ [Print MsgFailed] ++ trace), later.
      split; [|split].
      * rewrite Hlog. repeat rewrite <- app_assoc. reflexivity.
      * cbn [map snd]. rewrite Hreq. rewrite !TrackerFacts.requests_app.
        cbn [requests flat_map app]. fold (requests (scrape_log http_get (url pr) (world t))).
        rewrite TrackerFacts.requests_scrape_log. reflexivity.
      * exact Hend.
Qed.

(** X16.  On a store whose names are distinct, the requests of a run of
    [check_all] are the URLs of the products in the order of the store,
    one request for each product: all of them when the run returns, and
    those up to the product at which it stopped when it ends in an
    exception.  No other request is made. *)
Theorem check_all_requests_in_order (t : tracker World) :
  NoDup (keys (products t)) ->
  exists (trace : list event) (later : list pystr),
    log (snd (check_all http_get now lower t)) = log t ++ trace
    /\ map (fun kv => url (snd kv)) (products t) = requests trace ++ later
    /\ (later = []
        \/ exists e : exn, fst (check_all http_get now lower t) = Raise e).
Proof.
  intros Hnd. destruct (products t) as [|kv st] eqn:E.
  - exists [Print MsgNothingTracked], [].
    unfold check_all, bind, get_products. rewrite E. cbn. auto.
  - rewrite (check_all_shape t kv st E).
    destruct (check_loop_requests (kv :: st) []
                {| products := products t; world := world t;
                   log := log t ++
                     [Print (MsgCheckingAll (List.length (kv :: st)))] |}
                0) as [trace [later [Hlog [Hreq Hend]]]];
      [exact E|exact Hnd|].
    destruct (check_loop _ _ _ _ _ _) as [[updated|e] t1];
      cbn [fst snd log] in *.
    + exists ((Print (MsgCheckingAll (List.length (kv :: st))) :: trace)
              ++ [Save (products t1);
                  Print (MsgUpdated updated (List.length (products t1)))]),
             later.
      split; [|split].
      * rewrite Hlog. repeat rewrite <- app_assoc. reflexivity.
      * rewrite Hreq. rewrite TrackerFacts.requests_app.
        cbn [requests flat_map app]. fold (requests trace).
        now rewrite app_nil_r.
      * destruct Hend as [H|[e H]]; [now left|discriminate].
    + exists (Print (MsgCheckingAll (List.length (kv :: st))) :: trace),
             later.
      split; [|split].
      * rewrite Hlog. rewrite <- app_assoc. reflexivity.
      * rewrite Hreq. reflexivity.
      * right. now exists e.
Qed.

End Env.

End EffectFacts.

(** ** The effect theorems at concrete inputs *)

Module EffectRuns.
Import Text Extract Tracker Spec Examples.

Lemma two_lamps_distinct : NoDup (keys two_lamps).
Proof.
  repeat constructor; intros H; vm_compute in H; intuition discriminate.
Qed.

Lemma two_lamps_previous_nonzero : Forall previous_nonzero two_lamps.
Proof. repeat constructor. Qed.

Lemma two_lamps_reportable :
  reportable two_lamps
    (outcomes (serve (Some five_dollar_page)) now lower two_lamps 0).
Proof. vm_compute. repeat split. Qed.

Lemma add_product_keeps_products_witness :
  lookup (lit "desk") (products (start two_lamps))
  = Some (snd (item "desk" [PyFloat.of_Z 100; PyFloat.of_Z 95]))
  /\ lookup (lit "desk")
       (products
          (snd (add_product (serve (Some five_dollar_page)) now lower
                            (lit "https://shop.example/pen") (lit "pen")
                            (start two_lamps))))
     = Some (snd (item "desk" [PyFloat.of_Z 100; PyFloat.of_Z 95])).
Proof.
  split; [reflexivity|].
  apply (EffectFacts.add_product_keeps_products World
           (serve (Some five_dollar_page)) now lower
           (lit "https://shop.example/pen") (lit "pen") (lit "desk")
           (snd (item "desk" [PyFloat.of_Z 100; PyFloat.of_Z 95]))
           (start two_lamps)).
  reflexivity.
Defined.

Lemma check_alerts_reports_drops_witness :
  products (start two_lamps) <> []
  /\ Forall previous_nonzero (products (start two_lamps))
  /\ check_alerts (PyFloat.of_Z 10) (start two_lamps) =
     (Ok tt,
      {| products := products (start two_lamps);
         world := world (start two_lamps);
         log := log (start two_lamps) ++
                Print (MsgCheckingDrops (PyFloat.of_Z 10))
                :: match flat_map (drop_alert (PyFloat.of_Z 10))
                                  (products (start two_lamps)) with
                   | [] => [Print MsgNoDrops]
                   | a :: alerts =>
                       map (fun a => Print (MsgAlert (alert_name a)
                                                     (previous a) (current a)
                                                     (drop a)))
                           (a :: alerts)
                   end |}).
Proof.
  split; [discriminate|]. split; [exact two_lamps_previous_nonzero|].
  apply (EffectFacts.check_alerts_reports_drops World (PyFloat.of_Z 10)
           (start two_lamps)).
  - discriminate.
  - exact two_lamps_previous_nonzero.
Defined.

Lemma check_all_returns_iff_witness :
  NoDup (keys (products (start two_lamps)))
  /\ ((exists n : nat,
         fst (check_all (serve (Some five_dollar_page)) now lower
                        (start two_lamps)) = Ok n)
      <-> reportable (products (start two_lamps))
            (outcomes (serve (Some five_dollar_page)) now lower
                      (products (start two_lamps))
                      (world (start two_lamps))))
  /\ (fst (check_all (serve (Some five_dollar_page)) now lower
                     (start two_lamps)) = Raise ZeroDivisionError
      <-> ~ reportable (products (start two_lamps))
              (outcomes (serve (Some five_dollar_page)) now lower
                        (products (start two_lamps))
                        (world (start two_lamps)))).
Proof.
  split; [exact two_lamps_distinct|].
  apply (EffectFacts.check_all_returns_iff World
           (serve (Some five_dollar_page)) now lower (start two_lamps)).
  exact two_lamps_distinct.
Defined.

Lemma check_all_appends_successes_witness :
  NoDup (keys (products (start two_lamps)))
  /\ reportable (products (start two_lamps))
       (outcomes (serve (Some five_dollar_page)) now lower
                 (products (start two_lamps)) (world (start two_lamps)))
  /\ fst (check_all (serve (Some five_dollar_page)) now lower
                    (start two_lamps)) = Ok 3
  /\ total_observations
       (products (snd (check_all (serve (Some five_dollar_page)) now lower
                                 (start two_lamps))))
     = total_observations two_lamps + 3.
Proof.
  split; [exact two_lamps_distinct|].
  split; [exact two_lamps_reportable|].
  destruct (EffectFacts.check_all_appends_successes World
              (serve (Some five_dollar_page)) now lower (start two_lamps)
              two_lamps_distinct two_lamps_reportable)
    as [Hok [_ [_ Htotal]]].
  split; [exact Hok|exact Htotal].
Defined.

Lemma check_all_requests_in_order_witness :
  NoDup (keys (products (start two_lamps)))
  /\ exists (trace : list event) (later : list pystr),
       log (snd (check_all (serve (Some five_dollar_page)) now lower
                           (start two_lamps)))
       = log (start two_lamps) ++ trace
       /\ map (fun kv => url (snd kv)) (products (start two_lamps))
          = requests trace ++ later
       /\ (later = []
           \/ exists e : exn,
                fst (check_all (serve (Some five_dollar_page)) now lower
                               (start two_lamps)) = Raise e).
Proof.
  split; [exact two_lamps_distinct|].
  apply (EffectFacts.check_all_requests_in_order World
           (serve (Some five_dollar_page)) now lower (start two_lamps)).
  exact two_lamps_distinct.
Defined.

End EffectRuns.

(** ** [show_history]: when it returns *)

Module HistoryFacts.
Import Text Tracker Spec.

Lemma zero_not_all_nonzero (l : list observation) :
  Exists (fun o => PyFloat.eqb (price o) PyFloat.pzero = true) l ->
  ~ Forall (fun o => PyFloat.eqb (price o) PyFloat.pzero = false) l.
Proof.
  intros HE HF. apply Exists_exists in HE. destruct HE as [o [Hin Hz]].
  rewrite Forall_forall in HF. specialize (HF o Hin). congruence.
Qed.

Lemma nth_last_1_some {A : Type} (a : A) (l : list A) :
  exists b : A, nth_last 1 (a :: l) = Some b.
Proof.
  unfold nth_last. destruct (nth_error (a :: l) (List.length (a :: l) - 1))
    as [b|] eqn:E; [now exists b|].
  apply nth_error_None in E. cbn [List.length] in E. lia.
Qed.

Section History.

Variable format_date : pystr -> result pystr.

Local Abbreviation dates_ok := (Spec.dates_ok format_date) (only parsing).

(** The loop past the first row: it raises at the first entry that
    follows a price of zero. *)
Lemma history_loop_cases (entries : list observation) :
  forall (done : list observation) (p : observation),
    dates_ok entries ->
    (Exists (fun o => PyFloat.eqb (price o) PyFloat.pzero = true)
            (removelast (p :: entries))
     /\ snd (history_loop format_date (done ++ p :: entries)
                          (S (List.length done)) entries)
        = Raise ZeroDivisionError)
    \/ (Forall (fun o => PyFloat.eqb (price o) PyFloat.pzero = false)
               (removelast (p :: entries))
        /\ snd (history_loop format_date (done ++ p :: entries)
                             (S (List.length done)) entries)
           = Ok tt).
Proof.
  induction entries as [|e rest IH]; intros done p Hd.
  { right. split; [constructor|reflexivity]. }
  change (removelast (p :: e :: rest)) with (p :: removelast (e :: rest)).
  inversion Hd as [|? ? [s Hs] Hd']; subst.
  cbn [history_loop]. unfold history_row. rewrite Hs.
  cbn [Nat.ltb Nat.leb]. rewrite Nat.sub_1_r. cbn [Nat.pred].
  rewrite nth_error_app2 by lia. rewrite Nat.sub_diag. cbn [nth_error].
  unfold PyFloat.div.
  destruct (PyFloat.eqb (price p) PyFloat.pzero) eqn:Ez.
  - left. split; [now constructor|reflexivity].
  - specialize (IH (done ++ [p]) e Hd').
    rewrite <- app_assoc in IH. cbn [app] in IH.
    rewrite length_app in IH. cbn [List.length] in IH.
    rewrite Nat.add_1_r in IH.
    destruct (history_loop format_date (done ++ p :: e :: rest)
                (S (S (List.length done))) rest) as [rows r].
    cbn [snd] in *. destruct IH as [[HE Hr]|[HF Hr]].
    + left. split; [now apply Exists_cons_tl|exact Hr].
    + right. split; [now constructor|exact Hr].
Qed.

Lemma show_history_cases (st : store) (key : pystr) (pr : product) :
  lookup key st = Some pr ->
  dates_ok (prices pr) ->
  (Exists (fun o => PyFloat.eqb (price o) PyFloat.pzero = true)
          (removelast (prices pr))
   /\ snd (show_history format_date st key) = Raise ZeroDivisionError)
  \/ (Forall (fun o => PyFloat.eqb (price o) PyFloat.pzero = false)
             (removelast (prices pr))
      /\ snd (show_history format_date st key) = Ok tt).
Proof.
  intros Hl Hd. unfold show_history, mem. rewrite Hl. cbn [negb].
  destruct (prices pr) as [|first rest] eqn:E.
  { right. split; [constructor|reflexivity]. }
  inversion Hd as [|? ? [s Hs] Hd']; subst.
  cbn [history_loop]. unfold history_row. rewrite Hs.
  cbn [Nat.ltb Nat.leb].
  pose proof (history_loop_cases rest [] first Hd') as Hc.
  cbn [app List.length] in Hc.
  destruct (history_loop format_date (first :: rest) 1 rest) as [rows r].
  cbn [snd] in Hc. destruct Hc as [[HE Hr]|[HF Hr]]; subst r.
  - left. split; [exact HE|reflexivity].
  - right. split; [exact HF|].
    destruct rest as [|second rest]; [reflexivity|].
    change (removelast (first :: second :: rest))
      with (first :: removelast (second :: rest)) in HF.
    inversion HF as [|? ? Hz _]; subst.
    cbn [List.length Nat.leb].
    destruct (nth_last_1_some first (second :: rest)) as [latest ->].
    unfold PyFloat.div. now rewrite Hz.
Qed.

(** X17.  For a product of the store whose dates can all be read,
    [show_history] ends in [ZeroDivisionError] exactly when an
    observation other than the last has the price zero, and returns
    otherwise.  The division of the closing summary by the first price
    is never the one that fails: a first price of zero has already
    stopped the table at its second row. *)
Theorem show_history_raises_iff (st : store) (key : pystr) (pr : product) :
  lookup key st = Some pr ->
  dates_ok (prices pr) ->
  (snd (show_history format_date st key) = Raise ZeroDivisionError
   <-> Exists (fun o => PyFloat.eqb (price o) PyFloat.pzero = true)
              (removelast (prices pr)))
  /\ (snd (show_history format_date st key) = Ok tt
      <-> Forall (fun o => PyFloat.eqb (price o) PyFloat.pzero = false)
                 (removelast (prices pr))).
Proof.
  intros Hl Hd.
  destruct (show_history_cases st key pr Hl Hd) as [[HE Hr]|[HF Hr]];
    rewrite Hr; split; split; intros H; try assumption; try reflexivity;
    try discriminate.
  - exfalso. exact (zero_not_all_nonzero _ HE H).
  - exfalso. exact (zero_not_all_nonzero _ H HF).
Qed.

End History.

Import Examples.

Lemma show_history_raises_iff_witness :
  lookup (lit "gift") was_free
  = Some (snd (item "gift" [PyFloat.pzero; PyFloat.of_Z 5]))
  /\ Spec.dates_ok format_date
       (prices (snd (item "gift" [PyFloat.pzero; PyFloat.of_Z 5])))
  /\ snd (show_history format_date was_free (lit "gift"))
     = Raise ZeroDivisionError
  /\ snd (show_history format_date was_free (lit "lamp")) = Ok tt.
Proof.
  assert (Hd : forall ps : list float,
             Spec.dates_ok format_date (map obs ps)).
  { intros ps. induction ps as [|p ps IH]; constructor; [|exact IH].
    eexists. reflexivity. }
  split; [reflexivity|]. split; [apply Hd|]. split.
  - apply (proj1 (show_history_raises_iff format_date was_free (lit "gift")
                    (snd (item "gift" [PyFloat.pzero; PyFloat.of_Z 5]))
                    eq_refl (Hd _))).
    left. reflexivity.
  - apply (proj2 (show_history_raises_iff format_date was_free (lit "lamp")
                    (snd (item "lamp" [PyFloat.of_Z 100; PyFloat.of_Z 85]))
                    eq_refl (Hd _))).
    repeat constructor.
Defined.

End HistoryFacts.

(** ** [_show_product_stats]: when it returns *)

Module StatsFacts.
Import Text Tracker Spec.

(** One comparison of [min]: the smaller of two prices that are not
    negative is zero when one of them is. *)
Lemma min_step (x y : float) :
  PyFloat.nonneg x = true ->
  PyFloat.nonneg y = true ->
  PyFloat.nonneg (if PyFloat.ltb y x then y else x) = true
  /\ PyFloat.eqb (if PyFloat.ltb y x then y else x) PyFloat.pzero
     = PyFloat.eqb x PyFloat.pzero || PyFloat.eqb y PyFloat.pzero.
Proof.
  intros Hx Hy. split; [now destruct (PyFloat.ltb y x)|].
  destruct x as [sx|sx| |sx mx ex], y as [sy|sy| |sy my ey];
    try discriminate;
    try (destruct sx; try discriminate);
    try (destruct sy; try discriminate);
    try reflexivity.
  destruct (PyFloat.ltb _ _); reflexivity.
Qed.

(** The least of prices that are not negative is zero exactly when one
    of them is. *)
Lemma py_min_zero (xs : list float) :
  forall x : float,
    PyFloat.nonneg x = true ->
    Forall (fun v => PyFloat.nonneg v = true) xs ->
    PyFloat.eqb (py_min x xs) PyFloat.pzero
    = existsb (fun v => PyFloat.eqb v PyFloat.pzero) (x :: xs).
Proof.
  induction xs as [|y ys IH]; intros x Hx Hxs.
  - cbn. now rewrite orb_false_r.
  - inversion Hxs as [|? ? Hy Hys]; subst.
    destruct (min_step x y Hx Hy) as [Hn Hz].
    change (py_min x (y :: ys))
      with (py_min (if PyFloat.ltb y x then y else x) ys).
    etransitivity; [exact (IH _ Hn Hys)|].
    cbn [existsb]. etransitivity; [apply f_equal2; [exact Hz|reflexivity]|].
    now rewrite orb_assoc.
Qed.

Section Env.

Variable World : Type.
Variable volatility : list float -> result float.

(** How [_show_product_stats] ends on a product with observations: by
    the division of the spread by the lowest price. *)
Lemma show_product_stats_end (key : pystr) (p : product)
      (first_price : float) (others : list float) (t : tracker World) :
  map price (prices p) = first_price :: others ->
  (1 < List.length (prices p) ->
   exists v : float, volatility (first_price :: others) = Ok v) ->
  fst (_show_product_stats volatility key p t)
  = if PyFloat.eqb (py_min first_price others) PyFloat.pzero
    then Raise ZeroDivisionError else Ok tt.
Proof.
  intros E Hv. unfold _show_product_stats. rewrite E.
  unfold bind at 1. unfold print at 1, emit at 1. cbv beta iota.
  unfold bind at 1.
  assert (Hpct : forall t0 : tracker World,
             exists c : float,
               (if PyFloat.neb first_price PyFloat.pzero
                then bind (lift (PyFloat.div
                                   (PyFloat.sub (last (first_price :: others)
                                                      first_price)
                                                first_price)
                                   first_price))
                          (fun q => ret (PyFloat.mul q (PyFloat.of_Z 100)))
                else ret (PyFloat.of_Z 0)) t0 = (Ok c, t0)).
  { intros t0. unfold PyFloat.neb, PyFloat.div, PyFloat.eqb, bind, lift, ret.
    destruct (SFeqb first_price PyFloat.pzero); cbn [negb];
      eexists; reflexivity. }
  match goal with
  | |- context [(if PyFloat.neb _ _ then _ else _) ?t0] =>
      destruct (Hpct t0) as [c Hc]; rewrite Hc; clear Hc
  end.
  unfold bind at 1.
  assert (Hvol : forall t0 : tracker World,
             exists v : float,
               (if Nat.ltb 1 (List.length (first_price :: others))
                then lift (volatility (first_price :: others))
                else ret (PyFloat.of_Z 0)) t0 = (Ok v, t0)).
  { intros t0. destruct (Nat.ltb 1 (List.length (first_price :: others)))
      eqn:El.
    - apply Nat.ltb_lt in El. rewrite <- E, length_map in El.
      destruct (Hv El) as [v Hvv].
      exists v. unfold lift. now rewrite Hvv.
    - eexists. reflexivity. }
  match goal with
  | |- context [(if Nat.ltb 1 _ then _ else _) ?t0] =>
      destruct (Hvol t0) as [v Hvv]; rewrite Hvv; clear Hvv
  end.
  unfold bind, print, emit, lift, PyFloat.div.
  destruct (PyFloat.eqb (py_min first_price others) PyFloat.pzero);
    reflexivity.
Qed.

(** X18.  For a product whose stored prices are numbers that are not
    negative and whose volatility can be computed,
    [_show_product_stats] ends in [ZeroDivisionError] exactly when some
    observation of the product has the price zero (the lowest price is
    then zero), and returns otherwise; a product with no observation
    is reported as having no data. *)
Theorem show_product_stats_raises_iff (key : pystr) (p : product)
        (t : tracker World) :
  entries_ok (prices p) ->
  (1 < List.length (prices p) ->
   exists v : float, volatility (map price (prices p)) = Ok v) ->
  (fst (_show_product_stats volatility key p t) = Raise ZeroDivisionError
   <-> Exists (fun o => PyFloat.eqb (price o) PyFloat.pzero = true)
              (prices p))
  /\ (fst (_show_product_stats volatility key p t) = Ok tt
      <-> Forall (fun o => PyFloat.eqb (price o) PyFloat.pzero = false)
                 (prices p)).
Proof.
  intros Hok Hv.
  destruct (map price (prices p)) as [|first_price others] eqn:E.
  { apply map_eq_nil in E.
    unfold _show_product_stats, bind, print, emit. rewrite E. cbn.
    split; split; intros H.
    - discriminate.
    - inversion H.
    - constructor.
    - reflexivity. }
  rewrite (show_product_stats_end key p first_price others t E Hv).
  assert (Hnn : Forall (fun v => PyFloat.nonneg v = true)
                       (first_price :: others)).
  { rewrite <- E. apply Forall_map. exact Hok. }
  inversion Hnn as [|? ? Hf Ho]; subst.
  rewrite (py_min_zero others first_price Hf Ho), <- E.
  destruct (existsb (fun v => PyFloat.eqb v PyFloat.pzero)
                    (map price (prices p))) eqn:Ex.
  - apply existsb_exists in Ex. destruct Ex as [v [Hin Hz]].
    apply in_map_iff in Hin. destruct Hin as [o [<- Hin]].
    assert (HE : Exists (fun o => PyFloat.eqb (price o) PyFloat.pzero = true)
                        (prices p)).
    { apply Exists_exists. now exists o. }
    split; split; intros H; try assumption; try reflexivity;
      try discriminate.
    exfalso. exact (HistoryFacts.zero_not_all_nonzero _ HE H).
  - assert (HF : Forall (fun o => PyFloat.eqb (price o) PyFloat.pzero = false)
                        (prices p)).
    { apply Forall_forall. intros o Hin.
      destruct (PyFloat.eqb (price o) PyFloat.pzero) eqn:Ez; [|reflexivity].
      assert (Ht : existsb (fun v => PyFloat.eqb v PyFloat.pzero)
                           (map price (prices p)) = true).
      { apply existsb_exists. exists (price o). split; [|exact Ez].
        now apply in_map. }
      congruence. }
    split; split; intros H; try assumption; try reflexivity;
      try discriminate.
    exfalso. exact (HistoryFacts.zero_not_all_nonzero _ H HF).
Qed.

End Env.

Import Examples.

Lemma show_product_stats_raises_iff_witness :
  entries_ok (prices (snd (item "gift" [PyFloat.pzero; PyFloat.of_Z 5])))
  /\ (1 < List.length
            (prices (snd (item "gift" [PyFloat.pzero; PyFloat.of_Z 5]))) ->
      exists v : float,
        volatility
          (map price
               (prices (snd (item "gift" [PyFloat.pzero; PyFloat.of_Z 5]))))
        = Ok v)
  /\ fst (_show_product_stats volatility (lit "gift")
            (snd (item "gift" [PyFloat.pzero; PyFloat.of_Z 5])) (start []))
     = Raise ZeroDivisionError.
Proof.
  assert (H1 : entries_ok
                 (prices (snd (item "gift" [PyFloat.pzero; PyFloat.of_Z 5]))))
    by (repeat constructor).
  assert (H2 : 1 < List.length
                     (prices (snd (item "gift"
                                        [PyFloat.pzero; PyFloat.of_Z 5]))) ->
               exists v : float,
                 volatility
                   (map price
                        (prices (snd (item "gift"
                                           [PyFloat.pzero; PyFloat.of_Z 5]))))
                 = Ok v)
    by (intros _; eexists; reflexivity).
  split; [exact H1|]. split; [exact H2|].
  apply (proj1 (show_product_stats_raises_iff World volatility (lit "gift")
                  (snd (item "gift" [PyFloat.pzero; PyFloat.of_Z 5]))
                  (start []) H1 H2)).
  left. reflexivity.
Defined.

End StatsFacts.

(** ** [add_product] and then [check_all] *)

Module ChainFacts.
Import Text Extract Tracker Spec StoreFacts.

Lemma mem_false_not_in (key : pystr) (st : store) :
  mem key st = false -> ~ In key (keys st).
Proof.
  unfold mem. induction st as [|[k w] st IH]; simpl; [tauto|].
  destruct (str_eqb key k) eqn:E; [discriminate|].
  intros H [Hk|Hin]; [|now apply IH].
  subst k. now rewrite str_eqb_refl in E.
Qed.

Lemma NoDup_keys_snoc (key : pystr) (v : product) (st : store) :
  NoDup (keys st) -> mem key st = false -> NoDup (keys (st ++ [(key, v)])).
Proof.
  intros Hnd Hm. unfold keys in *. rewrite map_app. cbn [map fst].
  apply NoDup_app; [exact Hnd|repeat constructor; simpl; tauto|].
  intros k Hin [<-|[]]. exact (mem_false_not_in _ _ Hm Hin).
Qed.

Section Env.

Variable World : Type.
Variable http_get : pystr -> World -> option Soup * World.
Variable now : World -> pystr * World.
Variable lower : pystr -> pystr.

(** A store whose last product shows a price at every request and was
    last seen at zero cannot be checked without a division by zero. *)
Lemma not_reportable_last (kv : pystr * product) (items : store) :
  (forall w : World, scraped http_get lower (url (snd kv)) w <> None) ->
  ~ latest_nonzero kv ->
  forall w : World,
    ~ reportable (items ++ [kv])
                 (outcomes http_get now lower (items ++ [kv]) w).
Proof.
  intros Hs Hz. induction items as [|[k pr] items IH]; intros w.
  - destruct kv as [k pr]. cbn [app outcomes]. cbn [snd] in Hs.
    destruct (scraped http_get lower (url pr) w) eqn:E.
    + intros [H _]. exact (Hz H).
    + exfalso. exact (Hs w E).
  - cbn [app outcomes].
    destruct (scraped http_get lower (url pr) w);
      intros [_ H]; exact (IH _ H).
Qed.

(** X19.  A product added while its page shows a price that reads as
    zero blocks [check_all]: on the store that [add_product] saved, in
    any later surroundings in which that page still shows a price,
    [check_all] ends in [ZeroDivisionError]. *)
Theorem zero_price_blocks_check_all (u key : pystr) (v : float)
        (t t2 : tracker World) :
  NoDup (keys (products t)) ->
  mem key (products t) = false ->
  scraped http_get lower u (world t) = Some v ->
  PyFloat.eqb v PyFloat.pzero = true ->
  (forall w : World, scraped http_get lower u w <> None) ->
  products t2 = products (snd (add_product http_get now lower u key t)) ->
  fst (check_all http_get now lower t2) = Raise ZeroDivisionError.
Proof.
  intros Hnd Hm Hv Hz Hs Hp.
  pose proof (TrackerFacts.add_product_new_run
                World http_get now lower t u key Hm) as Hrun.
  cbv zeta in Hrun. rewrite Hrun in Hp. cbn [snd products] in Hp.
  rewrite Hv in Hp.
  apply EffectFacts.check_all_raises; rewrite Hp.
  - now apply NoDup_keys_snoc.
  - apply not_reportable_last; [exact Hs|].
    unfold latest_nonzero. cbn [snd prices rev app price]. congruence.
Qed.

End Env.

Import Examples.

Lemma zero_price_blocks_check_all_witness :
  NoDup (keys (products (start [])))
  /\ mem (lit "gift") (products (start [])) = false
  /\ scraped (serve (Some free_page)) lower (lit "https://shop.example/item")
             (world (start [])) = Some PyFloat.pzero
  /\ PyFloat.eqb PyFloat.pzero PyFloat.pzero = true
  /\ (forall w : World,
        scraped (serve (Some free_page)) lower
                (lit "https://shop.example/item") w <> None)
  /\ fst (check_all (serve (Some free_page)) now lower
            (start
               (products
                  (snd (add_product (serve (Some free_page)) now lower
                          (lit "https://shop.example/item") (lit "gift")
                          (start []))))))
     = Raise ZeroDivisionError.
Proof.
  assert (Hs : forall w : World,
             scraped (serve (Some free_page)) lower
                     (lit "https://shop.example/item") w <> None)
    by (intros w; vm_compute; discriminate).
  split; [constructor|]. split; [reflexivity|].
  split; [vm_compute; reflexivity|]. split; [reflexivity|].
  split; [exact Hs|].
  apply (zero_price_blocks_check_all World (serve (Some free_page)) now lower
           (lit "https://shop.example/item") (lit "gift") PyFloat.pzero
           (start [])).
  - constructor.
  - reflexivity.
  - vm_compute. reflexivity.
  - reflexivity.
  - exact Hs.
  - reflexivity.
Defined.

End ChainFacts.
